(** * Starlink satellite monitor: a shallow embedding of the Python backend

    The development follows the layout of [src/backend]:

    - [collectors/satellites.py]          -> [Module SatelliteCollector]
    - [collectors/spacetrack.py]          -> [Module SpaceTrackCollector]
    - [collectors/enhanced_satellites.py] -> [Module EnhancedSatelliteCollector]
    - [app.py] (class [MonitoringService]) -> [Module MonitoringService]

    Conventions of the embedding.

    - A Python [float] is a real number ([R]) and arithmetic is exact: rounding,
      signed zeros, infinities and NaN are outside the model.
    - A Python [str] is a [string], read as a sequence of code points below 256.
    - A [datetime] is an integer number of microseconds, a [timedelta] too.
    - A Python exception is a value [Raise e] of the type [result]; [try/except]
      is [try_except].
    - What the program obtains from outside (HTTP replies, clock readings,
      random draws, the [sgp4] package, the builtin [float]) is an argument of
      the definition that uses it. *)

From Stdlib Require Import ZArith List String Ascii Bool Arith Lia DecimalString.
From Stdlib Require Import Reals Lra.
From Stdlib Require Import Sorting.Sorted Sorting.Permutation.
Import ListNotations.

Local Open Scope string_scope.
Local Open Scope list_scope.

(** ** Exceptions *)

Inductive exn : Type :=
| ValueError
| ZeroDivisionError
| OverflowError
| KeyError
| IndexError
| TypeError
| RequestException.

Inductive result (A : Type) : Type :=
| Ok (a : A)
| Raise (e : exn).

Arguments Ok {A} a.
Arguments Raise {A} e.

Definition bind {A B : Type} (m : result A) (k : A -> result B) : result B :=
  match m with
  | Ok a => k a
  | Raise e => Raise e
  end.

Notation "x <- m ;; k" := (bind m (fun x => k))
  (at level 61, m at next level, right associativity).

(** [try: body except Exception: handler] *)
Definition try_except {A : Type} (body : result A) (handler : A) : A :=
  match body with
  | Ok a => a
  | Raise _ => handler
  end.

(** [try: body except Exception: return None] for a body that returns a value. *)
Definition try_or_none {A : Type} (body : result A) : option A :=
  match body with
  | Ok a => Some a
  | Raise _ => None
  end.

(** ** The Python builtins on strings that the collectors use *)

Module Py.

Definition code (c : ascii) : nat := nat_of_ascii c.

(** [str.isspace] on one code point below 256; the set [str.strip] removes. *)
Definition isspace (c : ascii) : bool :=
  let n := code c in
  (((9 <=? n) && (n <=? 13)) || ((28 <=? n) && (n <=? 32))
   || (n =? 133) || (n =? 160))%nat.

(** The white space [int] skips around a number: the C set for a pure ASCII
    string, to which the non-ASCII spaces are added otherwise. *)
Definition int_space (c : ascii) : bool :=
  let n := code c in
  (((9 <=? n) && (n <=? 13)) || (n =? 32) || (n =? 133) || (n =? 160))%nat.

Definition isdigit (c : ascii) : bool :=
  let n := code c in ((48 <=? n) && (n <=? 57))%nat.

Fixpoint lstrip_by (sp : ascii -> bool) (s : string) : string :=
  match s with
  | EmptyString => EmptyString
  | String c s' => if sp c then lstrip_by sp s' else s
  end.

Fixpoint rstrip_by (sp : ascii -> bool) (s : string) : string :=
  match s with
  | EmptyString => EmptyString
  | String c s' =>
      match rstrip_by sp s' with
      | EmptyString => if sp c then EmptyString else String c EmptyString
      | r => String c r
      end
  end.

(** [s.strip()] *)
Definition strip (s : string) : string := lstrip_by isspace (rstrip_by isspace s).

Definition newline : ascii := ascii_of_nat 10.

(** [s.split('\n')]: never empty, [''.split('\n') == ['']]. *)
Fixpoint split_lines (s : string) : list string :=
  match s with
  | EmptyString => [EmptyString]
  | String c s' =>
      if Ascii.eqb c newline then EmptyString :: split_lines s'
      else match split_lines s' with
           | h :: t => String c h :: t
           | [] => [String c EmptyString]
           end
  end.

(** [s[i:j]] for [0 <= i <= j] *)
Definition slice (i j : nat) (s : string) : string := substring i (j - i) s.

(** [s[i:]] *)
Definition slice_from (i : nat) (s : string) : string := substring i (length s - i) s.

(** [s[0]], which raises on the empty string; the collectors only read it
    behind a length test. *)
Definition first_char (s : string) : option ascii := get 0 s.

(** Digits of a decimal literal: single underscores are allowed between
    digits, nowhere else. [seen] tells that the previous character was a
    digit. *)
Fixpoint digits (acc : Z) (seen : bool) (s : string) : option Z :=
  match s with
  | EmptyString => if seen then Some acc else None
  | String c s' =>
      if isdigit c then digits (10 * acc + Z.of_nat (code c - 48)) true s'
      else if Ascii.eqb c "_" then (if seen then digits acc false s' else None)
      else None
  end.

(** [int(s)] for a string [s]: [ValueError] unless [s] is, between white
    space, an optional sign and a decimal literal. *)
Definition int (s : string) : result Z :=
  let t := lstrip_by int_space (rstrip_by int_space s) in
  let signed :=
    match t with
    | String "+" r => digits 0 false r
    | String "-" r => option_map Z.opp (digits 0 false r)
    | _ => digits 0 false t
    end in
  match signed with
  | Some z => Ok z
  | None => Raise ValueError
  end.

(** [s.lower()] on code points below 256 *)
Definition lower_char (c : ascii) : ascii :=
  let n := code c in
  if (((65 <=? n) && (n <=? 90))
      || ((192 <=? n) && (n <=? 222) && negb (n =? 215)))%nat
  then ascii_of_nat (n + 32) else c.

Fixpoint lower (s : string) : string :=
  match s with
  | EmptyString => EmptyString
  | String c s' => String (lower_char c) (lower s')
  end.

(** [needle in s] *)
Definition contains (needle s : string) : bool :=
  match index 0 needle s with
  | Some _ => true
  | None => false
  end.

(** [str(n)] for a natural number, as an f-string formats it *)
Definition str_of_nat (n : nat) : string := NilEmpty.string_of_uint (Nat.to_uint n).

(** [bool(s)] for an optional string: [None] and [''] are false. *)
Definition truthy_str (k : option string) : bool :=
  match k with
  | Some (String _ _) => true
  | _ => false
  end.

End Py.

(** ** Time *)

Definition datetime : Type := Z.
Definition timedelta : Type := Z.

Definition timedelta_minutes (m : Z) : timedelta := (m * 60 * 1000000)%Z.

(** [(a - b).total_seconds()] *)
Definition total_seconds (a b : datetime) : R := IZR (a - b) / 1000000.

(** ** app.py: class MonitoringService *)

Module MonitoringService.

Record t : Type := mk {
  running : bool;
  update_interval : Z
}.

(** The service together with what its methods act on: the monitoring
    threads started so far and the lines printed. *)
Record process : Type := mkProcess {
  self : t;
  threads_started : nat;
  stdout : list string
}.

Definition __init__ : t := {| running := false; update_interval := 10 |}.

Definition boot : process :=
  {| self := __init__; threads_started := 0; stdout := [] |}.

Definition start (p : process) : process :=
  if running (self p) then p
  else {| self := {| running := true; update_interval := update_interval (self p) |};
          threads_started := S (threads_started p);
          stdout := stdout p ++ ["Monitoring service started"] |}.

Definition stop (p : process) : process :=
  {| self := {| running := false; update_interval := update_interval (self p) |};
     threads_started := threads_started p;
     stdout := stdout p ++ ["Monitoring service stopped"] |}.

End MonitoringService.

(** ** The [math] module on real numbers *)

Module Math.

Local Open Scope R_scope.

(** [math.radians] and [math.degrees] *)
Definition radians (x : R) : R := x * (PI / 180).
Definition degrees (x : R) : R := x * (180 / PI).

(** [x / y] on floats *)
Definition div (x y : R) : result R :=
  if Req_dec_T y 0 then Raise ZeroDivisionError else Ok (x / y).

(** [math.sqrt] *)
Definition sqrt (x : R) : result R :=
  if Rlt_dec x 0 then Raise ValueError else Ok (R_sqrt.sqrt x).

(** [math.asin] *)
Definition asin (x : R) : result R :=
  if Rlt_dec x (-1) then Raise ValueError
  else if Rlt_dec 1 x then Raise ValueError
  else Ok (Ratan.asin x).

(** [math.atan2 y x], the angle of the point [(x, y)] in [(-pi, pi]];
    [atan2 0 0 = 0]. *)
Definition atan2 (y x : R) : R :=
  if Rlt_dec 0 x then atan (y / x)
  else if Rlt_dec x 0 then
    (if Rle_dec 0 y then atan (y / x) + PI else atan (y / x) - PI)
  else if Rlt_dec 0 y then PI / 2
  else if Rlt_dec y 0 then - (PI / 2)
  else 0.

(** [x % m] on floats for a positive modulus [m]: the result has the sign of
    [m]. *)
Definition fmod (x m : R) : R := x - m * IZR (Zfloor (x / m)).

(** [x ** y] on floats for the bases the collectors raise to a power:
    positive ones. *)
Definition pow (x y : R) : R := if Rlt_dec 0 x then Rpower x y else 0.

(** [max(a, b)] and [min(a, b)] on floats *)
Definition max (a b : R) : R := if Rlt_dec a b then b else a.
Definition min (a b : R) : R := if Rlt_dec b a then b else a.

End Math.

(** ** Python's stable sort, [reverse=True]

    [list.sort(key=k, reverse=True)] and [sorted(l, key=k, reverse=True)]
    order by decreasing key and keep elements of equal key in the order they
    had. The builtin is an adaptive merge sort; what the collectors rely on is
    its contract, which determines the outcome, so an insertion sort stands
    for it here. *)

Fixpoint insert_desc {A : Type} (key : A -> R) (x : A) (l : list A) : list A :=
  match l with
  | [] => [x]
  | y :: l' => if Rlt_dec (key x) (key y) then y :: insert_desc key x l' else x :: l
  end.

Definition sort_reverse {A : Type} (key : A -> R) (l : list A) : list A :=
  fold_right (insert_desc key) [] l.

(** ** What the interpreter and the packages provide *)

Record runtime : Type := mkRuntime {
  (** the builtin [float] on a string, [ValueError] on a malformed one *)
  py_float : string -> result R;
  (** [datetime(year, 1, 1, tzinfo=timezone.utc) + timedelta(days=d)] *)
  new_year_plus_days : Z -> R -> result datetime
}.

(** ** Snapshots *)

(** A position dictionary. The collectors based on element sets write the
    keys of [TlePosition], the enhanced collector those of
    [EnhancedPosition]. *)
Inductive Position : Type :=
| TlePosition (name : string) (norad_id : Z)
    (lat lng altitude_km velocity_kmh : R) (timestamp : datetime)
| EnhancedPosition (norad_id : Z) (name : string)
    (lat lng alt velocity : R) (visibility status : string)
    (hardware_version : option string).

(** [sat.get('lat', 0)] and [sat.get('lng', 0)] *)
Definition pos_lat (p : Position) : R :=
  match p with
  | TlePosition _ _ lat _ _ _ _ => lat
  | EnhancedPosition _ _ lat _ _ _ _ _ _ => lat
  end.

Definition pos_lng (p : Position) : R :=
  match p with
  | TlePosition _ _ _ lng _ _ _ => lng
  | EnhancedPosition _ _ _ lng _ _ _ _ _ => lng
  end.

Record Coverage : Type := mkCoverage {
  global_coverage : R;
  active_satellites : nat;
  total_tracked : option nat
}.

Record Snapshot : Type := mkSnapshot {
  timestamp : datetime;
  satellite_count : nat;
  positions_calculated : nat;
  positions : list Position;
  data_source : string;
  tle_age_hours : R;
  note : option string;
  coverage : option Coverage
}.

(** An HTTP exchange of [requests]: an exception, or a status and a body. *)
Inductive http_reply (A : Type) : Type :=
| RequestFailed
| Response (status_code : Z) (body : A).

Arguments RequestFailed {A}.
Arguments Response {A} status_code body.

(** ** collectors/satellites.py *)

(** The dataclass [SatellitePosition]. *)
Record SatellitePosition : Type := mkSatellitePosition {
  sp_name : string;
  sp_norad_id : Z;
  latitude : R;
  longitude : R;
  altitude_km : R;
  velocity_kmh : R;
  sp_timestamp : datetime
}.

(** An element of [self.starlink_satellites]. *)
Record sat_data : Type := mkSat {
  name : string;
  line1 : string;
  line2 : string;
  norad_id : Z;
  epoch : datetime
}.

(** An element of the list [get_satellites_over_location] returns. *)
Record visible_satellite : Type := mkVisible {
  v_name : string;
  v_norad_id : Z;
  elevation_degrees : R;
  azimuth_degrees : R;
  distance_km : R;
  v_lat : R;
  v_lng : R;
  v_altitude_km : R
}.

(** The two [while] loops that bring a longitude back into range, lines
    290-293 of satellites.py and 304-307 of spacetrack.py. In exact arithmetic
    the first loop runs [ceil ((lon - 180) / 360)] times at most and the
    second likewise, which is the number of unfoldings given to each. *)
Fixpoint wrap_down (n : nat) (lon : R) : R :=
  match n with
  | O => lon
  | S n' => if Rgt_dec lon 180 then wrap_down n' (lon - 360) else lon
  end.

Fixpoint wrap_up (n : nat) (lon : R) : R :=
  match n with
  | O => lon
  | S n' => if Rlt_dec lon (-180) then wrap_up n' (lon + 360) else lon
  end.

Definition turns_down (lon : R) : nat := Z.to_nat (up ((lon - 180) / 360)).
Definition turns_up (lon : R) : nat := Z.to_nat (up ((-180 - lon) / 360)).

Definition normalize_longitude (lon : R) : R :=
  let lon1 := wrap_down (turns_down lon) lon in
  wrap_up (turns_up lon1) lon1.

Module SatelliteCollector.

Local Open Scope R_scope.
Import Math.

Record t : Type := mk {
  celestrak_base : string;
  starlink_satellites : list sat_data;
  last_tle_fetch : option R;
  tle_cache_duration : R
}.

Definition __init__ : t :=
  {| celestrak_base := "https://celestrak.org/NORAD/elements/";
     starlink_satellites := [];
     last_tle_fetch := None;
     tle_cache_duration := 3600 |}.

(** [not self.last_tle_fetch]: [None] and [0.0] are false values. *)
Definition no_fetch_yet (self : t) : bool :=
  match last_tle_fetch self with
  | None => true
  | Some f => if Req_dec_T f 0 then true else false
  end.

Definition _should_update_tle (self : t) (time_time : R) : bool :=
  if no_fetch_yet self then true
  else match last_tle_fetch self with
       | Some f => if Rgt_dec (time_time - f) (tle_cache_duration self) then true else false
       | None => true
       end.

Definition _get_tle_age_hours (self : t) (time_time : R) : R :=
  if no_fetch_yet self then 0
  else match last_tle_fetch self with
       | Some f => (time_time - f) / 3600
       | None => 0
       end.

Section WithRuntime.

Variable rt : runtime.

(** The [try] block of [_parse_tle_epoch]. *)
Definition parse_tle_epoch_body (epoch_str : string) : result datetime :=
  year <- Py.int (Py.slice 0 2 epoch_str) ;;
  let year := if (year <? 57)%Z then (year + 2000)%Z else (year + 1900)%Z in
  day_of_year <- py_float rt (Py.slice_from 2 epoch_str) ;;
  new_year_plus_days rt year (day_of_year - 1).

(** [utcnow] is the reading of [datetime.now(timezone.utc)] in the handler. *)
Definition _parse_tle_epoch (utcnow : datetime) (epoch_str : string) : datetime :=
  try_except (parse_tle_epoch_body epoch_str) utcnow.

(** The test "Basic validation" of [_fetch_starlink_tle_data]. *)
Definition basic_validation (line1 line2 : string) : bool :=
  (length line1 =? 69)%nat && (length line2 =? 69)%nat
  && match Py.first_char line1 with Some c => Ascii.eqb c "1" | None => false end
  && match Py.first_char line2 with Some c => Ascii.eqb c "2" | None => false end.

(** The dictionary appended for one triplet. *)
Definition triplet_record (utcnow : datetime) (name line1 line2 : string) : result sat_data :=
  norad <- Py.int (Py.slice 2 7 line1) ;;
  let ep := _parse_tle_epoch utcnow (Py.slice 18 32 line1) in
  Ok {| name := name; line1 := line1; line2 := line2; norad_id := norad; epoch := ep |}.

(** [for i in range(0, len(lines), 3): if i + 2 < len(lines): ...]: the lines
    three by three, an incomplete last group left out. [ValueError] and
    [IndexError] skip the triplet, any other exception leaves the loop. *)
Fixpoint parse_triplets (utcnow : datetime) (lines : list string) : result (list sat_data) :=
  match lines with
  | l0 :: l1 :: l2 :: rest =>
      let name := Py.strip l0 in
      let line1 := Py.strip l1 in
      let line2 := Py.strip l2 in
      if basic_validation line1 line2 then
        match triplet_record utcnow name line1 line2 with
        | Ok s => tl <- parse_triplets utcnow rest ;; Ok (s :: tl)
        | Raise ValueError | Raise IndexError => parse_triplets utcnow rest
        | Raise e => Raise e
        end
      else parse_triplets utcnow rest
  | _ => Ok []
  end.

(** [_fetch_starlink_tle_data]. [reply] is the exchange with CelesTrak, its
    body the concatenation of the chunks read; the running size passes the
    limit in the loop exactly when the whole body does. *)
Definition _fetch_starlink_tle_data (self : t) (reply : http_reply string)
    (time_time : R) (utcnow : datetime) : bool * t :=
  match reply with
  | RequestFailed => (false, self)
  | Response status_code content =>
      if negb (status_code =? 200)%Z then (false, self)
      else if (50000000 <? Z.of_nat (length content))%Z then (false, self)
      else
        let lines := Py.split_lines (Py.strip content) in
        match parse_triplets utcnow lines with
        | Raise _ => (false, self)
        | Ok satellites =>
            if (List.length satellites =? 0)%nat then (false, self)
            else (true, {| celestrak_base := celestrak_base self;
                           starlink_satellites := satellites;
                           last_tle_fetch := Some time_time;
                           tle_cache_duration := tle_cache_duration self |})
        end
  end.

(** The quantities [_calculate_satellite_position] derives on its way. *)
Record kepler : Type := mkKepler {
  k_mean_motion : R;
  k_eccentricity : R;
  k_time_diff : R;
  current_mean_anomaly : R;
  semi_major_axis : R;
  mean_anomaly_rad : R;
  eccentric_anomaly : R;
  true_anomaly : R;
  radius : R
}.

Definition mu : R := 398600.4418.

(** The [try] block of [_calculate_satellite_position], which also reports the
    intermediate quantities. *)
Definition position_body (sat : sat_data) (timestamp : datetime)
  : result (SatellitePosition * kepler) :=
  let line2 := line2 sat in
  inclination <- py_float rt (Py.slice 8 16 line2) ;;
  raan <- py_float rt (Py.slice 17 25 line2) ;;
  eccentricity <- py_float rt ("0." ++ Py.slice 26 33 line2)%string ;;
  arg_perigee <- py_float rt (Py.slice 34 42 line2) ;;
  mean_anomaly <- py_float rt (Py.slice 43 51 line2) ;;
  mean_motion <- py_float rt (Py.slice 52 63 line2) ;;
  let time_diff := total_seconds timestamp (epoch sat) / 86400 in
  let current_mean_anomaly := fmod (mean_anomaly + mean_motion * 360 * time_diff) 360 in
  let n := mean_motion * 2 * PI / 86400 in
  q <- div mu (n ^ 2) ;;
  let a := pow q (1 / 3) in
  let M := radians current_mean_anomaly in
  let E := M + eccentricity * sin M in
  s1 <- sqrt (1 + eccentricity) ;;
  s2 <- sqrt (1 - eccentricity) ;;
  let nu := 2 * atan2 (s1 * sin (E / 2)) (s2 * cos (E / 2)) in
  let r := a * (1 - eccentricity * cos E) in
  let x_orbit := r * cos nu in
  let y_orbit := r * sin nu in
  asin_lat <- asin (sin (radians inclination) * sin nu) ;;
  let lat := degrees asin_lat in
  let lon := degrees (atan2 y_orbit x_orbit + radians raan) in
  let lon := normalize_longitude lon in
  let lat := max (-90) (min 90 lat) in
  v2 <- div mu r ;;
  v <- sqrt v2 ;;
  let velocity := v * 3.6 in
  Ok ({| sp_name := name sat;
         sp_norad_id := norad_id sat;
         latitude := lat;
         longitude := lon;
         altitude_km := r - 6371;
         velocity_kmh := velocity;
         sp_timestamp := timestamp |},
      {| k_mean_motion := mean_motion;
         k_eccentricity := eccentricity;
         k_time_diff := time_diff;
         current_mean_anomaly := current_mean_anomaly;
         semi_major_axis := a;
         mean_anomaly_rad := M;
         eccentric_anomaly := E;
         true_anomaly := nu;
         radius := r |}).

Definition _calculate_satellite_position (sat : sat_data) (timestamp : datetime)
  : option SatellitePosition :=
  try_or_none (p <- position_body sat timestamp ;; Ok (fst p)).

End WithRuntime.

(** The [try] block of [_calculate_elevation_angle]. *)
Definition elevation_body (obs_lat obs_lon obs_alt sat_lat sat_lon sat_alt : R) : result R :=
  let obs_lat_rad := radians obs_lat in
  let obs_lon_rad := radians obs_lon in
  let sat_lat_rad := radians sat_lat in
  let sat_lon_rad := radians sat_lon in
  let R0 := 6371 in
  let obs_x := (R0 + obs_alt) * cos obs_lat_rad * cos obs_lon_rad in
  let obs_y := (R0 + obs_alt) * cos obs_lat_rad * sin obs_lon_rad in
  let obs_z := (R0 + obs_alt) * sin obs_lat_rad in
  let sat_x := (R0 + sat_alt) * cos sat_lat_rad * cos sat_lon_rad in
  let sat_y := (R0 + sat_alt) * cos sat_lat_rad * sin sat_lon_rad in
  let sat_z := (R0 + sat_alt) * sin sat_lat_rad in
  let dx := sat_x - obs_x in
  let dy := sat_y - obs_y in
  let dz := sat_z - obs_z in
  distance <- sqrt (dx * dx + dy * dy + dz * dz) ;;
  up_x <- div obs_x (R0 + obs_alt) ;;
  up_y <- div obs_y (R0 + obs_alt) ;;
  up_z <- div obs_z (R0 + obs_alt) ;;
  dot_product <- div (dx * up_x + dy * up_y + dz * up_z) distance ;;
  a <- asin (max (-1) (min 1 dot_product)) ;;
  Ok (degrees a).

Definition _calculate_elevation_angle (obs_lat obs_lon obs_alt sat_lat sat_lon sat_alt : R) : R :=
  try_except (elevation_body obs_lat obs_lon obs_alt sat_lat sat_lon sat_alt) 0.

(** The [try] block of [_calculate_azimuth]. *)
Definition azimuth_body (obs_lat obs_lon sat_lat sat_lon : R) : result R :=
  let obs_lat_rad := radians obs_lat in
  let obs_lon_rad := radians obs_lon in
  let sat_lat_rad := radians sat_lat in
  let sat_lon_rad := radians sat_lon in
  let dlon := sat_lon_rad - obs_lon_rad in
  let y := sin dlon * cos sat_lat_rad in
  let x := cos obs_lat_rad * sin sat_lat_rad
           - sin obs_lat_rad * cos sat_lat_rad * cos dlon in
  let azimuth := degrees (atan2 y x) in
  Ok (fmod (azimuth + 360) 360).

Definition _calculate_azimuth (obs_lat obs_lon sat_lat sat_lon : R) : R :=
  try_except (azimuth_body obs_lat obs_lon sat_lat sat_lon) 0.

Definition distance_body (lat1 lon1 alt1 lat2 lon2 alt2 : R) : result R :=
  let R0 := 6371 in
  let lat1_rad := radians lat1 in
  let lon1_rad := radians lon1 in
  let lat2_rad := radians lat2 in
  let lon2_rad := radians lon2 in
  let x1 := (R0 + alt1) * cos lat1_rad * cos lon1_rad in
  let y1 := (R0 + alt1) * cos lat1_rad * sin lon1_rad in
  let z1 := (R0 + alt1) * sin lat1_rad in
  let x2 := (R0 + alt2) * cos lat2_rad * cos lon2_rad in
  let y2 := (R0 + alt2) * cos lat2_rad * sin lon2_rad in
  let z2 := (R0 + alt2) * sin lat2_rad in
  sqrt ((x2 - x1) ^ 2 + (y2 - y1) ^ 2 + (z2 - z1) ^ 2).

Definition _calculate_distance (lat1 lon1 alt1 lat2 lon2 alt2 : R) : R :=
  try_except (distance_body lat1 lon1 alt1 lat2 lon2 alt2) 0.

Section Queries.

Variable rt : runtime.

(** One element of the list [_get_sample_satellite_data] builds. *)
Definition sample_position (current_time : datetime) (i : nat) : Position :=
  TlePosition ("STARLINK-" ++ Py.str_of_nat (1000 + i))%string (50000 + Z.of_nat i)
    (IZR (-60 + Z.of_nat i * 15)) (IZR (-180 + Z.of_nat i * 36))
    550 27000 current_time.

Definition _get_sample_satellite_data (current_time : datetime) : Snapshot :=
  {| timestamp := current_time;
     satellite_count := 10;
     positions_calculated := 10;
     positions := map (sample_position current_time) (seq 0 10);
     data_source := "sample_data";
     tle_age_hours := 0;
     note := Some "Sample data - real TLE fetch failed";
     coverage := None |}.

(** The dictionary appended to [positions] for a computed position. *)
Definition position_entry (position : SatellitePosition) : Position :=
  TlePosition (sp_name position) (sp_norad_id position)
    (latitude position) (longitude position)
    (altitude_km position) (velocity_kmh position) (sp_timestamp position).

(** The loop over [sample_satellites]: a satellite whose position is [None]
    adds nothing. *)
Definition current_positions (sats : list sat_data) (current_time : datetime) : list Position :=
  flat_map (fun sat =>
              match _calculate_satellite_position rt sat current_time with
              | Some position => [position_entry position]
              | None => []
              end) sats.

(** [get_starlink_constellation]. [reply] is CelesTrak's answer if the
    element sets are fetched, [time_time] and [utcnow] the clock readings.
    Nothing in the body raises, so the outer handler is not entered. *)
Definition get_starlink_constellation (self : t) (reply : http_reply string)
    (time_time : R) (utcnow : datetime) : Snapshot * t :=
  let '(success, self1) :=
    if _should_update_tle self time_time
    then _fetch_starlink_tle_data rt self reply time_time utcnow
    else (true, self) in
  if negb success then (_get_sample_satellite_data utcnow, self1)
  else
    match starlink_satellites self1 with
    | [] => (_get_sample_satellite_data utcnow, self1)
    | _ =>
        let positions := current_positions (firstn 20 (starlink_satellites self1)) utcnow in
        ({| timestamp := utcnow;
            satellite_count := List.length (starlink_satellites self1);
            positions_calculated := List.length positions;
            positions := positions;
            data_source := "celestrak_tle";
            tle_age_hours := _get_tle_age_hours self1 time_time;
            note := None;
            coverage := None |}, self1)
    end.

(** What the loop of [get_satellites_over_location] appends for one
    satellite. *)
Definition visible_entry (lat lon elevation_degrees : R) (current_time : datetime)
    (sat : sat_data) : list visible_satellite :=
  match _calculate_satellite_position rt sat current_time with
  | None => []
  | Some position =>
      let elevation :=
        _calculate_elevation_angle lat lon 0
          (latitude position) (longitude position) (altitude_km position) in
      if Rge_dec elevation elevation_degrees then
        let azimuth := _calculate_azimuth lat lon (latitude position) (longitude position) in
        [ {| v_name := sp_name position;
             v_norad_id := sp_norad_id position;
             elevation_degrees := elevation;
             azimuth_degrees := azimuth;
             distance_km :=
               _calculate_distance lat lon 0
                 (latitude position) (longitude position) (altitude_km position);
             v_lat := latitude position;
             v_lng := longitude position;
             v_altitude_km := altitude_km position |} ]
      else []
  end.

(** The sort key, [lambda x: x['elevation_degrees']]. *)
Definition by_elevation (x : visible_satellite) : R := elevation_degrees x.

(** The list [visible_satellites] before it is sorted. *)
Definition visible_unsorted (self : t) (lat lon elevation_degrees : R)
    (current_time : datetime) : list visible_satellite :=
  flat_map (visible_entry lat lon elevation_degrees current_time) (starlink_satellites self).

Definition get_satellites_over_location (self : t) (lat lon elevation_degrees : R)
    (current_time : datetime) : list visible_satellite :=
  sort_reverse by_elevation (visible_unsorted self lat lon elevation_degrees current_time).

End Queries.

End SatelliteCollector.

(** ** collectors/spacetrack.py *)

(** What the collector uses of the [sgp4] package. [sgp4 rec t] stands for
    [rec.sgp4(jd, fr)] at the Julian date of [t]: an error code, a position
    and a velocity. *)
Record sgp4_package : Type := mkSgp4 {
  Satrec : Type;
  twoline2rv : string -> string -> result Satrec;
  sgp4 : Satrec -> datetime -> Z * (R * R * R) * (R * R * R)
}.

(** An element of the JSON list Space-Track answers with; a key that is
    absent is [None]. *)
Record tle_json : Type := mkTleJson {
  OBJECT_NAME : option string;
  TLE_LINE1 : option string;
  TLE_LINE2 : option string;
  NORAD_CAT_ID : option string
}.

(** [d[k]] on such a dictionary *)
Definition subscript {A : Type} (v : option A) : result A :=
  match v with
  | Some a => Ok a
  | None => Raise KeyError
  end.

Module SpaceTrackCollector.

Local Open Scope R_scope.
Import Math.

Section WithPackages.

Variable rt : runtime.
Variable pkg : sgp4_package.

Record t : Type := mk {
  base : SatelliteCollector.t;
  username : option string;
  password : option string;
  auth_token : option string;
  auth_time : option R;
  auth_duration : R;
  satellite_records : list (Z * Satrec pkg)
}.

(** [SpaceTrackCollector()]: the credentials are those of the environment. *)
Definition __init__ (env_username env_password : option string) : t :=
  {| base := SatelliteCollector.__init__;
     username := env_username;
     password := env_password;
     auth_token := None;
     auth_time := None;
     auth_duration := 3600;
     satellite_records := [] |}.

Definition with_base (self : t) (b : SatelliteCollector.t) : t :=
  {| base := b; username := username self; password := password self;
     auth_token := auth_token self; auth_time := auth_time self;
     auth_duration := auth_duration self;
     satellite_records := satellite_records self |}.

(** [self.auth_token and self.auth_time] followed by the age test *)
Definition token_is_fresh (self : t) (time_time : R) : bool :=
  match auth_token self, auth_time self with
  | Some (String _ _), Some at_ =>
      if Req_dec_T at_ 0 then false
      else if Rlt_dec (time_time - at_) (auth_duration self) then true else false
  | _, _ => false
  end.

(** [authenticate]. [login] is the exchange with the login page, its body the
    cookie [chocolatechip] of the session. *)
Definition authenticate (self : t) (login : http_reply (option string)) (time_time : R)
  : bool * t :=
  if negb (Py.truthy_str (username self)) || negb (Py.truthy_str (password self))
  then (false, self)
  else if token_is_fresh self time_time then (true, self)
  else
    match login with
    | RequestFailed => (false, self)
    | Response status_code cookie =>
        if (status_code =? 200)%Z then
          (true, {| base := base self; username := username self;
                    password := password self;
                    auth_token := cookie; auth_time := Some time_time;
                    auth_duration := auth_duration self;
                    satellite_records := satellite_records self |})
        else (false, self)
    end.

(** [satellite_records[norad_id] = satellite_record] on an insertion-ordered
    dictionary *)
Fixpoint dict_set (d : list (Z * Satrec pkg)) (k : Z) (v : Satrec pkg) : list (Z * Satrec pkg) :=
  match d with
  | [] => [(k, v)]
  | (k', v') :: d' => if (k' =? k)%Z then (k, v) :: d' else (k', v') :: dict_set d' k v
  end.

(** The [try] block of the loop over [tle_data]. *)
Definition tle_entry (utcnow : datetime) (sat : tle_json) : result (sat_data * Satrec pkg) :=
  name <- subscript (OBJECT_NAME sat) ;;
  line1 <- subscript (TLE_LINE1 sat) ;;
  line2 <- subscript (TLE_LINE2 sat) ;;
  id_text <- subscript (NORAD_CAT_ID sat) ;;
  norad_id <- Py.int id_text ;;
  satellite_record <- twoline2rv pkg line1 line2 ;;
  Ok ({| name := name; line1 := line1; line2 := line2; norad_id := norad_id;
         epoch := SatelliteCollector._parse_tle_epoch rt utcnow (Py.slice 18 32 line1) |},
      satellite_record).

(** The loop over [tle_data]: [KeyError] and [ValueError] skip the entry, any
    other exception leaves the loop. *)
Fixpoint load_entries (utcnow : datetime) (tle_data : list tle_json)
    (satellites : list sat_data) (records : list (Z * Satrec pkg))
  : result (list sat_data * list (Z * Satrec pkg)) :=
  match tle_data with
  | [] => Ok (satellites, records)
  | sat :: rest =>
      match tle_entry utcnow sat with
      | Ok (s, r) => load_entries utcnow rest (satellites ++ [s]) (dict_set records (norad_id s) r)
      | Raise KeyError | Raise ValueError => load_entries utcnow rest satellites records
      | Raise e => Raise e
      end
  end.

(** [fetch_starlink_tle_data]. [login] answers the login if one is made,
    [query] the query; its body is the decoded JSON, [None] if it does not
    decode to a list. *)
Definition fetch_starlink_tle_data (self : t) (login : http_reply (option string))
    (query : http_reply (option (list tle_json))) (time_time : R) (utcnow : datetime)
  : bool * t :=
  let '(authenticated, self1) := authenticate self login time_time in
  if negb authenticated then (false, self1)
  else
    match query with
    | RequestFailed => (false, self1)
    | Response status_code body =>
        if negb (status_code =? 200)%Z then (false, self1)
        else
          match body with
          | None => (false, self1)
          | Some [] => (false, self1)
          | Some tle_data =>
              match load_entries utcnow tle_data [] [] with
              | Raise _ => (false, self1)
              | Ok (satellites, records) =>
                  let b := base self1 in
                  (true,
                   {| base := {| SatelliteCollector.celestrak_base :=
                                   SatelliteCollector.celestrak_base b;
                                 SatelliteCollector.starlink_satellites := satellites;
                                 SatelliteCollector.last_tle_fetch := Some time_time;
                                 SatelliteCollector.tle_cache_duration :=
                                   SatelliteCollector.tle_cache_duration b |};
                      username := username self1; password := password self1;
                      auth_token := auth_token self1; auth_time := auth_time self1;
                      auth_duration := auth_duration self1;
                      satellite_records := records |})
              end
          end
    end.

(** The five rounds of the latitude iteration of [_eci_to_geodetic]. *)
Fixpoint refine_latitude (rounds : nat) (a e2 p z lat : R) : result R :=
  match rounds with
  | O => Ok lat
  | S rounds' =>
      s <- sqrt (1 - e2 * sin lat ^ 2) ;;
      N <- div a s ;;
      pc <- div p (cos lat) ;;
      let alt := pc - N in
      ratio <- div N (N + alt) ;;
      refine_latitude rounds' a e2 p z (atan2 z (p * (1 - e2 * ratio)))
  end.

(** [_eci_to_geodetic]; the argument [timestamp] of the source is not used. *)
Definition _eci_to_geodetic (r : R * R * R) : result (R * R * R) :=
  let '(x, y, z) := r in
  let a := 6378.137 in
  let f := 1 / 298.257223563 in
  let e2 := 2 * f - f * f in
  let lon := atan2 y x in
  p <- sqrt (x ^ 2 + y ^ 2) ;;
  let lat := atan2 z (p * (1 - e2)) in
  lat <- refine_latitude 5 a e2 p z lat ;;
  s <- sqrt (1 - e2 * sin lat ^ 2) ;;
  N <- div a s ;;
  pc <- div p (cos lat) ;;
  let alt := pc - N in
  let lat_deg := degrees lat in
  let lon_deg := degrees lon in
  let lon_deg := normalize_longitude lon_deg in
  Ok (lat_deg, lon_deg, alt).

(** [next((s for s in self.starlink_satellites if s['norad_id'] == norad_id), None)] *)
Definition find_info (self : t) (id : Z) : option sat_data :=
  find (fun s => (norad_id s =? id)%Z) (SatelliteCollector.starlink_satellites (base self)).

(** The [try] block of the loop of [calculate_realtime_positions]; [Ok None]
    is a [continue]. *)
Definition realtime_entry (self : t) (timestamp : datetime) (entry : Z * Satrec pkg)
  : result (option Position) :=
  let '(id, sat_record) := entry in
  match find_info self id with
  | None => Ok None
  | Some sat_info =>
      let '(error_code, r, v) := sgp4 pkg sat_record timestamp in
      if negb (error_code =? 0)%Z then Ok None
      else
        g <- _eci_to_geodetic r ;;
        let '(lat, lon, alt) := g in
        let '(v0, v1, v2) := v in
        speed <- sqrt (v0 ^ 2 + v1 ^ 2 + v2 ^ 2) ;;
        Ok (Some (TlePosition (name sat_info) id lat lon alt (speed * 3.6) timestamp))
  end.

Definition calculate_realtime_positions (self : t) (timestamp : datetime) : list Position :=
  flat_map (fun entry =>
              match realtime_entry self timestamp entry with
              | Ok (Some p) => [p]
              | _ => []
              end) (satellite_records self).

(** [get_starlink_constellation] of the subclass. *)
Definition get_starlink_constellation (self : t) (login : http_reply (option string))
    (query : http_reply (option (list tle_json))) (time_time : R) (utcnow : datetime)
  : Snapshot * t :=
  let '(success, self1) :=
    if SatelliteCollector._should_update_tle (base self) time_time
    then fetch_starlink_tle_data self login query time_time utcnow
    else (true, self) in
  if negb success then (SatelliteCollector._get_sample_satellite_data utcnow, self1)
  else
    let positions := calculate_realtime_positions self1 utcnow in
    ({| timestamp := utcnow;
        satellite_count := List.length (SatelliteCollector.starlink_satellites (base self1));
        positions_calculated := List.length positions;
        positions := positions;
        data_source := "spacetrack_sgp4";
        tle_age_hours := SatelliteCollector._get_tle_age_hours (base self1) time_time;
        note := None;
        coverage := None |}, self1).

End WithPackages.

End SpaceTrackCollector.

(** ** collectors/enhanced_satellites.py *)

(** An element of the JSON list SatelliteMap answers with. *)
Record sat_info : Type := mkSatInfo {
  si_norad_id : option Z;
  si_name : option string;
  si_hardware_version : option string;
  si_status : option string
}.

(** An element of the JSON list Aviation Edge answers with. *)
Record aviation_entry : Type := mkAviation {
  satelliteName : option string;
  noradID : option Z;
  ae_lat : option R;
  ae_lng : option R;
  ae_alt : option R;
  ae_velocity : option R
}.

(** [d.get(k, default)] *)
Definition get_or {A : Type} (v : option A) (default : A) : A :=
  match v with
  | Some a => a
  | None => default
  end.

(** An element of the list [get_visible_satellites] returns: the copy of the
    position with the keys [elevation] and [distance] added. *)
Record enhanced_visible : Type := mkEnhancedVisible {
  sat_copy : Position;
  elevation : R;
  distance : R
}.

(** Everything one call of the enhanced collector may obtain from outside. *)
Record world : Type := mkWorld {
  satellitemap_reply : http_reply (option (list sat_info));
  (** the three [random.uniform] draws of the [i]-th approximate position *)
  uniform_draws : nat -> R * R * R;
  aviation_edge_reply : http_reply (option (list aviation_entry));
  SPACETRACK_USERNAME : option string;
  SPACETRACK_PASSWORD : option string;
  spacetrack_login : http_reply (option string);
  spacetrack_second_login : http_reply (option string);
  spacetrack_query : http_reply (option (list tle_json));
  celestrak_reply : http_reply string;
  (** [time.time()], [datetime.utcnow()] / [datetime.now(timezone.utc)] *)
  time_time : R;
  utcnow : datetime
}.

Module EnhancedSatelliteCollector.

Local Open Scope R_scope.
Import Math.

Record t : Type := mk {
  satellitemap_key : option string;
  aviation_edge_key : option string;
  cache_duration : timedelta;
  last_update : option datetime;
  cached_data : option Snapshot;
  data_sources : list string
}.

(** [__init__]; the session key and the API key come from outside. An empty
    [cached_data] dictionary is [None]. *)
Definition __init__ (session_key env_aviation_edge_key : option string) : t :=
  {| satellitemap_key := session_key;
     aviation_edge_key := env_aviation_edge_key;
     cache_duration := timedelta_minutes 5;
     last_update := None;
     cached_data := None;
     data_sources := ["satellitemap_enhanced"; "aviation_edge"; "space_track";
                      "celestrak_fallback"] |}.

Definition _is_cache_valid (self : t) (now : datetime) : bool :=
  match last_update self, cached_data self with
  | Some lu, Some _ => (now - lu <? cache_duration self)%Z
  | _, _ => false
  end.

Definition _cache_data (self : t) (data : Snapshot) (now : datetime) : t :=
  {| satellitemap_key := satellitemap_key self;
     aviation_edge_key := aviation_edge_key self;
     cache_duration := cache_duration self;
     last_update := Some now;
     cached_data := Some data;
     data_sources := data_sources self |}.

Definition fallback_position (i : nat) : Position :=
  EnhancedPosition (44700 + Z.of_nat i) ("STARLINK-" ++ Py.str_of_nat (1000 + i))%string
    (45 + IZR ((Z.of_nat i * 15) mod 90) - 45)
    (-120 + IZR ((Z.of_nat i * 30) mod 360))
    (550 + IZR (Z.of_nat i mod 3) * 10)
    7.66
    (if Nat.even i then "daylight" else "eclipse")
    "active"
    (Some (if (6 <? i)%nat then "v1.5" else "v1.0")).

Definition _get_fallback_data (utcnow : datetime) : Snapshot :=
  {| timestamp := utcnow;
     satellite_count := 12;
     positions_calculated := 12;
     positions := map fallback_position (seq 0 12);
     data_source := "enhanced_fallback";
     tle_age_hours := 0;
     note := Some "Enhanced fallback data - multiple sources unavailable";
     coverage := Some {| global_coverage := 85; active_satellites := 12;
                         total_tracked := None |} |}.

(** [_calculate_approximate_position]; [draw] holds the three random
    numbers. Nothing in its [try] block raises. *)
Definition _calculate_approximate_position (info : sat_info) (timestamp : datetime)
    (draw : R * R * R) : option Position :=
  let '(base_lat, base_lng, altitude) := draw in
  let orbital_period := 90 in
  let time_offset := fmod (IZR timestamp / 1000000) (orbital_period * 60) / 60 in
  let lng_offset := time_offset / orbital_period * 360 in
  Some (EnhancedPosition
          (get_or (si_norad_id info) 0%Z)
          (get_or (si_name info) "STARLINK-UNKNOWN")
          base_lat
          (fmod (base_lng + lng_offset) 360 - 180)
          altitude
          7.66
          (if Rlt_dec (Rabs base_lat) 45 then "daylight" else "eclipse")
          (get_or (si_status info) "active")
          (Some (get_or (si_hardware_version info) "v1.5"))).

Definition position_status (p : Position) : option string :=
  match p with
  | TlePosition _ _ _ _ _ _ _ => None
  | EnhancedPosition _ _ _ _ _ _ _ status _ => Some status
  end.

Definition is_active (p : Position) : bool :=
  match position_status p with
  | Some s => String.eqb s "active"
  | None => false
  end.

Definition _calculate_coverage_stats (positions : list Position) : Coverage :=
  match positions with
  | [] => {| global_coverage := 0; active_satellites := 0; total_tracked := None |}
  | _ =>
      let active_sats := List.length (filter is_active positions) in
      {| global_coverage := min 100 (INR active_sats / 10 * 100);
         active_satellites := active_sats;
         total_tracked := Some (List.length positions) |}
  end.

(** The loop of [_get_satellitemap_data]; [i] counts the satellites seen. *)
Fixpoint approximate_positions (infos : list sat_info) (timestamp : datetime)
    (draws : nat -> R * R * R) (i : nat) : list Position :=
  match infos with
  | [] => []
  | info :: rest =>
      match _calculate_approximate_position info timestamp (draws i) with
      | Some position => position :: approximate_positions rest timestamp draws (S i)
      | None => approximate_positions rest timestamp draws (S i)
      end
  end.

Definition _get_satellitemap_data (self : t) (w : world) : option Snapshot :=
  if negb (Py.truthy_str (satellitemap_key self)) then None
  else
    match satellitemap_reply w with
    | RequestFailed => None
    | Response status_code body =>
        if negb (status_code =? 200)%Z then None
        else
          match body with
          | None => None
          | Some [] => None
          | Some satellites_info =>
              let current_time := utcnow w in
              let positions :=
                approximate_positions (firstn 50 satellites_info) current_time
                  (uniform_draws w) 0 in
              Some {| timestamp := current_time;
                      satellite_count := List.length positions;
                      positions_calculated := List.length positions;
                      positions := positions;
                      data_source := "satellitemap_enhanced";
                      tle_age_hours := 0;
                      note := None;
                      coverage := Some (_calculate_coverage_stats positions) |}
          end
    end.

Definition aviation_position (sat : aviation_entry) : Position :=
  EnhancedPosition (get_or (noradID sat) 0%Z) (get_or (satelliteName sat) "UNKNOWN")
    (get_or (ae_lat sat) 0) (get_or (ae_lng sat) 0)
    (get_or (ae_alt sat) 550) (get_or (ae_velocity sat) 7.66)
    "daylight" "active" None.

Definition _process_aviation_edge_data (data : list aviation_entry) (current_time : datetime)
  : Snapshot :=
  let positions :=
    map aviation_position
      (filter (fun sat => Py.contains "starlink" (Py.lower (get_or (satelliteName sat) "")))
              data) in
  {| timestamp := current_time;
     satellite_count := List.length positions;
     positions_calculated := List.length positions;
     positions := positions;
     data_source := "aviation_edge_premium";
     tle_age_hours := 0.1;
     note := None;
     coverage := None |}.

Definition _get_aviation_edge_data (self : t) (w : world) : option Snapshot :=
  if negb (Py.truthy_str (aviation_edge_key self)) then None
  else
    match aviation_edge_reply w with
    | RequestFailed => None
    | Response status_code body =>
        if (status_code =? 200)%Z then
          match body with
          | Some data => Some (_process_aviation_edge_data data (utcnow w))
          | None => None
          end
        else None
    end.

Section Providers.

Variable rt : runtime.
Variable pkg : sgp4_package.

Definition _get_spacetrack_data (w : world) : option Snapshot :=
  let collector :=
    SpaceTrackCollector.__init__ pkg (SPACETRACK_USERNAME w) (SPACETRACK_PASSWORD w) in
  let '(authenticated, collector1) :=
    SpaceTrackCollector.authenticate pkg collector (spacetrack_login w) (time_time w) in
  if authenticated then
    Some (fst (SpaceTrackCollector.get_starlink_constellation rt pkg collector1
                 (spacetrack_second_login w) (spacetrack_query w) (time_time w) (utcnow w)))
  else None.

Definition _get_celestrak_data (w : world) : option Snapshot :=
  Some (fst (SatelliteCollector.get_starlink_constellation rt SatelliteCollector.__init__
               (celestrak_reply w) (time_time w) (utcnow w))).

(** The dispatch on the name of the source in [get_starlink_constellation]. *)
Definition fetch_source (self : t) (w : world) (source : string) : result (option Snapshot) :=
  if String.eqb source "satellitemap_enhanced" then Ok (_get_satellitemap_data self w)
  else if String.eqb source "aviation_edge" then Ok (_get_aviation_edge_data self w)
  else if String.eqb source "space_track" then Ok (_get_spacetrack_data w)
  else Ok (_get_celestrak_data w).

End Providers.

(** [data and data.get('positions')] *)
Definition usable (outcome : result (option Snapshot)) : option Snapshot :=
  match outcome with
  | Ok (Some data) =>
      match positions data with
      | [] => None
      | _ :: _ => Some data
      end
  | _ => None
  end.

(** The loop over [self.data_sources]. [fetch source] is what the method
    chosen for [source] does when called: it raises, or it returns [None] or a
    snapshot. The second component lists the sources whose method was
    called, in order. *)
Fixpoint try_sources (fetch : string -> result (option Snapshot)) (sources : list string)
  : option Snapshot * list string :=
  match sources with
  | [] => (None, [])
  | source :: rest =>
      match usable (fetch source) with
      | Some data => (Some data, [source])
      | None =>
          let '(found, invoked) := try_sources fetch rest in
          (found, source :: invoked)
      end
  end.

(** [get_starlink_constellation]. [now] is the clock reading of
    [_is_cache_valid], [now_cached] that of [_cache_data] and [utcnow] that of
    [_get_fallback_data]. The result is the snapshot returned, the collector
    afterwards and the sources whose method was called. *)
Definition get_starlink_constellation (self : t) (fetch : string -> result (option Snapshot))
    (now now_cached utcnow : datetime) : Snapshot * t * list string :=
  match (if _is_cache_valid self now then cached_data self else None) with
  | Some cached => (cached, self, [])
  | None =>
      match try_sources fetch (data_sources self) with
      | (Some data, invoked) => (data, _cache_data self data now_cached, invoked)
      | (None, invoked) => (_get_fallback_data utcnow, self, invoked)
      end
  end.

(** The body of the loop of [get_visible_satellites] for one position. *)
Definition visible_entry (lat lon elevation_min : R) (sat : Position)
  : result (list enhanced_visible) :=
  let sat_lat := pos_lat sat in
  let sat_lng := pos_lng sat in
  let dlat := radians (sat_lat - lat) in
  let dlng := radians (sat_lng - lon) in
  let a := sin (dlat / 2) * sin (dlat / 2)
           + cos (radians lat) * cos (radians sat_lat)
             * sin (dlng / 2) * sin (dlng / 2) in
  sa <- sqrt a ;;
  sb <- sqrt (1 - a) ;;
  let distance := 2 * atan2 sa sb * 6371 in
  if Rlt_dec distance 2000 then
    let elevation := max 0 (90 - distance / 100) in
    if Rge_dec elevation elevation_min
    then Ok [ {| sat_copy := sat; elevation := elevation; distance := distance |} ]
    else Ok []
  else Ok [].

Fixpoint visible_loop (lat lon elevation_min : R) (sats : list Position)
  : result (list enhanced_visible) :=
  match sats with
  | [] => Ok []
  | sat :: rest =>
      here <- visible_entry lat lon elevation_min sat ;;
      later <- visible_loop lat lon elevation_min rest ;;
      Ok (here ++ later)
  end.

(** [get_visible_satellites]; the square roots are not guarded, so the call
    may raise. *)
Definition get_visible_satellites (self : t) (fetch : string -> result (option Snapshot))
    (now now_cached utcnow : datetime) (lat lon elevation_min : R)
  : result (list enhanced_visible) * t :=
  let '(constellation, self1, _) := get_starlink_constellation self fetch now now_cached utcnow in
  (visible <- visible_loop lat lon elevation_min (positions constellation) ;;
   Ok (sort_reverse elevation visible),
   self1).

End EnhancedSatelliteCollector.

(** * Vocabulary of the properties *)

(** The count a snapshot announces is the length of its list. *)
Definition consistent (s : Snapshot) : Prop :=
  positions_calculated s = List.length (positions s).

(** A property of what an optional result holds, if it holds something. *)
Definition holds_for {A : Type} (P : A -> Prop) (o : option A) : Prop :=
  match o with
  | Some a => P a
  | None => True
  end.

(** The order in which [__init__] lists the sources. *)
Definition priority_order : list string :=
  ["satellitemap_enhanced"; "aviation_edge"; "space_track"; "celestrak_fallback"].

(** A call of a provider fails: it raises, or it returns [None] or a snapshot
    whose list of positions is empty. *)
Inductive provider_fails : result (option Snapshot) -> Prop :=
| fails_raising (e : exn) : provider_fails (Raise e)
| fails_none : provider_fails (Ok None)
| fails_empty (data : Snapshot) : positions data = [] -> provider_fails (Ok (Some data)).

(** A call of a provider succeeds with a snapshot that has a position. *)
Definition provider_succeeds (outcome : result (option Snapshot)) (data : Snapshot) : Prop :=
  outcome = Ok (Some data) /\ positions data <> [].

(** The values of [data_source] that the method of each source writes. *)
Definition source_tags (source : string) : list string :=
  if String.eqb source "satellitemap_enhanced" then ["satellitemap_enhanced"]
  else if String.eqb source "aviation_edge" then ["aviation_edge_premium"]
  else if String.eqb source "space_track" then ["spacetrack_sgp4"; "sample_data"]
  else ["celestrak_tle"; "sample_data"].

(** The reading of "the field [data_source] identifies the provider": the
    source whose method produced the snapshot is a function of the field. *)
Definition data_source_identifies_provider : Prop :=
  exists identify : string -> string,
  forall rt pkg w self snapshot self' invoked,
    self = EnhancedSatelliteCollector.__init__ None None ->
    EnhancedSatelliteCollector.get_starlink_constellation self
      (EnhancedSatelliteCollector.fetch_source rt pkg self w)
      0%Z 0%Z (utcnow w) = (snapshot, self', invoked) ->
    EnhancedSatelliteCollector.cached_data self' = Some snapshot ->
    identify (data_source snapshot) = last invoked "".

(** ** Values for the examples *)

(** An element set whose right ascension field reads -180 degrees and whose
    mean anomaly is zero, taken at its own epoch. *)
Definition example_line1 : string :=
  "1 44713U 19074A   24001.50000000  .00001234  00000-0  10000-3 0  9991".

Definition example_line2 : string :=
  "2 44713  53.0000 -180.000 0000000  90.0000   0.0000 15.06000000123456".

Definition example_epoch : datetime := 1704110400000000%Z.

Definition example_sat : sat_data :=
  {| name := "STARLINK-1007"; line1 := example_line1; line2 := example_line2;
     norad_id := 44713; epoch := example_epoch |}.

(** Days from the first of January 1970 to the first of January of [year]. *)
Definition days_before_year (year : Z) : Z :=
  (365 * (year - 1970) + (year - 1969) / 4 - (year - 1901) / 100 + (year - 1601) / 400)%Z.

(** A runtime for the examples: [float] reads the fields of the element set
    above and rejects any other text; a date is counted in microseconds from
    1970, what is less than a microsecond dropped. *)
Definition example_float (s : string) : result R :=
  if String.eqb s " 53.0000" then Ok 53%R
  else if String.eqb s "-180.000" then Ok (-180)%R
  else if String.eqb s "0.0000000" then Ok 0%R
  else if String.eqb s " 90.0000" then Ok 90%R
  else if String.eqb s "  0.0000" then Ok 0%R
  else if String.eqb s "15.06000000" then Ok 15.06%R
  else if String.eqb s "001.50000000" then Ok 1.5%R
  else Raise ValueError.

Definition example_runtime : runtime :=
  {| py_float := example_float;
     new_year_plus_days := fun year d =>
       Ok (days_before_year year * 86400000000 + Zfloor (d * 86400000000))%Z |}.

(** A package for the examples that accepts no element set. *)
Definition example_sgp4 : sgp4_package :=
  {| Satrec := unit;
     twoline2rv := fun _ _ => Raise ValueError;
     sgp4 := fun _ _ => (1%Z, (0%R, 0%R, 0%R), (0%R, 0%R, 0%R)) |}.

(** A world in which nothing answers. *)
Definition silent_world : world :=
  {| satellitemap_reply := RequestFailed;
     uniform_draws := fun _ => (0%R, 0%R, 550%R);
     aviation_edge_reply := RequestFailed;
     SPACETRACK_USERNAME := None;
     SPACETRACK_PASSWORD := None;
     spacetrack_login := RequestFailed;
     spacetrack_second_login := RequestFailed;
     spacetrack_query := RequestFailed;
     celestrak_reply := RequestFailed;
     time_time := 1704110400%R;
     utcnow := example_epoch |}.

(** A world in which Space-Track accepts the login and fails on the query. *)
Definition spacetrack_query_fails : world :=
  {| satellitemap_reply := RequestFailed;
     uniform_draws := fun _ => (0%R, 0%R, 550%R);
     aviation_edge_reply := RequestFailed;
     SPACETRACK_USERNAME := Some "observer";
     SPACETRACK_PASSWORD := Some "secret";
     spacetrack_login := Response 200 None;
     spacetrack_second_login := Response 200 None;
     spacetrack_query := RequestFailed;
     celestrak_reply := RequestFailed;
     time_time := 1704110400%R;
     utcnow := example_epoch |}.

(** A world in which only CelesTrak answers, with one triplet of the right
    shape whose orbital fields are not numbers. *)
Definition garbled_elements : string :=
  ("STARLINK-1007" ++ String Py.newline
   ("1 44713U 19074A   24001.50000000  .00001234  00000-0  10000-3 0  9991"
    ++ String Py.newline
    "2 44713 XXXXXXXX XXXXXXXX XXXXXXX XXXXXXXX XXXXXXXX XXXXXXXXXXXXXXXXX"))%string.

Definition garbled_world : world :=
  {| satellitemap_reply := RequestFailed;
     uniform_draws := fun _ => (0%R, 0%R, 550%R);
     aviation_edge_reply := RequestFailed;
     SPACETRACK_USERNAME := None;
     SPACETRACK_PASSWORD := None;
     spacetrack_login := RequestFailed;
     spacetrack_second_login := RequestFailed;
     spacetrack_query := RequestFailed;
     celestrak_reply := Response 200 garbled_elements;
     time_time := 1704110400%R;
     utcnow := example_epoch |}.

(** *** Ingestion *)

(** The groups of three lines the ingestion loop looks at, each line stripped
    of the white space around it: a name and two data lines. *)
Fixpoint stripped_triplets (lines : list string) : list (string * string * string) :=
  match lines with
  | l0 :: l1 :: l2 :: rest =>
      (Py.strip l0, Py.strip l1, Py.strip l2) :: stripped_triplets rest
  | _ => []
  end.

Definition starts_with (c : ascii) (s : string) : bool :=
  match s with
  | String c' _ => Ascii.eqb c' c
  | EmptyString => false
  end.

Definition parses_as_int (s : string) : bool :=
  match Py.int s with
  | Ok _ => true
  | Raise _ => false
  end.

(** A triplet is well formed: both data lines are 69 characters long, the
    first begins with the digit 1 and the second with the digit 2, and the
    catalog number, characters 3 to 7 of the first line, reads as an
    integer. *)
Definition well_formed (t : string * string * string) : bool :=
  let '(_, line1, line2) := t in
  (length line1 =? 69)%nat && (length line2 =? 69)%nat
  && starts_with "1" line1 && starts_with "2" line2
  && parses_as_int (Py.slice 2 7 line1).

(** The epoch field, characters 19 to 32 of the first line, reads as a date
    in runtime [rt]. *)
Definition epoch_parses (rt : runtime) (t : string * string * string) : bool :=
  let '(_, line1, _) := t in
  match SatelliteCollector.parse_tle_epoch_body rt (Py.slice 18 32 line1) with
  | Ok _ => true
  | Raise _ => false
  end.

(** The record stored for a well-formed triplet. *)
Definition record_of (rt : runtime) (utcnow : datetime) (t : string * string * string)
  : sat_data :=
  let '(name, line1, line2) := t in
  {| name := name; line1 := line1; line2 := line2;
     norad_id := match Py.int (Py.slice 2 7 line1) with Ok z => z | Raise _ => 0%Z end;
     epoch := SatelliteCollector._parse_tle_epoch rt utcnow (Py.slice 18 32 line1) |}.

(** A text of three triplets: a well-formed one, one whose second data line is
    cut short, and one that is well formed but for its epoch field. *)
Definition example_catalog : string :=
  ("STARLINK-1007" ++ String Py.newline
   ("1 44713U 19074A   24001.50000000  .00001234  00000-0  10000-3 0  9991"
    ++ String Py.newline
   ("2 44713  53.0000 180.0000 0001000  90.0000   0.0000 15.06000000123456"
    ++ String Py.newline
   ("STARLINK-1008" ++ String Py.newline
   ("1 44714U 19074B   24001.50000000  .00001234  00000-0  10000-3 0  9992"
    ++ String Py.newline
   ("2 44714  53.0000 180.0000 0001000"
    ++ String Py.newline
   ("STARLINK-1009" ++ String Py.newline
   ("1 44715U 19074C   XXXXXXXXXXXXXX  .00001234  00000-0  10000-3 0  9993"
    ++ String Py.newline
    "2 44715  53.0000 180.0000 0001000  90.0000   0.0000 15.06000000123457"
   ))))))))%string.

(** *** Visibility *)

(** A list is in descending order of its keys. *)
Definition descending {A : Type} (key : A -> R) (l : list A) : Prop :=
  StronglySorted (fun a b => (key a >= key b)%R) l.

(** The elements of key [e]. *)
Definition same_key {A : Type} (key : A -> R) (e : R) (x : A) : bool :=
  if Req_dec_T (key x) e then true else false.

(** The sorted list [sorted] keeps the elements of [l], by descending key,
    those of equal key in the order they have in [l]. *)
Definition stable_descending {A : Type} (key : A -> R) (l sorted : list A) : Prop :=
  Permutation sorted l
  /\ descending key sorted
  /\ forall e, filter (same_key key e) sorted = filter (same_key key e) l.

(** A snapshot with one satellite over the point of latitude 0 and
    longitude 0, and a provider that returns it. *)
Definition overhead : Position :=
  EnhancedPosition 44713 "STARLINK-1007" 0 0 550 7.66 "daylight" "active" None.

Definition overhead_snapshot : Snapshot :=
  {| timestamp := example_epoch; satellite_count := 1; positions_calculated := 1;
     positions := [overhead]; data_source := "satellitemap_enhanced";
     tle_age_hours := 0; note := None; coverage := None |}.

(** *** Propagation *)

(** The fixed-point iteration for Kepler's equation [M = E - e sin E],
    started at [E = M]: [steps] corrections [E := M + e sin E]. *)
Fixpoint kepler_iterate (e M : R) (steps : nat) : R :=
  match steps with
  | O => M
  | S n => M + e * sin (kepler_iterate e M n)
  end.

(** Kepler's third law for a mean motion [n] in radians per second: the
    semi-major axis is the cube root of [mu / n^2]. *)
Definition third_law_axis (n : R) : R := Rpower (SatelliteCollector.mu / n ^ 2) (1 / 3).

(** *** Further values for the examples *)

(** An element set of an eccentric orbit: eccentricity 0.5, right ascension
    100 degrees, mean anomaly 270 degrees, two and a half revolutions a day;
    and the instant one day after its epoch. *)
Definition eccentric_line2 : string :=
  "2 44716  63.4000 100.0000 5000000 270.0000 270.0000  2.50000000123458".

Definition eccentric_sat : sat_data :=
  {| name := "ECCENTRIC-1"; line1 := example_line1; line2 := eccentric_line2;
     norad_id := 44716; epoch := example_epoch |}.

Definition eccentric_float (s : string) : result R :=
  if String.eqb s " 63.4000" then Ok 63.4%R
  else if String.eqb s "100.0000" then Ok 100%R
  else if String.eqb s "0.5000000" then Ok 0.5%R
  else if String.eqb s "270.0000" then Ok 270%R
  else if String.eqb s " 2.50000000" then Ok 2.5%R
  else Raise ValueError.

Definition eccentric_runtime : runtime :=
  {| py_float := eccentric_float;
     new_year_plus_days := new_year_plus_days example_runtime |}.

Definition one_day_later : datetime := (example_epoch + 86400000000)%Z.

(** The element set of [example_sat] under another name. *)
Definition example_twin : sat_data :=
  {| name := "STARLINK-1008"; line1 := line1 example_sat; line2 := line2 example_sat;
     norad_id := 44714; epoch := epoch example_sat |}.

(** A store with the two satellites of the same element set. *)
Definition twin_store : SatelliteCollector.t :=
  {| SatelliteCollector.celestrak_base :=
       SatelliteCollector.celestrak_base SatelliteCollector.__init__;
     SatelliteCollector.starlink_satellites := [example_sat; example_twin];
     SatelliteCollector.last_tle_fetch := None;
     SatelliteCollector.tle_cache_duration :=
       SatelliteCollector.tle_cache_duration SatelliteCollector.__init__ |}.

(** The ground distance of the visibility test of the enhanced collector, in
    kilometres: the haversine formula between the observer and the point
    below the satellite. *)
Definition great_circle_km (lat lon sat_lat sat_lng : R) : R :=
  let dlat := Math.radians (sat_lat - lat) in
  let dlng := Math.radians (sat_lng - lon) in
  let a := (sin (dlat / 2) * sin (dlat / 2)
            + cos (Math.radians lat) * cos (Math.radians sat_lat)
              * sin (dlng / 2) * sin (dlng / 2))%R in
  (2 * Math.atan2 (R_sqrt.sqrt a) (R_sqrt.sqrt (1 - a)) * 6371)%R.

(** Three satellites above the equator: two at 9 degrees east, with the one
    at 0 degrees listed between them. *)
Definition east : Position :=
  EnhancedPosition 44714 "STARLINK-1008" 0 9 550 7.66 "daylight" "active" None.

Definition east_twin : Position :=
  EnhancedPosition 44715 "STARLINK-1009" 0 9 550 7.66 "daylight" "active" None.

Definition three_in_view : Snapshot :=
  {| timestamp := example_epoch; satellite_count := 3; positions_calculated := 3;
     positions := [east; overhead; east_twin]; data_source := "satellitemap_enhanced";
     tle_age_hours := 0; note := None; coverage := None |}.

(** A package for the examples that accepts every element set and puts every
    satellite 550 km above the equator, at 7.6 km/s. *)
Definition steady_sgp4 : sgp4_package :=
  {| Satrec := string * string;
     twoline2rv := fun line1 line2 => Ok (line1, line2);
     sgp4 := fun _ _ => (0%Z, (6928.137%R, 0%R, 0%R), (0%R, 7.6%R, 0%R)) |}.

(** An answer of Space-Track with three entries, the third under the catalog
    number of the first. *)
Definition example_tle_json (object_name norad_cat_id : string) : tle_json :=
  {| OBJECT_NAME := Some object_name; TLE_LINE1 := Some example_line1;
     TLE_LINE2 := Some example_line2; NORAD_CAT_ID := Some norad_cat_id |}.

Definition three_entries : list tle_json :=
  [example_tle_json "STARLINK-1007" "44713"; example_tle_json "STARLINK-1008" "44714";
   example_tle_json "STARLINK-1007 DEB" "44713"].

(** * More of the backend *)

(** ** enhanced_satellites.py: lookup by catalog number *)

(** [sat.get('norad_id')] *)
Definition pos_norad_id (p : Position) : Z :=
  match p with
  | TlePosition _ norad_id _ _ _ _ _ => norad_id
  | EnhancedPosition norad_id _ _ _ _ _ _ _ _ => norad_id
  end.

(** [sat.get('name')] *)
Definition pos_name (p : Position) : string :=
  match p with
  | TlePosition name _ _ _ _ _ _ => name
  | EnhancedPosition _ name _ _ _ _ _ _ _ => name
  end.

Module EnhancedLookup.

(** [get_satellite_by_id]: the first position of the constellation with the
    catalog number, and the collector after the call. *)
Definition get_satellite_by_id (self : EnhancedSatelliteCollector.t)
    (fetch : string -> result (option Snapshot)) (now now_cached utcnow : datetime)
    (norad_id : Z) : option Position * EnhancedSatelliteCollector.t :=
  let '(constellation, self1, _) :=
    EnhancedSatelliteCollector.get_starlink_constellation self fetch now now_cached utcnow in
  (find (fun sat => (pos_norad_id sat =? norad_id)%Z) (positions constellation), self1).

End EnhancedLookup.

(** ** spacetrack.py: the satellite catalog *)

(** An element of the JSON list Space-Track answers a catalog query with; a
    key that is absent or null is [None]. *)
Record satcat_json : Type := mkSatcat {
  sc_NORAD_CAT_ID : option string;
  sc_OBJECT_NAME : option string;
  sc_LAUNCH : option string;
  sc_SITE : option string;
  sc_DECAY : option string;
  sc_PERIOD : option string;
  sc_INCLINATION : option string;
  sc_APOGEE : option string;
  sc_PERIGEE : option string
}.

(** An element of the list [get_satellite_catalog_info] returns. *)
Record catalog_entry : Type := mkCatalogEntry {
  ce_norad_id : option string;
  ce_name : option string;
  launch_date : option string;
  site : option string;
  decay_date : option string;
  period_minutes : option string;
  inclination_deg : option string;
  apogee_km : option string;
  perigee_km : option string
}.

Module SpaceTrackCatalog.

Section WithPackage.

Variable pkg : sgp4_package.

Definition catalog_entry_of (sat : satcat_json) : catalog_entry :=
  {| ce_norad_id := sc_NORAD_CAT_ID sat;
     ce_name := sc_OBJECT_NAME sat;
     launch_date := sc_LAUNCH sat;
     site := sc_SITE sat;
     decay_date := sc_DECAY sat;
     period_minutes := sc_PERIOD sat;
     inclination_deg := sc_INCLINATION sat;
     apogee_km := sc_APOGEE sat;
     perigee_km := sc_PERIGEE sat |}.

(** [get_satellite_catalog_info]. [login] answers the login if one is made,
    [query] the query; its body is the decoded JSON, [None] if it is not a
    list of dictionaries. Every exception gives the empty list. *)
Definition get_satellite_catalog_info (self : SpaceTrackCollector.t pkg)
    (login : http_reply (option string)) (query : http_reply (option (list satcat_json)))
    (time_time : R) : list catalog_entry * SpaceTrackCollector.t pkg :=
  let '(authenticated, self1) := SpaceTrackCollector.authenticate pkg self login time_time in
  if negb authenticated then ([], self1)
  else
    match query with
    | RequestFailed => ([], self1)
    | Response status_code body =>
        if negb (status_code =? 200)%Z then ([], self1)
        else
          match body with
          | Some catalog_data => (map catalog_entry_of catalog_data, self1)
          | None => ([], self1)
          end
    end.

End WithPackage.

End SpaceTrackCatalog.

(** ** app.py: the handlers that start and stop the monitoring *)

Module App.

(** The module-level flag [monitoring_active] beside the service [monitor]. *)
Record state : Type := mkState {
  monitor : MonitoringService.process;
  monitoring_active : bool
}.

Definition boot : state :=
  {| monitor := MonitoringService.boot; monitoring_active := false |}.

(** The effect of [start_monitoring], [stop_monitoring] and [handle_connect]
    on the flag and the service. What they answer, a constant message or, to
    a connection, the latest data, does not depend on it. *)
Definition start_monitoring (s : state) : state :=
  {| monitor := MonitoringService.start (monitor s); monitoring_active := true |}.

Definition stop_monitoring (s : state) : state :=
  {| monitor := MonitoringService.stop (monitor s); monitoring_active := false |}.

Definition handle_connect (s : state) : state :=
  if monitoring_active s then s
  else {| monitor := MonitoringService.start (monitor s); monitoring_active := true |}.

Inductive request : Type :=
| PostStart
| PostStop
| SocketConnect.

Definition handle (s : state) (r : request) : state :=
  match r with
  | PostStart => start_monitoring s
  | PostStop => stop_monitoring s
  | SocketConnect => handle_connect s
  end.

(** The requests in the order they are served. *)
Definition serve (s : state) (requests : list request) : state :=
  fold_left handle requests s.

Section Routes.

Variable rt : runtime.
Variable pkg : sgp4_package.

(** The object [satellite_collector], of one of three classes. *)
Inductive collector : Type :=
| Enhanced (c : EnhancedSatelliteCollector.t)
| SpaceTrack (c : SpaceTrackCollector.t pkg)
| CelesTrak (c : SatelliteCollector.t).

(** The answers of the route [/api/satellites/visible]. *)
Inductive visible_response : Type :=
| Answer200 (lat lon min_elevation_degrees : R) (visible_count : nat)
    (satellites : list visible_satellite)
| Answer400 (error : string)
| Answer500.

(** [float(request.args.get(key, default))] *)
Definition query_float (arg : option string) (default : R) : result R :=
  match arg with
  | Some text => py_float rt text
  | None => Ok default
  end.

(** [get_visible_satellites]. The classes [SatelliteCollector] and its
    subclass [SpaceTrackCollector] have the method
    [get_satellites_over_location]; [EnhancedSatelliteCollector] has not, and
    the attribute error is answered like any other exception. *)
Definition get_visible_satellites (satellite_collector : collector)
    (lat lon elevation : option string) (current_time : datetime) : visible_response :=
  match (lat <- query_float lat 0 ;;
         lon <- query_float lon 0 ;;
         min_elevation <- query_float elevation 10 ;;
         Ok (lat, lon, min_elevation)) with
  | Raise ValueError => Answer400 "Invalid coordinates provided"
  | Raise _ => Answer500
  | Ok (lat, lon, min_elevation) =>
      let answer visible_sats :=
        Answer200 lat lon min_elevation (List.length visible_sats) visible_sats in
      match satellite_collector with
      | Enhanced _ => Answer500
      | SpaceTrack c =>
          answer (SatelliteCollector.get_satellites_over_location rt
                    (SpaceTrackCollector.base pkg c) lat lon min_elevation current_time)
      | CelesTrak c =>
          answer (SatelliteCollector.get_satellites_over_location rt c
                    lat lon min_elevation current_time)
      end
  end.

(** The answers of the route [/api/satellites/catalog]. *)
Inductive catalog_response : Type :=
| Catalog200 (count : nat) (satellites : list catalog_entry)
| Catalog400 (error hint : string).

(** [get_satellite_catalog], with the collector afterwards: only the class
    [SpaceTrackCollector] has the method [get_satellite_catalog_info], which
    raises nothing. *)
Definition get_satellite_catalog (satellite_collector : collector)
    (login : http_reply (option string)) (query : http_reply (option (list satcat_json)))
    (time_time : R) : catalog_response * collector :=
  match satellite_collector with
  | SpaceTrack c =>
      let '(catalog_info, c1) :=
        SpaceTrackCatalog.get_satellite_catalog_info pkg c login query time_time in
      (Catalog200 (List.length catalog_info) catalog_info, SpaceTrack c1)
  | _ =>
      (Catalog400 "Catalog info only available with Space-Track data source"
         "Set SATELLITE_DATA_SOURCE=spacetrack in your environment",
       satellite_collector)
  end.

End Routes.

End App.

(** ** collectors/starlink.py: the ratings of the connection *)

Module StarlinkCollector.

Local Open Scope R_scope.

(** The keys of the status data that the rating reads, numbers and a
    boolean; an absent key is [None]. *)
Record status_data : Type := mkStatus {
  signal_quality : option R;
  ping_latency_ms : option R;
  ping_drop_rate : option R;
  currently_obstructed : option bool
}.

Definition _calculate_connection_quality (raw_data : status_data) : string :=
  let score := 0%nat in
  let signal_quality := get_or (signal_quality raw_data) 0 in
  let score :=
    if Rgt_dec signal_quality 0.8 then (score + 3)%nat
    else if Rgt_dec signal_quality 0.6 then (score + 2)%nat
    else if Rgt_dec signal_quality 0.3 then (score + 1)%nat
    else score in
  let latency := get_or (ping_latency_ms raw_data) 1000 in
  let score :=
    if Rlt_dec latency 30 then (score + 3)%nat
    else if Rlt_dec latency 60 then (score + 2)%nat
    else if Rlt_dec latency 100 then (score + 1)%nat
    else score in
  let packet_loss := get_or (ping_drop_rate raw_data) 1 * 100 in
  let score :=
    if Rlt_dec packet_loss 1 then (score + 2)%nat
    else if Rlt_dec packet_loss 5 then (score + 1)%nat
    else score in
  let score :=
    if negb (get_or (currently_obstructed raw_data) true) then (score + 2)%nat
    else score in
  if (8 <=? score)%nat then "Excellent"
  else if (6 <=? score)%nat then "Good"
  else if (4 <=? score)%nat then "Fair"
  else if (2 <=? score)%nat then "Poor"
  else "Very Poor".

(** What the rating reads of the diagnostic data: four keys of the
    dictionary [alerts], all absent when it is, and the self test. *)
Record diagnostic_data : Type := mkDiagnostic {
  obstructed : option bool;
  dishThermalThrottle : option bool;
  motorsStuck : option bool;
  slowEthernetSpeeds : option bool;
  hardwareSelfTest : option string
}.

(** A boolean in a sum *)
Definition as_int (b : bool) : nat := if b then 1%nat else 0%nat.

Definition _calculate_diagnostic_quality (raw_data : diagnostic_data) : string :=
  let issues :=
    (as_int (get_or (obstructed raw_data) false)
     + as_int (get_or (dishThermalThrottle raw_data) false)
     + as_int (get_or (motorsStuck raw_data) false)
     + as_int (get_or (slowEthernetSpeeds raw_data) false))%nat in
  let hardware_test := get_or (hardwareSelfTest raw_data) "UNKNOWN" in
  if String.eqb hardware_test "FAILED" || (3 <=? issues)%nat then "Poor"
  else if (2 <=? issues)%nat then "Fair"
  else if (issues =? 1)%nat then "Good"
  else if String.eqb hardware_test "PASSED" && (issues =? 0)%nat then "Excellent"
  else "Good".

(** [int(x)] on a float: the fraction is dropped. *)
Definition int_of_float (x : R) : Z :=
  if Rle_dec 0 x then Zfloor x else (- Zfloor (- x))%Z.

(** What the iteration over the chunks of a streamed answer yields: a chunk
    of so many bytes, or the exception of a broken connection. *)
Inductive stream_event : Type :=
| Chunk (len : N)
| Broken.

(** The loop over [response.iter_content]: [None] when the stream breaks
    before the loop is left. *)
Fixpoint read_chunks (stream : list stream_event) (downloaded : N) : option N :=
  match stream with
  | [] => Some downloaded
  | Broken :: _ => None
  | Chunk len :: rest =>
      if (len =? 0)%N then read_chunks rest downloaded
      else
        let downloaded := (downloaded + len)%N in
        if (500000 <? downloaded)%N then Some downloaded
        else read_chunks rest downloaded
  end.

(** [_estimate_network_speed]: the estimates of the download and of the
    upload speed. [reply] is the answer to the download test, [start_time] and
    [end_time] the two readings of the clock. *)
Definition _estimate_network_speed (reply : http_reply (list stream_event))
    (start_time end_time : R) : Z * Z :=
  let typical := (100%Z, 15%Z) in
  match reply with
  | RequestFailed => typical
  | Response status_code stream =>
      if (status_code =? 200)%Z then
        match read_chunks stream 0 with
        | None => typical
        | Some downloaded =>
            let elapsed := end_time - start_time in
            if Rgt_dec elapsed 0 then
              let speed_mbps := IZR (Z.of_N downloaded) * 8 / (elapsed * 1000000) in
              let estimated_download :=
                Z.max 10 (Z.min 500 (int_of_float (speed_mbps * 5))) in
              let estimated_upload := int_of_float (IZR estimated_download * 0.15) in
              (estimated_download, estimated_upload)
            else typical
        end
      else typical
  end.

Section Discovery.

(** The dictionary a dish answers with, and [key in data] on it. *)
Variable raw : Type.
Variable has_key : raw -> string -> bool.

Definition _is_status_data (data : raw) : bool :=
  existsb (has_key data)
    ["signal_quality"; "ping_latency_ms"; "downlink_throughput_bps";
     "uplink_throughput_bps"; "uptime_s"].

Definition _is_diagnostic_data (data : raw) : bool :=
  existsb (has_key data) ["hardwareVersion"; "softwareVersion"; "alerts"; "id"].

Inductive data_kind : Type :=
| StatusData
| DiagnosticData.

Record t : Type := mk {
  potential_ips : list string;
  dish_ip : option string;
  base_url : option string;
  (** the data of which [last_successful_data] is the parse *)
  last_successful_data : option (data_kind * raw)
}.

Definition __init__ (dish_ip : option string) : t :=
  {| potential_ips := ["192.168.100.1"; "192.168.1.1"; "10.0.0.1"; "dishy.starlink";
                       "192.168.100.2"];
     dish_ip := dish_ip;
     base_url := None;
     last_successful_data := None |}.

(** How the loops of [get_status] end: on the data of a dish, which are then
    parsed as status or as diagnostic data; on nothing, and the public address
    is looked at; or on an exception that the outer handler reports. *)
Inductive outcome : Type :=
| Found (kind : data_kind) (ip : string) (raw_data : raw)
| NotFound
| Unexpected (e : exn).

Definition endpoints (ip : string) : list string :=
  let base_url := ("http://" ++ ip)%string in
  [(base_url ++ "/api/status")%string; base_url; (base_url ++ "/api/device/status")%string].

(** The loop over the endpoints of one address. [probe endpoint] is what
    [requests.get(endpoint, timeout=3)] answers, the body being what
    [response.json()] gives. *)
Fixpoint try_endpoints (probe : string -> http_reply (result raw)) (ip : string)
    (urls : list string) : option outcome :=
  match urls with
  | [] => None
  | endpoint :: rest =>
      match probe endpoint with
      | RequestFailed => try_endpoints probe ip rest
      | Response status_code body =>
          if (status_code =? 200)%Z then
            match body with
            | Ok raw_data =>
                if _is_status_data raw_data then Some (Found StatusData ip raw_data)
                else if _is_diagnostic_data raw_data then Some (Found DiagnosticData ip raw_data)
                else try_endpoints probe ip rest
            | Raise RequestException => try_endpoints probe ip rest
            | Raise e => Some (Unexpected e)
            end
          else try_endpoints probe ip rest
      end
  end.

(** The loop over the addresses; an empty address is passed over. *)
Fixpoint try_ips (probe : string -> http_reply (result raw)) (ips : list string) : outcome :=
  match ips with
  | [] => NotFound
  | ip :: rest =>
      match ip with
      | EmptyString => try_ips probe rest
      | _ =>
          match try_endpoints probe ip (endpoints ip) with
          | Some o => o
          | None => try_ips probe rest
          end
      end
  end.

(** The discovery of [get_status], with the collector afterwards. The data
    found are numbers, strings and booleans where the parsers expect them, so
    that parsing them does not raise. *)
Definition get_status (self : t) (probe : string -> http_reply (result raw)) : outcome * t :=
  let ips_to_try :=
    match dish_ip self with
    | Some (String c ip) => [String c ip]
    | _ => potential_ips self
    end in
  match try_ips probe ips_to_try with
  | Found kind ip raw_data =>
      (Found kind ip raw_data,
       {| potential_ips := potential_ips self;
          dish_ip := Some ip;
          base_url := Some ("http://" ++ ip)%string;
          last_successful_data := Some (kind, raw_data) |})
  | o => (o, self)
  end.

End Discovery.

End StarlinkCollector.

(** *** Vocabulary of the further properties *)

(** The SGP4 records of a Space-Track collector have distinct catalog
    numbers, which are those of the stored satellites. *)
Definition records_match (pkg : sgp4_package) (self : SpaceTrackCollector.t pkg) : Prop :=
  NoDup (map fst (SpaceTrackCollector.satellite_records pkg self))
  /\ forall id : Z,
       In id (map fst (SpaceTrackCollector.satellite_records pkg self))
       <-> In id (map norad_id
                    (SatelliteCollector.starlink_satellites
                       (SpaceTrackCollector.base pkg self))).

(** A login can be attempted: both credentials are set and not empty. *)
Definition has_credentials (pkg : sgp4_package) (self : SpaceTrackCollector.t pkg) : bool :=
  Py.truthy_str (SpaceTrackCollector.username pkg self)
  && Py.truthy_str (SpaceTrackCollector.password pkg self).

(** The order of the ratings, from the worst to the best. *)
Definition rating_rank (rating : string) : nat :=
  if String.eqb rating "Excellent" then 4
  else if String.eqb rating "Good" then 3
  else if String.eqb rating "Fair" then 2
  else if String.eqb rating "Poor" then 1
  else 0.

(** The requests that may start a monitoring thread. *)
Definition starts (r : App.request) : bool :=
  match r with
  | App.PostStop => false
  | _ => true
  end.

(** The snapshot kept by the enhanced collector, if there is one, has at
    least one position. *)
Definition cache_usable (self : EnhancedSatelliteCollector.t) : Prop :=
  holds_for (fun data => positions data <> []) (EnhancedSatelliteCollector.cached_data self).

(** No position of the list has the catalog number. *)
Definition absent (norad_id : Z) (l : list Position) : Prop :=
  Forall (fun sat => pos_norad_id sat <> norad_id) l.

(** The points [_calculate_connection_quality] gives for each measure, and
    the rating of a total. *)
Definition signal_points (raw : StarlinkCollector.status_data) : nat :=
  let signal_quality := get_or (StarlinkCollector.signal_quality raw) 0%R in
  if Rgt_dec signal_quality 0.8 then 3
  else if Rgt_dec signal_quality 0.6 then 2
  else if Rgt_dec signal_quality 0.3 then 1
  else 0.

Definition latency_points (raw : StarlinkCollector.status_data) : nat :=
  let latency := get_or (StarlinkCollector.ping_latency_ms raw) 1000%R in
  if Rlt_dec latency 30 then 3
  else if Rlt_dec latency 60 then 2
  else if Rlt_dec latency 100 then 1
  else 0.

Definition loss_points (raw : StarlinkCollector.status_data) : nat :=
  let packet_loss := (get_or (StarlinkCollector.ping_drop_rate raw) 1 * 100)%R in
  if Rlt_dec packet_loss 1 then 2
  else if Rlt_dec packet_loss 5 then 1
  else 0.

Definition obstruction_points (raw : StarlinkCollector.status_data) : nat :=
  if get_or (StarlinkCollector.currently_obstructed raw) true then 0 else 2.

Definition rating_of_score (score : nat) : string :=
  if (8 <=? score)%nat then "Excellent"
  else if (6 <=? score)%nat then "Good"
  else if (4 <=? score)%nat then "Fair"
  else if (2 <=? score)%nat then "Poor"
  else "Very Poor".

(** The measures of [a] are at least as good as those of [b], an absent
    measure counting as the rating's default for it. *)
Definition no_worse (a b : StarlinkCollector.status_data) : Prop :=
  (get_or (StarlinkCollector.signal_quality b) 0
   <= get_or (StarlinkCollector.signal_quality a) 0)%R
  /\ (get_or (StarlinkCollector.ping_latency_ms a) 1000
      <= get_or (StarlinkCollector.ping_latency_ms b) 1000)%R
  /\ (get_or (StarlinkCollector.ping_drop_rate a) 1
      <= get_or (StarlinkCollector.ping_drop_rate b) 1)%R
  /\ (get_or (StarlinkCollector.currently_obstructed a) true = true ->
      get_or (StarlinkCollector.currently_obstructed b) true = true).

(** The number of alerts the diagnostic rating counts. *)
Definition issues (raw : StarlinkCollector.diagnostic_data) : nat :=
  StarlinkCollector.as_int (get_or (StarlinkCollector.obstructed raw) false)
  + StarlinkCollector.as_int (get_or (StarlinkCollector.dishThermalThrottle raw) false)
  + StarlinkCollector.as_int (get_or (StarlinkCollector.motorsStuck raw) false)
  + StarlinkCollector.as_int (get_or (StarlinkCollector.slowEthernetSpeeds raw) false).

(** * Properties *)

(** ** The builtins on a few inputs *)

Example int_reads_catalog_number : Py.int "44713" = Ok 44713%Z.
Proof. reflexivity. Qed.

Example int_skips_spaces_and_underscores : Py.int "  4_7 " = Ok 47%Z.
Proof. reflexivity. Qed.

Example int_rejects_letters : Py.int "4471U" = Raise ValueError.
Proof. reflexivity. Qed.

Example int_rejects_inner_space : Py.int "44 13" = Raise ValueError.
Proof. reflexivity. Qed.

Example strip_removes_carriage_return :
  Py.strip (String (ascii_of_nat 32) ("2 44713" ++ String (ascii_of_nat 13) ""))%string
  = "2 44713".
Proof. reflexivity. Qed.

Example split_lines_keeps_empty_lines :
  Py.split_lines ("a" ++ String Py.newline (String Py.newline "b"))%string = ["a"; ""; "b"].
Proof. reflexivity. Qed.

Example slice_is_python_slice : Py.slice 2 7 example_line1 = "44713".
Proof. reflexivity. Qed.

Example epoch_field_of_example : Py.slice 18 32 example_line1 = "24001.50000000".
Proof. reflexivity. Qed.

(** ** The refresh loop's lifecycle (app.py) *)

Lemma stop_keeps_stopped_service (p : MonitoringService.process) :
  MonitoringService.running (MonitoringService.self p) = false ->
  MonitoringService.self (MonitoringService.stop p) = MonitoringService.self p.
Proof.
  destruct p as [[r u] n out]; simpl; intros ->; reflexivity.
Qed.

(** C8. [start] on a service that is running changes nothing: no thread is
    started, no field is written, nothing is printed. [stop] on a service that
    is stopped leaves the service and the threads as they are (it prints its
    message again). *)
Theorem start_stop_idempotent (p : MonitoringService.process) :
  (MonitoringService.running (MonitoringService.self p) = true ->
   MonitoringService.start p = p)
  /\ (MonitoringService.running (MonitoringService.self p) = false ->
      MonitoringService.self (MonitoringService.stop p) = MonitoringService.self p
      /\ MonitoringService.threads_started (MonitoringService.stop p)
         = MonitoringService.threads_started p).
Proof.
  split.
  - intros Hrun. unfold MonitoringService.start. rewrite Hrun. reflexivity.
  - intros Hstop. split.
    + apply stop_keeps_stopped_service; assumption.
    + reflexivity.
Qed.

Lemma start_stop_idempotent_witness :
  MonitoringService.start (MonitoringService.start MonitoringService.boot)
  = MonitoringService.start MonitoringService.boot
  /\ MonitoringService.threads_started
       (MonitoringService.start (MonitoringService.start MonitoringService.boot)) = 1%nat
  /\ MonitoringService.self (MonitoringService.stop MonitoringService.boot)
     = MonitoringService.self MonitoringService.boot.
Proof.
  split; [| split].
  - apply (proj1 (start_stop_idempotent (MonitoringService.start MonitoringService.boot))).
    reflexivity.
  - reflexivity.
  - apply (proj2 (start_stop_idempotent MonitoringService.boot)). reflexivity.
Defined.

(** A service that was stopped starts one thread when it is started. *)
Example start_spawns_one_thread :
  MonitoringService.threads_started (MonitoringService.start MonitoringService.boot) = 1%nat.
Proof. reflexivity. Qed.

(** ** The count of positions in a snapshot *)

Lemma sample_data_consistent (current_time : datetime) :
  consistent (SatelliteCollector._get_sample_satellite_data current_time).
Proof. reflexivity. Qed.

Lemma fallback_data_consistent (now : datetime) :
  consistent (EnhancedSatelliteCollector._get_fallback_data now).
Proof. reflexivity. Qed.

Lemma celestrak_snapshot_consistent rt self reply time_time now :
  consistent (fst (SatelliteCollector.get_starlink_constellation rt self reply time_time now)).
Proof.
  unfold SatelliteCollector.get_starlink_constellation.
  destruct (if SatelliteCollector._should_update_tle self time_time
            then SatelliteCollector._fetch_starlink_tle_data rt self reply time_time now
            else (true, self)) as [success self1].
  destruct success; simpl; [| reflexivity].
  destruct (SatelliteCollector.starlink_satellites self1); reflexivity.
Qed.

Lemma spacetrack_snapshot_consistent rt pkg self login query time_time now :
  consistent
    (fst (SpaceTrackCollector.get_starlink_constellation rt pkg self login query time_time now)).
Proof.
  unfold SpaceTrackCollector.get_starlink_constellation.
  destruct (if SatelliteCollector._should_update_tle (SpaceTrackCollector.base pkg self) time_time
            then SpaceTrackCollector.fetch_starlink_tle_data rt pkg self login query time_time now
            else (true, self)) as [success self1].
  destruct success; reflexivity.
Qed.

Lemma satellitemap_snapshot_consistent self w :
  holds_for consistent (EnhancedSatelliteCollector._get_satellitemap_data self w).
Proof.
  unfold EnhancedSatelliteCollector._get_satellitemap_data.
  destruct (negb _); [exact I |].
  destruct (satellitemap_reply w) as [| code body]; [exact I |].
  destruct (negb _); [exact I |].
  destruct body as [[| info infos] |]; try exact I. reflexivity.
Qed.

Lemma aviation_snapshot_consistent data now :
  consistent (EnhancedSatelliteCollector._process_aviation_edge_data data now).
Proof. reflexivity. Qed.

Lemma aviation_edge_data_consistent self w :
  holds_for consistent (EnhancedSatelliteCollector._get_aviation_edge_data self w).
Proof.
  unfold EnhancedSatelliteCollector._get_aviation_edge_data.
  destruct (negb _); [exact I |].
  destruct (aviation_edge_reply w) as [| code body]; [exact I |].
  destruct (code =? 200)%Z; [| exact I].
  destruct body; [apply aviation_snapshot_consistent | exact I].
Qed.

Lemma spacetrack_data_consistent rt pkg w :
  holds_for consistent (EnhancedSatelliteCollector._get_spacetrack_data rt pkg w).
Proof.
  unfold EnhancedSatelliteCollector._get_spacetrack_data.
  destruct (SpaceTrackCollector.authenticate _ _ _ _) as [[|] c1]; [| exact I].
  apply spacetrack_snapshot_consistent.
Qed.

Lemma celestrak_data_consistent rt w :
  holds_for consistent (EnhancedSatelliteCollector._get_celestrak_data rt w).
Proof. apply celestrak_snapshot_consistent. Qed.

Lemma fetch_source_consistent rt pkg self w source data :
  EnhancedSatelliteCollector.fetch_source rt pkg self w source = Ok (Some data) ->
  consistent data.
Proof.
  unfold EnhancedSatelliteCollector.fetch_source.
  pose proof (satellitemap_snapshot_consistent self w) as H1.
  pose proof (aviation_edge_data_consistent self w) as H2.
  pose proof (spacetrack_data_consistent rt pkg w) as H3.
  pose proof (celestrak_data_consistent rt w) as H4.
  repeat destruct (String.eqb _ _); intros [= E];
    first [ rewrite E in H1; exact H1 | rewrite E in H2; exact H2
          | rewrite E in H3; exact H3 | rewrite <- E; exact H4 ].
Qed.

(** What [try_sources] finds is what the method of the last source called
    returned, and that source is one of the list. *)
Lemma try_sources_found fetch sources data invoked :
  EnhancedSatelliteCollector.try_sources fetch sources = (Some data, invoked) ->
  exists source, In source sources
    /\ fetch source = Ok (Some data) /\ positions data <> []
    /\ last invoked source = source.
Proof.
  revert invoked. induction sources as [| s rest IH]; simpl; intros invoked H.
  - discriminate.
  - destruct (EnhancedSatelliteCollector.usable (fetch s)) as [d |] eqn:U.
    + injection H as <- <-. exists s. unfold EnhancedSatelliteCollector.usable in U.
      destruct (fetch s) as [[d' |] | e]; try discriminate.
      destruct (positions d') eqn:P; try discriminate.
      injection U as <-. repeat split; auto. rewrite P; discriminate.
    + destruct (EnhancedSatelliteCollector.try_sources fetch rest) as [found inv] eqn:T.
      injection H as -> <-.
      destruct (IH inv eq_refl) as (src & Hin & Hf & Hp & Hl).
      exists src. repeat split; auto.
      destruct inv as [| i inv']; [| exact Hl].
      exfalso. destruct rest; simpl in T; [discriminate |].
      destruct (EnhancedSatelliteCollector.usable (fetch s0)); [discriminate |].
      destruct (EnhancedSatelliteCollector.try_sources fetch rest); discriminate.
Qed.

(** C9. In the snapshot of every path of every collector, the field
    [positions_calculated] is the length of the list [positions]: the element
    set path and the sample data of the CelesTrak and Space-Track collectors,
    the SatelliteMap and Aviation Edge paths, the enhanced fallback, and what
    the enhanced collector returns and caches out of them. *)
Theorem positions_calculated_is_length :
  (forall rt self reply time_time now,
      consistent (fst (SatelliteCollector.get_starlink_constellation
                         rt self reply time_time now)))
  /\ (forall now, consistent (SatelliteCollector._get_sample_satellite_data now))
  /\ (forall rt pkg self login query time_time now,
         consistent (fst (SpaceTrackCollector.get_starlink_constellation
                            rt pkg self login query time_time now)))
  /\ (forall self w,
         holds_for consistent (EnhancedSatelliteCollector._get_satellitemap_data self w))
  /\ (forall data now,
         consistent (EnhancedSatelliteCollector._process_aviation_edge_data data now))
  /\ (forall self w,
         holds_for consistent (EnhancedSatelliteCollector._get_aviation_edge_data self w))
  /\ (forall now, consistent (EnhancedSatelliteCollector._get_fallback_data now))
  /\ (forall rt pkg self w now now_cached,
         holds_for consistent (EnhancedSatelliteCollector.cached_data self) ->
         let '(snapshot, self', _) :=
           EnhancedSatelliteCollector.get_starlink_constellation self
             (EnhancedSatelliteCollector.fetch_source rt pkg self w)
             now now_cached (utcnow w) in
         consistent snapshot
         /\ holds_for consistent (EnhancedSatelliteCollector.cached_data self')).
Proof.
  repeat apply conj.
  - apply celestrak_snapshot_consistent.
  - apply sample_data_consistent.
  - apply spacetrack_snapshot_consistent.
  - apply satellitemap_snapshot_consistent.
  - apply aviation_snapshot_consistent.
  - apply aviation_edge_data_consistent.
  - apply fallback_data_consistent.
  - intros rt pkg self w now now_cached Hc.
    unfold EnhancedSatelliteCollector.get_starlink_constellation.
    destruct (EnhancedSatelliteCollector._is_cache_valid self now).
    + destruct (EnhancedSatelliteCollector.cached_data self) as [c |] eqn:C.
      * split; [exact Hc | rewrite C; exact Hc].
      * destruct (EnhancedSatelliteCollector.try_sources _ _) as [[d |] inv] eqn:T.
        -- apply try_sources_found in T. destruct T as (src & _ & Hf & _).
           apply fetch_source_consistent in Hf. split; [exact Hf | exact Hf].
        -- split; [reflexivity | rewrite C; exact I].
    + destruct (EnhancedSatelliteCollector.try_sources _ _) as [[d |] inv] eqn:T.
      * apply try_sources_found in T. destruct T as (src & _ & Hf & _).
        apply fetch_source_consistent in Hf. split; [exact Hf | exact Hf].
      * split; [reflexivity | exact Hc].
Qed.

Lemma positions_calculated_is_length_witness :
  let self := EnhancedSatelliteCollector.__init__ None None in
  holds_for consistent (EnhancedSatelliteCollector.cached_data self)
  /\ let '(snapshot, self', _) :=
       EnhancedSatelliteCollector.get_starlink_constellation self
         (EnhancedSatelliteCollector.fetch_source example_runtime example_sgp4 self
            silent_world)
         0%Z 0%Z (utcnow silent_world) in
     consistent snapshot
     /\ holds_for consistent (EnhancedSatelliteCollector.cached_data self').
Proof.
  intros self. split; [exact I |].
  apply (proj2 (proj2 (proj2 (proj2 (proj2 (proj2 (proj2
          positions_calculated_is_length)))))) example_runtime example_sgp4 self
          silent_world 0%Z 0%Z).
  exact I.
Defined.

(** ** The multi-source resolver *)

Lemma usable_fails outcome :
  provider_fails outcome <-> EnhancedSatelliteCollector.usable outcome = None.
Proof.
  split.
  - intros [e | | data Hempty]; simpl; auto. rewrite Hempty; reflexivity.
  - destruct outcome as [[data |] | e]; simpl; intros H; try constructor.
    destruct (positions data) eqn:P; [reflexivity | discriminate].
Qed.

Lemma usable_succeeds outcome data :
  provider_succeeds outcome data <-> EnhancedSatelliteCollector.usable outcome = Some data.
Proof.
  split.
  - intros [-> Hp]; simpl. destruct (positions data); [contradiction | reflexivity].
  - destruct outcome as [[d |] | e]; simpl; try discriminate.
    destruct (positions d) eqn:P; [discriminate |].
    intros [= <-]. split; [reflexivity | rewrite P; discriminate].
Qed.

(** The loop stops at the first source that succeeds, having called the
    sources before it and no source after it. *)
Lemma try_sources_first_success fetch pre p post data :
  Forall (fun q => provider_fails (fetch q)) pre ->
  provider_succeeds (fetch p) data ->
  EnhancedSatelliteCollector.try_sources fetch (pre ++ p :: post)
  = (Some data, pre ++ [p]).
Proof.
  intros Hpre Hp. induction Hpre as [| q pre' Hq _ IH]; simpl.
  - apply usable_succeeds in Hp. rewrite Hp. reflexivity.
  - apply usable_fails in Hq. rewrite Hq, IH. reflexivity.
Qed.

(** The loop calls every source when all of them fail. *)
Lemma try_sources_all_fail fetch sources :
  Forall (fun q => provider_fails (fetch q)) sources ->
  EnhancedSatelliteCollector.try_sources fetch sources = (None, sources).
Proof.
  induction 1 as [| q rest Hq _ IH]; simpl; [reflexivity |].
  apply usable_fails in Hq. rewrite Hq, IH. reflexivity.
Qed.

(** A call within the time to live of a stored snapshot returns it and calls
    no source. *)
Lemma cache_hit self data stored fetch now now_cached utcnow :
  EnhancedSatelliteCollector.last_update self = Some stored ->
  EnhancedSatelliteCollector.cached_data self = Some data ->
  (now - stored < EnhancedSatelliteCollector.cache_duration self)%Z ->
  EnhancedSatelliteCollector.get_starlink_constellation self fetch now now_cached utcnow
  = (data, self, []).
Proof.
  intros Hl Hc Hlt. unfold EnhancedSatelliteCollector.get_starlink_constellation,
    EnhancedSatelliteCollector._is_cache_valid.
  rewrite Hl, Hc. apply Z.ltb_lt in Hlt. rewrite Hlt. reflexivity.
Qed.

Lemma satellitemap_tag self w data :
  EnhancedSatelliteCollector._get_satellitemap_data self w = Some data ->
  data_source data = "satellitemap_enhanced".
Proof.
  unfold EnhancedSatelliteCollector._get_satellitemap_data.
  destruct (negb _); [discriminate |].
  destruct (satellitemap_reply w) as [| code body]; [discriminate |].
  destruct (negb _); [discriminate |].
  destruct body as [[| info infos] |]; try discriminate.
  intros [= <-]. reflexivity.
Qed.

Lemma aviation_edge_tag self w data :
  EnhancedSatelliteCollector._get_aviation_edge_data self w = Some data ->
  data_source data = "aviation_edge_premium".
Proof.
  unfold EnhancedSatelliteCollector._get_aviation_edge_data.
  destruct (negb _); [discriminate |].
  destruct (aviation_edge_reply w) as [| code body]; [discriminate |].
  destruct (code =? 200)%Z; [| discriminate].
  destruct body; [| discriminate]. intros [= <-]. reflexivity.
Qed.

Lemma spacetrack_tag rt pkg w data :
  EnhancedSatelliteCollector._get_spacetrack_data rt pkg w = Some data ->
  data_source data = "spacetrack_sgp4" \/ data_source data = "sample_data".
Proof.
  unfold EnhancedSatelliteCollector._get_spacetrack_data.
  destruct (SpaceTrackCollector.authenticate _ _ _ _) as [[|] c1]; [| discriminate].
  intros [= <-]. unfold SpaceTrackCollector.get_starlink_constellation.
  destruct (if SatelliteCollector._should_update_tle _ _ then _ else _) as [[|] c2];
    simpl; auto.
Qed.

Lemma celestrak_tag rt w data :
  EnhancedSatelliteCollector._get_celestrak_data rt w = Some data ->
  data_source data = "celestrak_tle" \/ data_source data = "sample_data".
Proof.
  unfold EnhancedSatelliteCollector._get_celestrak_data.
  intros [= <-]. unfold SatelliteCollector.get_starlink_constellation.
  destruct (if SatelliteCollector._should_update_tle _ _ then _ else _) as [[|] c2];
    simpl; auto.
  destruct (SatelliteCollector.starlink_satellites c2); simpl; auto.
Qed.

Lemma fetch_source_tag rt pkg self w source data :
  In source priority_order ->
  EnhancedSatelliteCollector.fetch_source rt pkg self w source = Ok (Some data) ->
  In (data_source data) (source_tags source).
Proof.
  intros Hin. simpl in Hin.
  destruct Hin as [<- | [<- | [<- | [<- | []]]]];
    unfold EnhancedSatelliteCollector.fetch_source, source_tags; simpl; intros [= E].
  - apply satellitemap_tag in E. rewrite E. left; reflexivity.
  - apply aviation_edge_tag in E. rewrite E. left; reflexivity.
  - apply spacetrack_tag in E. destruct E as [-> | ->]; simpl; auto.
  - assert (E' : EnhancedSatelliteCollector._get_celestrak_data rt w = Some data)
      by (unfold EnhancedSatelliteCollector._get_celestrak_data; rewrite E; reflexivity).
    apply celestrak_tag in E'. destruct E' as [-> | ->]; simpl; auto.
Qed.

(** C1, as amended. On a cache miss the sources are tried in the order
    satellitemap_enhanced, aviation_edge, space_track, celestrak_fallback. If
    the first K fail and the next one returns a snapshot with a position,
    exactly those K+1 are called, the snapshot is returned and stored, and a
    later call within five minutes of the storing returns the stored snapshot
    without calling any source and leaves the collector as it is. The
    snapshot is the one the provider returned, so its [data_source] is what
    the method of that provider wrote: satellitemap_enhanced,
    aviation_edge_premium, spacetrack_sgp4 or sample_data, celestrak_tle or
    sample_data, in the order of the sources. *)
Theorem resolver_returns_first_success
    self fetch now now_cached utcnow pre p post data :
  EnhancedSatelliteCollector.data_sources self = priority_order ->
  EnhancedSatelliteCollector.cache_duration self = timedelta_minutes 5 ->
  EnhancedSatelliteCollector._is_cache_valid self now = false ->
  priority_order = pre ++ p :: post ->
  Forall (fun q => provider_fails (fetch q)) pre ->
  provider_succeeds (fetch p) data ->
  let self' := EnhancedSatelliteCollector._cache_data self data now_cached in
  EnhancedSatelliteCollector.get_starlink_constellation self fetch now now_cached utcnow
  = (data, self', pre ++ [p])
  /\ List.length (pre ++ [p]) = S (List.length pre)
  /\ EnhancedSatelliteCollector.cached_data self' = Some data
  /\ (forall fetch' now' now_cached' utcnow',
         (now' - now_cached < 5 * 60 * 1000000)%Z ->
         EnhancedSatelliteCollector.get_starlink_constellation self' fetch'
           now' now_cached' utcnow' = (data, self', []))
  /\ (forall rt pkg w,
         fetch p = EnhancedSatelliteCollector.fetch_source rt pkg self w p ->
         In (data_source data) (source_tags p)).
Proof.
  intros Hsources Httl Hmiss Hsplit Hpre Hp self'.
  repeat apply conj.
  - unfold EnhancedSatelliteCollector.get_starlink_constellation.
    rewrite Hmiss, Hsources, Hsplit.
    rewrite (try_sources_first_success fetch pre p post data Hpre Hp). reflexivity.
  - rewrite length_app. simpl. lia.
  - reflexivity.
  - intros fetch' now' now_cached' utcnow' Hlt.
    apply (cache_hit self' data now_cached); try reflexivity.
    simpl. rewrite Httl. exact Hlt.
  - intros rt pkg w Hreal. destruct Hp as [Hok _]. rewrite Hreal in Hok.
    apply (fetch_source_tag rt pkg self w); [| exact Hok].
    rewrite Hsplit. apply in_or_app. right. left. reflexivity.
Qed.

(** With Space-Track accepting the login and failing on the query, the third
    source is the first to succeed, with the sample data. *)
Lemma spacetrack_run :
  let self := EnhancedSatelliteCollector.__init__ None None in
  EnhancedSatelliteCollector.get_starlink_constellation self
    (EnhancedSatelliteCollector.fetch_source example_runtime example_sgp4 self
       spacetrack_query_fails)
    0%Z 0%Z (utcnow spacetrack_query_fails)
  = (SatelliteCollector._get_sample_satellite_data example_epoch,
     EnhancedSatelliteCollector._cache_data self
       (SatelliteCollector._get_sample_satellite_data example_epoch) 0%Z,
     ["satellitemap_enhanced"; "aviation_edge"; "space_track"]).
Proof. reflexivity. Qed.

(** With nothing answering, the fourth source succeeds, with the sample data
    too. *)
Lemma silent_run :
  let self := EnhancedSatelliteCollector.__init__ None None in
  EnhancedSatelliteCollector.get_starlink_constellation self
    (EnhancedSatelliteCollector.fetch_source example_runtime example_sgp4 self
       silent_world)
    0%Z 0%Z (utcnow silent_world)
  = (SatelliteCollector._get_sample_satellite_data example_epoch,
     EnhancedSatelliteCollector._cache_data self
       (SatelliteCollector._get_sample_satellite_data example_epoch) 0%Z,
     ["satellitemap_enhanced"; "aviation_edge"; "space_track"; "celestrak_fallback"]).
Proof. reflexivity. Qed.

Lemma resolver_returns_first_success_witness :
  let self := EnhancedSatelliteCollector.__init__ None None in
  let fetch :=
    EnhancedSatelliteCollector.fetch_source example_runtime example_sgp4 self
      spacetrack_query_fails in
  let data := SatelliteCollector._get_sample_satellite_data example_epoch in
  EnhancedSatelliteCollector.get_starlink_constellation self fetch 0%Z 7%Z example_epoch
  = (data, EnhancedSatelliteCollector._cache_data self data 7%Z,
     ["satellitemap_enhanced"; "aviation_edge"; "space_track"]).
Proof.
  intros self fetch data.
  apply (resolver_returns_first_success self fetch 0%Z 7%Z example_epoch
           ["satellitemap_enhanced"; "aviation_edge"] "space_track"
           ["celestrak_fallback"] data).
  - reflexivity.
  - reflexivity.
  - reflexivity.
  - reflexivity.
  - repeat constructor.
  - split; [reflexivity | discriminate].
Defined.

(** The claim C1 as it is stated fails on its last part: the sample data of
    the Space-Track collector and of the CelesTrak collector carry the same
    [data_source], so the field does not tell which of the two produced the
    snapshot. *)
Lemma data_source_does_not_identify_provider : ~ data_source_identifies_provider.
Proof.
  intros [identify H].
  pose proof (H example_runtime example_sgp4 spacetrack_query_fails _ _ _ _
                eq_refl spacetrack_run eq_refl) as H3.
  pose proof (H example_runtime example_sgp4 silent_world _ _ _ _
                eq_refl silent_run eq_refl) as H4.
  simpl in H3, H4. rewrite H3 in H4. discriminate.
Qed.

(** C2, as amended. If every source fails on a cache miss, every source has
    been called and the collector returns its synthetic snapshot, which it
    does not store. The snapshot has twelve positions and its [data_source]
    is [enhanced_fallback]. *)
Theorem all_sources_fail_gives_fallback self fetch now now_cached utcnow :
  EnhancedSatelliteCollector._is_cache_valid self now = false ->
  Forall (fun q => provider_fails (fetch q)) (EnhancedSatelliteCollector.data_sources self) ->
  EnhancedSatelliteCollector.get_starlink_constellation self fetch now now_cached utcnow
  = (EnhancedSatelliteCollector._get_fallback_data utcnow, self,
     EnhancedSatelliteCollector.data_sources self)
  /\ data_source (EnhancedSatelliteCollector._get_fallback_data utcnow) = "enhanced_fallback"
  /\ List.length (positions (EnhancedSatelliteCollector._get_fallback_data utcnow)) = 12%nat
  /\ positions (EnhancedSatelliteCollector._get_fallback_data utcnow) <> [].
Proof.
  intros Hmiss Hall. repeat apply conj.
  - unfold EnhancedSatelliteCollector.get_starlink_constellation.
    rewrite Hmiss, (try_sources_all_fail fetch _ Hall). reflexivity.
  - reflexivity.
  - reflexivity.
  - discriminate.
Qed.

(** With the element set of [garbled_world], CelesTrak's snapshot has no
    position: the fourth source fails like the three before it. *)
Lemma garbled_sources_fail :
  Forall
    (fun q =>
       provider_fails
         (EnhancedSatelliteCollector.fetch_source example_runtime example_sgp4
            (EnhancedSatelliteCollector.__init__ None None) garbled_world q))
    priority_order.
Proof.
  repeat constructor.
Qed.

Lemma all_sources_fail_gives_fallback_witness :
  let self := EnhancedSatelliteCollector.__init__ None None in
  EnhancedSatelliteCollector.get_starlink_constellation self
    (EnhancedSatelliteCollector.fetch_source example_runtime example_sgp4 self garbled_world)
    0%Z 0%Z example_epoch
  = (EnhancedSatelliteCollector._get_fallback_data example_epoch, self, priority_order).
Proof.
  intros self.
  apply (all_sources_fail_gives_fallback self
           (EnhancedSatelliteCollector.fetch_source example_runtime example_sgp4 self
              garbled_world) 0%Z 0%Z example_epoch).
  - reflexivity.
  - exact garbled_sources_fail.
Defined.

(** The claim C2 as it is stated fails on the value of the field: when every
    source fails, [data_source] is not the string [fallback]. *)
Lemma fallback_source_is_not_fallback :
  let self := EnhancedSatelliteCollector.__init__ None None in
  let fetch :=
    EnhancedSatelliteCollector.fetch_source example_runtime example_sgp4 self garbled_world in
  Forall (fun q => provider_fails (fetch q)) (EnhancedSatelliteCollector.data_sources self)
  /\ data_source
       (fst (fst (EnhancedSatelliteCollector.get_starlink_constellation self fetch
                    0%Z 0%Z example_epoch)))
     <> "fallback".
Proof.
  intros self fetch. split.
  - exact garbled_sources_fail.
  - 
    unfold EnhancedSatelliteCollector.get_starlink_constellation.
    change (EnhancedSatelliteCollector.data_sources self) with priority_order.
    change (EnhancedSatelliteCollector._is_cache_valid self 0%Z) with false.
    cbv iota. rewrite (try_sources_all_fail fetch _ garbled_sources_fail).
    simpl. discriminate.
Qed.

(** ** Ingestion of element sets (satellites.py) *)

Lemma triplet_induction {A : Type} (P : list A -> Prop) :
  P [] -> (forall a, P [a]) -> (forall a b, P [a; b]) ->
  (forall a b c l, P l -> P (a :: b :: c :: l)) ->
  forall l, P l.
Proof.
  intros H0 H1 H2 H3. fix IH 1.
  intros [| a [| b [| c l]]]; [exact H0 | apply H1 | apply H2 | apply H3, IH].
Qed.

Lemma int_raises_value_error s e : Py.int s = Raise e -> e = ValueError.
Proof.
  unfold Py.int.
  destruct (match Py.lstrip_by Py.int_space (Py.rstrip_by Py.int_space s) with
            | EmptyString => _ | String _ _ => _ end);
    [discriminate | intros [= <-]; reflexivity].
Qed.

Lemma basic_validation_starts line1 line2 :
  SatelliteCollector.basic_validation line1 line2
  = ((length line1 =? 69)%nat && (length line2 =? 69)%nat
     && starts_with "1" line1 && starts_with "2" line2).
Proof.
  unfold SatelliteCollector.basic_validation, Py.first_char, starts_with.
  destruct line1, line2; reflexivity.
Qed.

(** The record of a triplet is built exactly when the catalog number reads as
    an integer, whatever the epoch field holds. *)
Lemma triplet_record_ok rt utcnow name line1 line2 z :
  Py.int (Py.slice 2 7 line1) = Ok z ->
  SatelliteCollector.triplet_record rt utcnow name line1 line2
  = Ok (record_of rt utcnow (name, line1, line2)).
Proof.
  intros H. unfold SatelliteCollector.triplet_record, record_of. rewrite H. reflexivity.
Qed.

Lemma triplet_record_raises rt utcnow name line1 line2 e :
  Py.int (Py.slice 2 7 line1) = Raise e ->
  SatelliteCollector.triplet_record rt utcnow name line1 line2 = Raise ValueError.
Proof.
  intros H. unfold SatelliteCollector.triplet_record.
  rewrite H, (int_raises_value_error _ _ H). reflexivity.
Qed.

(** The loop never raises: it returns the records of the well-formed
    triplets, in the order of the text. *)
Lemma parse_triplets_filter rt utcnow lines :
  SatelliteCollector.parse_triplets rt utcnow lines
  = Ok (map (record_of rt utcnow) (filter well_formed (stripped_triplets lines))).
Proof.
  induction lines as [| a | a b | l0 l1 l2 rest IH] using triplet_induction;
    try reflexivity.
  cbn [SatelliteCollector.parse_triplets stripped_triplets filter].
  unfold well_formed at 1. rewrite basic_validation_starts.
  destruct ((length (Py.strip l1) =? 69)%nat && (length (Py.strip l2) =? 69)%nat
            && starts_with "1" (Py.strip l1) && starts_with "2" (Py.strip l2));
    [| exact IH].
  cbn [andb]. unfold parses_as_int.
  destruct (Py.int (Py.slice 2 7 (Py.strip l1))) as [z | e] eqn:E.
  - rewrite (triplet_record_ok rt utcnow _ _ _ z E), IH. reflexivity.
  - rewrite (triplet_record_raises rt utcnow _ _ _ e E). exact IH.
Qed.

Lemma well_formed_spec name line1 line2 :
  well_formed (name, line1, line2) = true <->
  length line1 = 69%nat /\ length line2 = 69%nat
  /\ get 0 line1 = Some "1"%char /\ get 0 line2 = Some "2"%char
  /\ exists z, Py.int (Py.slice 2 7 line1) = Ok z.
Proof.
  unfold well_formed, parses_as_int, starts_with.
  rewrite !andb_true_iff, !Nat.eqb_eq.
  split.
  - intros ((((H1 & H2) & H3) & H4) & H5). repeat split; auto.
    + destruct line1; [discriminate |]. apply Ascii.eqb_eq in H3. subst; reflexivity.
    + destruct line2; [discriminate |]. apply Ascii.eqb_eq in H4. subst; reflexivity.
    + destruct (Py.int (Py.slice 2 7 line1)) as [z |]; [exists z; reflexivity | discriminate].
  - intros (H1 & H2 & H3 & H4 & z & H5). repeat split; auto.
    + destruct line1; simpl in H3; [discriminate |]. injection H3 as ->. apply Ascii.eqb_refl.
    + destruct line2; simpl in H4; [discriminate |]. injection H4 as ->. apply Ascii.eqb_refl.
    + rewrite H5. reflexivity.
Qed.

(** C4, as amended. For a text of at most 50 000 000 characters received with
    status 200, ingestion keeps a triplet exactly when both data lines,
    stripped, are 69 characters long, begin with 1 and 2, and the catalog
    number reads as an integer; the epoch field need not read as a date.
    Triplets that are not well formed are skipped and the loop goes on. If at
    least one triplet is kept, the call succeeds and the store holds the
    records of the kept triplets, as many and in the same order; if none is
    kept, the call fails and the store stays as it was. *)
Theorem ingestion_keeps_well_formed_triplets rt self content time_time utcnow :
  (Z.of_nat (length content) <= 50000000)%Z ->
  let candidates := stripped_triplets (Py.split_lines (Py.strip content)) in
  let kept := filter well_formed candidates in
  let outcome :=
    SatelliteCollector._fetch_starlink_tle_data rt self (Response 200 content)
      time_time utcnow in
  (forall name line1 line2,
      well_formed (name, line1, line2) = true <->
      length line1 = 69%nat /\ length line2 = 69%nat
      /\ get 0 line1 = Some "1"%char /\ get 0 line2 = Some "2"%char
      /\ exists z, Py.int (Py.slice 2 7 line1) = Ok z)
  /\ SatelliteCollector.parse_triplets rt utcnow (Py.split_lines (Py.strip content))
     = Ok (map (record_of rt utcnow) kept)
  /\ (kept <> [] ->
      fst outcome = true
      /\ SatelliteCollector.starlink_satellites (snd outcome) = map (record_of rt utcnow) kept
      /\ List.length (SatelliteCollector.starlink_satellites (snd outcome)) = List.length kept)
  /\ (kept = [] -> outcome = (false, self)).
Proof.
  intros Hsize candidates kept outcome.
  assert (Hloop := parse_triplets_filter rt utcnow (Py.split_lines (Py.strip content))).
  fold candidates in Hloop. fold kept in Hloop.
  assert (Hlimit : (50000000 <? Z.of_nat (length content))%Z = false)
    by (apply Z.ltb_ge; exact Hsize).
  repeat apply conj.
  - intros; apply well_formed_spec.
  - exact Hloop.
  - intros Hkept. subst outcome. unfold SatelliteCollector._fetch_starlink_tle_data.
    cbn [negb Z.eqb Pos.eqb]. rewrite Hlimit, Hloop.
    destruct kept as [| k kept']; [contradiction |].
    cbn. rewrite length_map. auto.
  - intros Hkept. subst outcome. unfold SatelliteCollector._fetch_starlink_tle_data.
    cbn [negb Z.eqb Pos.eqb]. rewrite Hlimit, Hloop, Hkept. reflexivity.
Qed.

(** Of the three triplets of the example text, the second is dropped and the
    third, whose epoch field is not a date, is kept. *)
Example example_catalog_kept :
  map (fun t => fst (fst t))
      (filter well_formed (stripped_triplets (Py.split_lines (Py.strip example_catalog))))
  = ["STARLINK-1007"; "STARLINK-1009"].
Proof. vm_compute. reflexivity. Qed.

Example example_catalog_ids :
  map norad_id
    (SatelliteCollector.starlink_satellites
       (snd (SatelliteCollector._fetch_starlink_tle_data example_runtime
               SatelliteCollector.__init__ (Response 200 example_catalog) 0%R example_epoch)))
  = [44713%Z; 44715%Z].
Proof. reflexivity. Qed.

Lemma ingestion_keeps_well_formed_triplets_witness :
  (Z.of_nat (length example_catalog) <= 50000000)%Z
  /\ fst (SatelliteCollector._fetch_starlink_tle_data example_runtime
            SatelliteCollector.__init__ (Response 200 example_catalog) 0%R example_epoch)
     = true
  /\ List.length
       (SatelliteCollector.starlink_satellites
          (snd (SatelliteCollector._fetch_starlink_tle_data example_runtime
                  SatelliteCollector.__init__ (Response 200 example_catalog)
                  0%R example_epoch)))
     = 2%nat.
Proof.
  assert (Hsize : (Z.of_nat (length example_catalog) <= 50000000)%Z)
    by (vm_compute; discriminate).
  pose proof (ingestion_keeps_well_formed_triplets example_runtime
                SatelliteCollector.__init__ example_catalog 0%R example_epoch Hsize)
    as (_ & _ & Hkept & _).
  destruct Hkept as (Hok & _ & Hlen).
  - vm_compute. discriminate.
  - split; [exact Hsize | split; [exact Hok |]].
    rewrite Hlen. vm_compute. reflexivity.
Defined.

(** The claim C4 as it is stated fails on the epoch: the third triplet of the
    example text is stored although its epoch field does not read as a
    date. *)
Lemma malformed_epoch_is_ingested :
  let t := ("STARLINK-1009",
            "1 44715U 19074C   XXXXXXXXXXXXXX  .00001234  00000-0  10000-3 0  9993",
            "2 44715  53.0000 180.0000 0001000  90.0000   0.0000 15.06000000123457") in
  In t (stripped_triplets (Py.split_lines (Py.strip example_catalog)))
  /\ epoch_parses example_runtime t = false
  /\ In (record_of example_runtime example_epoch t)
        (SatelliteCollector.starlink_satellites
           (snd (SatelliteCollector._fetch_starlink_tle_data example_runtime
                   SatelliteCollector.__init__ (Response 200 example_catalog)
                   0%R example_epoch))).
Proof.
  intros t. repeat apply conj.
  - vm_compute. right; right; left. reflexivity.
  - reflexivity.
  - right; left. reflexivity.
Qed.

(** The claim C4 as it is stated fails on the count too: a text without a
    well-formed triplet leaves a store of two satellites as it was. *)
Example empty_ingestion_keeps_store :
  let self :=
    snd (SatelliteCollector._fetch_starlink_tle_data example_runtime
           SatelliteCollector.__init__ (Response 200 example_catalog) 0%R example_epoch) in
  filter well_formed (stripped_triplets (Py.split_lines (Py.strip "no element set"))) = []
  /\ List.length
       (SatelliteCollector.starlink_satellites
          (snd (SatelliteCollector._fetch_starlink_tle_data example_runtime self
                  (Response 200 "no element set") 1%R example_epoch)))
     = 2%nat.
Proof. split; reflexivity. Qed.

(** ** The epoch of an element set *)

(** C10. When the parsing of an epoch string raises, [_parse_tle_epoch]
    returns the clock reading instead. A triplet that passes the validation
    and whose catalog number reads as an integer is therefore stored even if
    its epoch field does not parse, with the time of acquisition as its
    epoch: at that time its age is zero, as for an element set issued that
    instant. *)
Theorem malformed_epoch_reads_as_now rt utcnow :
  (forall epoch_str e,
      SatelliteCollector.parse_tle_epoch_body rt epoch_str = Raise e ->
      SatelliteCollector._parse_tle_epoch rt utcnow epoch_str = utcnow)
  /\ (forall l0 l1 l2 rest z e,
         SatelliteCollector.basic_validation (Py.strip l1) (Py.strip l2) = true ->
         Py.int (Py.slice 2 7 (Py.strip l1)) = Ok z ->
         SatelliteCollector.parse_tle_epoch_body rt (Py.slice 18 32 (Py.strip l1)) = Raise e ->
         exists stored later,
           SatelliteCollector.parse_triplets rt utcnow (l0 :: l1 :: l2 :: rest)
           = Ok (stored :: later)
           /\ stored = {| name := Py.strip l0; line1 := Py.strip l1; line2 := Py.strip l2;
                          norad_id := z; epoch := utcnow |}
           /\ total_seconds utcnow (epoch stored) = 0%R).
Proof.
  split.
  - intros epoch_str e H. unfold SatelliteCollector._parse_tle_epoch. rewrite H. reflexivity.
  - intros l0 l1 l2 rest z e Hvalid Hint Hepoch.
    destruct (SatelliteCollector.parse_triplets rt utcnow rest) as [later | e'] eqn:Hrest.
    2: { rewrite parse_triplets_filter in Hrest. discriminate. }
    eexists. exists later.
    cbn [SatelliteCollector.parse_triplets]. rewrite Hvalid.
    unfold SatelliteCollector.triplet_record, SatelliteCollector._parse_tle_epoch.
    rewrite Hint, Hepoch, Hrest. cbn.
    repeat split. unfold total_seconds. rewrite Z.sub_diag. lra.
Qed.

Lemma malformed_epoch_reads_as_now_witness :
  SatelliteCollector._parse_tle_epoch example_runtime example_epoch "XXXXXXXXXXXXXX"
  = example_epoch
  /\ exists stored later,
       SatelliteCollector.parse_triplets example_runtime example_epoch
         ["STARLINK-1009";
          "1 44715U 19074C   XXXXXXXXXXXXXX  .00001234  00000-0  10000-3 0  9993";
          "2 44715  53.0000 180.0000 0001000  90.0000   0.0000 15.06000000123457"]
       = Ok (stored :: later)
       /\ stored
          = {| name := "STARLINK-1009";
               line1 := "1 44715U 19074C   XXXXXXXXXXXXXX  .00001234  00000-0  10000-3 0  9993";
               line2 := "2 44715  53.0000 180.0000 0001000  90.0000   0.0000 15.06000000123457";
               norad_id := 44715; epoch := example_epoch |}
       /\ total_seconds example_epoch (epoch stored) = 0%R.
Proof.
  split.
  - apply (proj1 (malformed_epoch_reads_as_now example_runtime example_epoch)
             "XXXXXXXXXXXXXX" ValueError).
    reflexivity.
  - apply (proj2 (malformed_epoch_reads_as_now example_runtime example_epoch)
             "STARLINK-1009"
             "1 44715U 19074C   XXXXXXXXXXXXXX  .00001234  00000-0  10000-3 0  9993"
             "2 44715  53.0000 180.0000 0001000  90.0000   0.0000 15.06000000123457"
             [] 44715%Z ValueError); reflexivity.
Defined.

(** ** Visibility: the filter and the order of the result *)

Section StableSort.

Context {A : Type}.
Variable key : A -> R.

Local Open Scope R_scope.

Lemma insert_desc_perm x l : Permutation (insert_desc key x l) (x :: l).
Proof.
  induction l as [| y l IH]; simpl; [apply Permutation_refl |].
  destruct (Rlt_dec (key x) (key y)); [| apply Permutation_refl].
  apply perm_trans with (y :: x :: l); [apply perm_skip, IH | apply perm_swap].
Qed.

Lemma sort_reverse_perm l : Permutation (sort_reverse key l) l.
Proof.
  induction l as [| x l IH]; simpl; [apply perm_nil |].
  apply perm_trans with (x :: sort_reverse key l);
    [apply insert_desc_perm | apply perm_skip, IH].
Qed.

Lemma insert_desc_descending x l :
  descending key l -> descending key (insert_desc key x l).
Proof.
  unfold descending. induction 1 as [| y l Hl IH Hy]; simpl.
  - repeat constructor.
  - destruct (Rlt_dec (key x) (key y)) as [Hlt | Hge].
    + constructor; [exact IH |].
      apply (Permutation_Forall (Permutation_sym (insert_desc_perm x l))).
      constructor; [lra | exact Hy].
    + constructor; [constructor; assumption |].
      constructor; [lra |].
      apply Forall_impl with (2 := Hy). intros a Ha. lra.
Qed.

Lemma sort_reverse_descending l : descending key (sort_reverse key l).
Proof.
  induction l as [| x l IH]; simpl; [constructor | apply insert_desc_descending, IH].
Qed.

(** Inserting [x] puts it before the elements of its own key. *)
Lemma insert_desc_same_key e x l :
  filter (same_key key e) (insert_desc key x l) = filter (same_key key e) (x :: l).
Proof.
  induction l as [| y l IH]; [reflexivity |].
  cbn [insert_desc]. destruct (Rlt_dec (key x) (key y)) as [Hlt | Hge]; [| reflexivity].
  cbn [filter] in *. rewrite IH. unfold same_key.
  destruct (Req_dec_T (key x) e), (Req_dec_T (key y) e); try reflexivity.
  exfalso. lra.
Qed.

Lemma sort_reverse_same_key e l :
  filter (same_key key e) (sort_reverse key l) = filter (same_key key e) l.
Proof.
  induction l as [| x l IH]; [reflexivity |].
  cbn [sort_reverse fold_right]. fold (sort_reverse key l).
  rewrite insert_desc_same_key. cbn [filter]. rewrite IH. reflexivity.
Qed.

Lemma sort_reverse_stable l : stable_descending key l (sort_reverse key l).
Proof.
  repeat split.
  - apply sort_reverse_perm.
  - apply sort_reverse_descending.
  - intros e; apply sort_reverse_same_key.
Qed.

Lemma same_key_refl x : same_key key (key x) x = true.
Proof. unfold same_key. destruct (Req_dec_T (key x) (key x)); [reflexivity | contradiction]. Qed.

(** Two descending lists with the same elements and, key by key, the same
    order, are equal. *)
Lemma descending_stable_unique s1 s2 :
  Permutation s1 s2 -> descending key s1 -> descending key s2 ->
  (forall e, filter (same_key key e) s1 = filter (same_key key e) s2) ->
  s1 = s2.
Proof.
  revert s2. induction s1 as [| x t1 IH]; intros s2 Hperm Hd1 Hd2 Hsame.
  - apply Permutation_nil in Hperm. subst; reflexivity.
  - destruct s2 as [| y t2].
    { apply Permutation_sym, Permutation_nil in Hperm. discriminate. }
    apply StronglySorted_inv in Hd1. destruct Hd1 as [Hd1 Hx].
    apply StronglySorted_inv in Hd2. destruct Hd2 as [Hd2 Hy].
    assert (Hkey : key x = key y).
    { assert (Hxy : key x >= key y).
      { assert (Hin : In y (x :: t1))
          by (apply (Permutation_in y (Permutation_sym Hperm)); left; reflexivity).
        destruct Hin as [-> | Hin]; [lra |].
        rewrite Forall_forall in Hx. apply Hx, Hin. }
      assert (Hyx : key y >= key x).
      { assert (Hin : In x (y :: t2))
          by (apply (Permutation_in x Hperm); left; reflexivity).
        destruct Hin as [-> | Hin]; [lra |].
        rewrite Forall_forall in Hy. apply Hy, Hin. }
      lra. }
    assert (Hhead : x = y).
    { specialize (Hsame (key x)). cbn [filter] in Hsame.
      rewrite same_key_refl in Hsame. rewrite Hkey in Hsame at 2.
      rewrite same_key_refl in Hsame. injection Hsame as Hxy _. exact Hxy. }
    subst y. f_equal.
    apply IH; [apply (Permutation_cons_inv Hperm) | exact Hd1 | exact Hd2 |].
    intros e. specialize (Hsame e). cbn [filter] in Hsame.
    destruct (same_key key e x); [injection Hsame as Hsame |]; exact Hsame.
Qed.

(** The contract of the builtin determines its result: any list that is a
    stable descending sort of [l] is [sort_reverse key l]. *)
Lemma stable_descending_is_sort_reverse l sorted :
  stable_descending key l sorted -> sorted = sort_reverse key l.
Proof.
  intros (Hperm & Hdesc & Hsame).
  apply descending_stable_unique.
  - apply perm_trans with l; [exact Hperm | apply Permutation_sym, sort_reverse_perm].
  - exact Hdesc.
  - apply sort_reverse_descending.
  - intros e. rewrite Hsame, sort_reverse_same_key. reflexivity.
Qed.

Lemma sort_reverse_Forall (P : A -> Prop) l :
  Forall P l -> Forall P (sort_reverse key l).
Proof.
  apply Permutation_Forall, Permutation_sym, sort_reverse_perm.
Qed.

End StableSort.

(** What the loop of [get_satellites_over_location] appends is at or above
    the threshold, with the elevation computed for a stored satellite. *)
Lemma visible_entry_threshold rt lat lon threshold now sat v :
  In v (SatelliteCollector.visible_entry rt lat lon threshold now sat) ->
  exists position,
    SatelliteCollector._calculate_satellite_position rt sat now = Some position
    /\ elevation_degrees v
       = SatelliteCollector._calculate_elevation_angle lat lon 0
           (latitude position) (longitude position) (altitude_km position)
    /\ (elevation_degrees v >= threshold)%R.
Proof.
  unfold SatelliteCollector.visible_entry.
  destruct (SatelliteCollector._calculate_satellite_position rt sat now) as [position |];
    [| intros []].
  destruct (Rge_dec _ threshold) as [Hge | Hlt]; [| intros []].
  intros [<- | []]. exists position. repeat split. exact Hge.
Qed.

Lemma visible_unsorted_threshold rt self lat lon threshold now :
  Forall
    (fun v =>
       exists sat position,
         In sat (SatelliteCollector.starlink_satellites self)
         /\ SatelliteCollector._calculate_satellite_position rt sat now = Some position
         /\ elevation_degrees v
            = SatelliteCollector._calculate_elevation_angle lat lon 0
                (latitude position) (longitude position) (altitude_km position)
         /\ (elevation_degrees v >= threshold)%R)
    (SatelliteCollector.visible_unsorted rt self lat lon threshold now).
Proof.
  apply Forall_forall. intros v Hv.
  unfold SatelliteCollector.visible_unsorted in Hv.
  apply in_flat_map in Hv. destruct Hv as (sat & Hsat & Hv).
  apply visible_entry_threshold in Hv. destruct Hv as (position & H1 & H2 & H3).
  exists sat, position. auto.
Qed.

Lemma enhanced_entry_threshold lat lon threshold sat entries v :
  EnhancedSatelliteCollector.visible_entry lat lon threshold sat = Ok entries ->
  In v entries ->
  sat_copy v = sat
  /\ elevation v = Math.max 0 (90 - distance v / 100)
  /\ (distance v < 2000)%R
  /\ (elevation v >= threshold)%R
  /\ distance v = great_circle_km lat lon (pos_lat sat) (pos_lng sat).
Proof.
  unfold EnhancedSatelliteCollector.visible_entry. cbv zeta.
  match goal with
  | |- bind (Math.sqrt ?a) _ = _ -> _ =>
      assert (Hsa : Math.sqrt a = Ok (R_sqrt.sqrt a) \/ Math.sqrt a = Raise ValueError)
        by (unfold Math.sqrt; destruct (Rlt_dec a 0); auto);
      assert (Hsb : Math.sqrt (1 - a) = Ok (R_sqrt.sqrt (1 - a))
                    \/ Math.sqrt (1 - a) = Raise ValueError)
        by (unfold Math.sqrt; destruct (Rlt_dec (1 - a) 0); auto)
  end.
  destruct Hsa as [-> | ->]; [| discriminate]. cbn [bind].
  destruct Hsb as [-> | ->]; [| discriminate]. cbn [bind].
  destruct (Rlt_dec _ 2000) as [Hnear | Hfar]; [| intros [= <-] []].
  destruct (Rge_dec _ threshold) as [Hge | Hlt]; [| intros [= <-] []].
  intros [= <-] [<- | []]. cbn [sat_copy elevation distance].
  repeat apply conj; auto.
Qed.

Lemma enhanced_loop_threshold lat lon threshold sats visible :
  EnhancedSatelliteCollector.visible_loop lat lon threshold sats = Ok visible ->
  Forall
    (fun v =>
       In (sat_copy v) sats
       /\ elevation v = Math.max 0 (90 - distance v / 100)
       /\ (distance v < 2000)%R
       /\ (elevation v >= threshold)%R
       /\ distance v
          = great_circle_km lat lon (pos_lat (sat_copy v)) (pos_lng (sat_copy v)))
    visible.
Proof.
  revert visible. induction sats as [| sat rest IH]; cbn; intros visible H.
  - injection H as <-. constructor.
  - destruct (EnhancedSatelliteCollector.visible_entry lat lon threshold sat)
      as [here |] eqn:Hhere; [| discriminate].
    destruct (EnhancedSatelliteCollector.visible_loop lat lon threshold rest)
      as [later |]; [| discriminate].
    cbn in H. injection H as <-.
    apply Forall_app. split.
    + apply Forall_forall. intros v Hv.
      destruct (enhanced_entry_threshold _ _ _ _ _ _ Hhere Hv) as (Hs & H2 & H3 & H4 & H5).
      rewrite Hs. auto.
    + apply Forall_impl with (2 := IH later eq_refl).
      intros v (H1 & H2 & H3 & H4 & H5). auto.
Qed.

(** C3. Both visibility queries return only satellites whose computed
    elevation is at or above the threshold, in descending order of elevation,
    satellites of equal elevation in the order of the input. For
    [get_satellites_over_location] the elevation is that of
    [_calculate_elevation_angle] at sea level; for [get_visible_satellites],
    which may raise, it is 90 minus a hundredth of the ground distance, at
    least 0, the satellite is also within 2000 km, and the ground distance is
    that of the haversine formula between the observer's coordinates and the
    latitude and longitude of the satellite's entry. *)
Theorem visible_satellites_filtered_and_sorted :
  (forall rt self lat lon threshold now,
      let unsorted := SatelliteCollector.visible_unsorted rt self lat lon threshold now in
      let visible :=
        SatelliteCollector.get_satellites_over_location rt self lat lon threshold now in
      Forall
        (fun v =>
           exists sat position,
             In sat (SatelliteCollector.starlink_satellites self)
             /\ SatelliteCollector._calculate_satellite_position rt sat now = Some position
             /\ elevation_degrees v
                = SatelliteCollector._calculate_elevation_angle lat lon 0
                    (latitude position) (longitude position) (altitude_km position)
             /\ (elevation_degrees v >= threshold)%R)
        visible
      /\ stable_descending elevation_degrees unsorted visible)
  /\ (forall self fetch now now_cached utcnow lat lon threshold visible self',
         EnhancedSatelliteCollector.get_visible_satellites self fetch now now_cached utcnow
           lat lon threshold = (Ok visible, self') ->
         let constellation :=
           fst (fst (EnhancedSatelliteCollector.get_starlink_constellation self fetch
                       now now_cached utcnow)) in
         exists unsorted,
           EnhancedSatelliteCollector.visible_loop lat lon threshold
             (positions constellation) = Ok unsorted
           /\ Forall
                (fun v =>
                   In (sat_copy v) (positions constellation)
                   /\ elevation v = Math.max 0 (90 - distance v / 100)
                   /\ (distance v < 2000)%R
                   /\ (elevation v >= threshold)%R
                   /\ distance v
                      = great_circle_km lat lon
                          (pos_lat (sat_copy v)) (pos_lng (sat_copy v)))
                visible
           /\ stable_descending elevation unsorted visible).
Proof.
  split.
  - intros rt self lat lon threshold now unsorted visible. split.
    + apply sort_reverse_Forall, visible_unsorted_threshold.
    + apply (sort_reverse_stable SatelliteCollector.by_elevation).
  - intros self fetch now now_cached utcnow lat lon threshold visible self' H constellation.
    unfold EnhancedSatelliteCollector.get_visible_satellites in H.
    subst constellation.
    destruct (EnhancedSatelliteCollector.get_starlink_constellation self fetch
                now now_cached utcnow) as [[snapshot self1] invoked].
    cbn [fst].
    destruct (EnhancedSatelliteCollector.visible_loop lat lon threshold (positions snapshot))
      as [unsorted |] eqn:Hloop; cbn in H; [| discriminate].
    injection H as <- <-. exists unsorted. repeat apply conj.
    + reflexivity.
    + apply sort_reverse_Forall, (enhanced_loop_threshold _ _ _ _ _ Hloop).
    + apply sort_reverse_perm.
    + apply sort_reverse_descending.
    + intros e; apply sort_reverse_same_key.
Qed.

(** ** Evaluating the numeric definitions *)

Ltac decide_order :=
  repeat match goal with
    | |- context [Rlt_dec ?a ?b] => destruct (Rlt_dec a b); try lra
    | |- context [Rgt_dec ?a ?b] => destruct (Rgt_dec a b); try lra
    | |- context [Rge_dec ?a ?b] => destruct (Rge_dec a b); try lra
    | |- context [Rle_dec ?a ?b] => destruct (Rle_dec a b); try lra
    | |- context [Req_dec_T ?a ?b] => destruct (Req_dec_T a b); try lra
    end.

Lemma radians_0 : Math.radians 0 = 0%R.
Proof. unfold Math.radians. lra. Qed.

Lemma sqrt_ok (x : R) : (0 <= x)%R -> Math.sqrt x = Ok (R_sqrt.sqrt x).
Proof. intros H. unfold Math.sqrt. decide_order. reflexivity. Qed.

Lemma div_ok (x y : R) : y <> 0%R -> Math.div x y = Ok (x / y)%R.
Proof. intros H. unfold Math.div. destruct (Req_dec_T y 0); [contradiction | reflexivity]. Qed.

Lemma div_by_zero (x : R) : Math.div x 0 = Raise ZeroDivisionError.
Proof. unfold Math.div. destruct (Req_dec_T 0 0); [reflexivity | contradiction]. Qed.

Lemma atan2_0_pos (x : R) : (0 < x)%R -> Math.atan2 0 x = 0%R.
Proof.
  intros H. unfold Math.atan2. decide_order.
  replace (0 / x)%R with 0%R by (field; lra). apply atan_0.
Qed.

Lemma overhead_is_visible :
  exists v,
    EnhancedSatelliteCollector.visible_entry 0 0 10 overhead = Ok [v]
    /\ sat_copy v = overhead
    /\ distance v = 0%R
    /\ elevation v = 90%R.
Proof.
  unfold EnhancedSatelliteCollector.visible_entry, overhead. cbn [pos_lat pos_lng].
  replace (0 - 0)%R with 0%R by lra. rewrite radians_0.
  replace (0 / 2)%R with 0%R by lra. rewrite sin_0, cos_0.
  replace (0 * 0 + 1 * 1 * 0 * 0)%R with 0%R by ring.
  replace (1 - 0)%R with 1%R by lra.
  rewrite (sqrt_ok 0), (sqrt_ok 1) by lra. rewrite sqrt_0, sqrt_1. cbn [bind].
  rewrite (atan2_0_pos 1) by lra.
  replace (2 * 0 * 6371)%R with 0%R by ring.
  unfold Math.max. decide_order.
  eexists. split; [reflexivity |]. cbn. repeat split; lra.
Qed.

(** ** Elevation and azimuth on degenerate geometry *)

Lemma div_cases (x y : R) :
  Math.div x y = Ok (x / y)%R \/ Math.div x y = Raise ZeroDivisionError.
Proof. unfold Math.div. destruct (Req_dec_T y 0); auto. Qed.

(** The clamp keeps the argument of [asin] in its domain. *)
Lemma asin_clamped (d : R) :
  Math.asin (Math.max (-1) (Math.min 1 d))
  = Ok (Ratan.asin (Math.max (-1) (Math.min 1 d))).
Proof. unfold Math.asin, Math.max, Math.min. decide_order; reflexivity. Qed.

Lemma sum_of_squares_nonneg (a b c : R) : (0 <= a * a + b * b + c * c)%R.
Proof.
  pose proof (Rle_0_sqr a). pose proof (Rle_0_sqr b). pose proof (Rle_0_sqr c).
  unfold Rsqr in *. lra.
Qed.

(** The only exception of the elevation is a division by zero. *)
Lemma elevation_raises_zero_division obs_lat obs_lon obs_alt sat_lat sat_lon sat_alt e :
  SatelliteCollector.elevation_body obs_lat obs_lon obs_alt sat_lat sat_lon sat_alt = Raise e ->
  e = ZeroDivisionError.
Proof.
  unfold SatelliteCollector.elevation_body. cbv zeta.
  rewrite sqrt_ok by apply sum_of_squares_nonneg. cbn [bind].
  repeat match goal with
    | |- context [Math.div ?x ?y] =>
        destruct (div_cases x y) as [-> | ->]; cbn [bind];
        [| intros [= <-]; reflexivity]
    end.
  rewrite asin_clamped. cbn [bind]. discriminate.
Qed.

Lemma azimuth_never_raises obs_lat obs_lon sat_lat sat_lon :
  exists azimuth,
    SatelliteCollector.azimuth_body obs_lat obs_lon sat_lat sat_lon = Ok azimuth.
Proof. eexists. reflexivity. Qed.

(** Coincident positions: the range is zero and the division by it raises. *)
Lemma elevation_coincident lat lon alt :
  SatelliteCollector.elevation_body lat lon alt lat lon alt = Raise ZeroDivisionError.
Proof.
  unfold SatelliteCollector.elevation_body. cbv zeta.
  set (x := ((6371 + alt) * cos (Math.radians lat) * cos (Math.radians lon))%R).
  set (y := ((6371 + alt) * cos (Math.radians lat) * sin (Math.radians lon))%R).
  set (z := ((6371 + alt) * sin (Math.radians lat))%R).
  replace ((x - x) * (x - x) + (y - y) * (y - y) + (z - z) * (z - z))%R with 0%R by ring.
  rewrite (sqrt_ok 0) by lra. rewrite sqrt_0. cbn [bind].
  repeat match goal with
    | |- context [Math.div ?a (6371 + alt)%R] =>
        destruct (div_cases a (6371 + alt)%R) as [-> | ->]; cbn [bind];
        [| reflexivity]
    end.
  rewrite div_by_zero. reflexivity.
Qed.

Lemma fmod_360_of_360 : Math.fmod (0 + 360) 360 = 0%R.
Proof.
  unfold Math.fmod. rewrite (Zfloor_eq 1); [lra |].
  replace ((0 + 360) / 360)%R with 1%R by field. lra.
Qed.

Lemma degrees_0 : Math.degrees 0 = 0%R.
Proof. unfold Math.degrees. lra. Qed.

Lemma atan2_0_0 : Math.atan2 0 0 = 0%R.
Proof. unfold Math.atan2. decide_order; reflexivity. Qed.

Lemma azimuth_coincident lat lon :
  SatelliteCollector.azimuth_body lat lon lat lon = Ok 0%R.
Proof.
  unfold SatelliteCollector.azimuth_body. cbv zeta.
  replace (Math.radians lon - Math.radians lon)%R with 0%R by lra.
  rewrite sin_0, cos_0.
  replace (0 * cos (Math.radians lat))%R with 0%R by ring.
  replace (cos (Math.radians lat) * sin (Math.radians lat)
           - sin (Math.radians lat) * cos (Math.radians lat) * 1)%R with 0%R by ring.
  rewrite atan2_0_0, degrees_0, fmod_360_of_360. reflexivity.
Qed.

Lemma radians_180 : Math.radians 180 = PI.
Proof. unfold Math.radians. field. Qed.

(** The satellite at the antipodes of an observer on the equator is straight
    below: the elevation is -90 degrees. *)
Lemma elevation_antipodal :
  SatelliteCollector.elevation_body 0 0 0 0 180 0 = Ok (-90)%R.
Proof.
  unfold SatelliteCollector.elevation_body. cbv zeta.
  rewrite radians_0, radians_180, sin_0, cos_0, sin_PI, cos_PI.
  replace (((6371 + 0) * 1 * -1 - (6371 + 0) * 1 * 1)
           * ((6371 + 0) * 1 * -1 - (6371 + 0) * 1 * 1)
           + ((6371 + 0) * 1 * 0 - (6371 + 0) * 1 * 0)
             * ((6371 + 0) * 1 * 0 - (6371 + 0) * 1 * 0)
           + ((6371 + 0) * 0 - (6371 + 0) * 0) * ((6371 + 0) * 0 - (6371 + 0) * 0))%R
    with (12742 * 12742)%R by ring.
  rewrite sqrt_ok by lra. rewrite sqrt_square by lra. cbn [bind].
  rewrite !div_ok by lra. cbn [bind].
  rewrite div_ok by lra. cbn [bind].
  replace (((6371 + 0) * 1 * -1 - (6371 + 0) * 1 * 1) * ((6371 + 0) * 1 * 1 / (6371 + 0))
           + ((6371 + 0) * 1 * 0 - (6371 + 0) * 1 * 0) * ((6371 + 0) * 1 * 0 / (6371 + 0))
           + ((6371 + 0) * 0 - (6371 + 0) * 0) * ((6371 + 0) * 0 / (6371 + 0)))%R
    with (-12742)%R by field.
  replace (-12742 / 12742)%R with (-1)%R by field.
  rewrite asin_clamped. cbn [bind].
  replace (Math.max (-1) (Math.min 1 (-1))) with (- (1))%R
    by (unfold Math.max, Math.min; decide_order).
  rewrite asin_opp, asin_1. unfold Math.degrees. f_equal. field. apply PI_neq0.
Qed.

(** C7, as amended. Neither computation raises, whatever the coordinates: the
    azimuth has no failing step and the elevation fails only by a division by
    zero, which its handler turns into 0. For an observer and a satellite at
    the same coordinates the range is zero, the elevation is 0 by that
    handler, and the azimuth is 0. *)
Theorem elevation_azimuth_never_raise obs_lat obs_lon obs_alt sat_lat sat_lon sat_alt :
  match SatelliteCollector.elevation_body obs_lat obs_lon obs_alt sat_lat sat_lon sat_alt with
  | Ok v =>
      SatelliteCollector._calculate_elevation_angle
        obs_lat obs_lon obs_alt sat_lat sat_lon sat_alt = v
  | Raise e =>
      e = ZeroDivisionError
      /\ SatelliteCollector._calculate_elevation_angle
           obs_lat obs_lon obs_alt sat_lat sat_lon sat_alt = 0%R
  end
  /\ (exists azimuth,
         SatelliteCollector.azimuth_body obs_lat obs_lon sat_lat sat_lon = Ok azimuth
         /\ SatelliteCollector._calculate_azimuth obs_lat obs_lon sat_lat sat_lon = azimuth)
  /\ SatelliteCollector.elevation_body obs_lat obs_lon obs_alt obs_lat obs_lon obs_alt
     = Raise ZeroDivisionError
  /\ SatelliteCollector._calculate_elevation_angle
       obs_lat obs_lon obs_alt obs_lat obs_lon obs_alt = 0%R
  /\ SatelliteCollector._calculate_azimuth obs_lat obs_lon obs_lat obs_lon = 0%R.
Proof.
  repeat apply conj.
  - unfold SatelliteCollector._calculate_elevation_angle.
    destruct (SatelliteCollector.elevation_body _ _ _ _ _ _) as [v | e] eqn:E;
      [reflexivity |].
    split; [exact (elevation_raises_zero_division _ _ _ _ _ _ _ E) | reflexivity].
  - eexists. split; reflexivity.
  - apply elevation_coincident.
  - unfold SatelliteCollector._calculate_elevation_angle.
    rewrite elevation_coincident. reflexivity.
  - unfold SatelliteCollector._calculate_azimuth.
    rewrite azimuth_coincident. reflexivity.
Qed.

(** The claim C7 as it is stated fails at the antipodes: the elevation of a
    satellite opposite to an observer on the equator is -90 degrees, not 0. *)
Lemma antipodal_elevation_is_not_zero :
  SatelliteCollector._calculate_elevation_angle 0 0 0 0 180 0 = (-90)%R
  /\ SatelliteCollector._calculate_elevation_angle 0 0 0 0 180 0 <> 0%R.
Proof.
  unfold SatelliteCollector._calculate_elevation_angle.
  rewrite elevation_antipodal. cbn. split; [reflexivity | lra].
Qed.

(** ** Longitude and latitude of a propagated position *)

Local Open Scope R_scope.

Lemma wrap_down_range n lon :
  lon <= 180 + 360 * INR n ->
  (lon <= 180 -> wrap_down n lon = lon)
  /\ (180 < lon -> -180 < wrap_down n lon <= 180)
  /\ exists k : nat, wrap_down n lon = lon - 360 * INR k.
Proof.
  revert lon. induction n as [| n IH]; intros lon Hbound.
  - cbn in *. split; [reflexivity | split; [intros; lra |]]. exists 0%nat. cbn. lra.
  - rewrite S_INR in Hbound. cbn [wrap_down].
    destruct (Rgt_dec lon 180) as [Hgt | Hle].
    + destruct (IH (lon - 360)) as (Hsame & Hin & k & Hk); [lra |].
      split; [intros; lra | split].
      * intros _. destruct (Rle_lt_dec (lon - 360) 180) as [Hl | Hl];
          [rewrite Hsame by lra; lra | apply Hin; lra].
      * exists (S k). rewrite Hk, S_INR. lra.
    + split; [reflexivity | split; [intros; lra |]]. exists 0%nat. cbn. lra.
Qed.

Lemma wrap_up_range n lon :
  -180 - 360 * INR n <= lon ->
  (-180 <= lon -> wrap_up n lon = lon)
  /\ (lon < -180 -> -180 <= wrap_up n lon < 180)
  /\ exists k : nat, wrap_up n lon = lon + 360 * INR k.
Proof.
  revert lon. induction n as [| n IH]; intros lon Hbound.
  - cbn in *. split; [reflexivity | split; [intros; lra |]]. exists 0%nat. cbn. lra.
  - rewrite S_INR in Hbound. cbn [wrap_up].
    destruct (Rlt_dec lon (-180)) as [Hlt | Hge].
    + destruct (IH (lon + 360)) as (Hsame & Hin & k & Hk); [lra |].
      split; [intros; lra | split].
      * intros _. destruct (Rle_lt_dec (-180) (lon + 360)) as [Hl | Hl];
          [rewrite Hsame by lra; lra | apply Hin; lra].
      * exists (S k). rewrite Hk, S_INR. lra.
    + split; [reflexivity | split; [intros; lra |]]. exists 0%nat. cbn. lra.
Qed.

(** The number of unfoldings given to a loop is enough for it to end. *)
Lemma up_enough (x : R) : x <= INR (Z.to_nat (up x)).
Proof.
  destruct (archimed x) as [Hup _].
  destruct (Z_lt_le_dec (up x) 0) as [Hneg | Hpos].
  - replace (Z.to_nat (up x)) with 0%nat by lia. cbn. apply IZR_lt in Hneg. lra.
  - rewrite INR_IZR_INZ, Z2Nat.id by assumption. lra.
Qed.

Lemma turns_down_enough lon : lon <= 180 + 360 * INR (turns_down lon).
Proof. unfold turns_down. pose proof (up_enough ((lon - 180) / 360)). lra. Qed.

Lemma turns_up_enough lon : -180 - 360 * INR (turns_up lon) <= lon.
Proof. unfold turns_up. pose proof (up_enough ((-180 - lon) / 360)). lra. Qed.

(** More unfoldings than are needed change nothing: the definitions are the
    loops. *)
Lemma wrap_down_more n m lon :
  lon <= 180 + 360 * INR n -> wrap_down (n + m) lon = wrap_down n lon.
Proof.
  revert lon. induction n as [| n IH]; intros lon Hbound.
  - cbn in Hbound. destruct m; cbn; [reflexivity |].
    destruct (Rgt_dec lon 180); [lra | reflexivity].
  - rewrite S_INR in Hbound. cbn [Nat.add wrap_down].
    destruct (Rgt_dec lon 180); [apply IH; lra | reflexivity].
Qed.

Lemma wrap_down_is_the_loop lon :
  wrap_down (turns_down lon) lon
  = if Rgt_dec lon 180 then wrap_down (turns_down (lon - 360)) (lon - 360) else lon.
Proof.
  pose proof (turns_down_enough lon) as Hn.
  pose proof (turns_down_enough (lon - 360)) as Hm.
  destruct (Rgt_dec lon 180) as [Hgt | Hle].
  - rewrite <- (wrap_down_more _ (S (turns_down (lon - 360))) lon Hn).
    rewrite Nat.add_comm. cbn [Nat.add wrap_down].
    destruct (Rgt_dec lon 180); [| lra].
    apply wrap_down_more. exact Hm.
  - apply wrap_down_range; [exact Hn | lra].
Qed.

Lemma wrap_up_more n m lon :
  -180 - 360 * INR n <= lon -> wrap_up (n + m) lon = wrap_up n lon.
Proof.
  revert lon. induction n as [| n IH]; intros lon Hbound.
  - cbn in Hbound. destruct m; cbn; [reflexivity |].
    destruct (Rlt_dec lon (-180)); [lra | reflexivity].
  - rewrite S_INR in Hbound. cbn [Nat.add wrap_up].
    destruct (Rlt_dec lon (-180)); [apply IH; lra | reflexivity].
Qed.

Lemma wrap_up_is_the_loop lon :
  wrap_up (turns_up lon) lon
  = if Rlt_dec lon (-180) then wrap_up (turns_up (lon + 360)) (lon + 360) else lon.
Proof.
  pose proof (turns_up_enough lon) as Hn.
  pose proof (turns_up_enough (lon + 360)) as Hm.
  destruct (Rlt_dec lon (-180)) as [Hlt | Hge].
  - rewrite <- (wrap_up_more _ (S (turns_up (lon + 360))) lon Hn).
    rewrite Nat.add_comm. cbn [Nat.add wrap_up].
    destruct (Rlt_dec lon (-180)); [| lra].
    apply wrap_up_more. exact Hm.
  - apply wrap_up_range; [exact Hn | lra].
Qed.

Lemma normalize_longitude_range lon :
  -180 <= normalize_longitude lon <= 180
  /\ exists k : Z, normalize_longitude lon = lon + 360 * IZR k.
Proof.
  unfold normalize_longitude.
  destruct (wrap_down_range _ lon (turns_down_enough lon)) as (Hd1 & Hd2 & kd & Hkd).
  set (lon1 := wrap_down (turns_down lon) lon) in *.
  destruct (wrap_up_range _ lon1 (turns_up_enough lon1)) as (Hu1 & Hu2 & ku & Hku).
  assert (Hlon1 : lon1 <= 180).
  { destruct (Rle_lt_dec lon 180); [rewrite Hd1 by lra; lra | apply Hd2; lra]. }
  split.
  - destruct (Rle_lt_dec (-180) lon1); [rewrite Hu1 by lra; lra |].
    destruct Hu2; lra.
  - exists (Z.of_nat ku - Z.of_nat kd)%Z.
    rewrite Hku, Hkd, minus_IZR, <- !INR_IZR_INZ. lra.
Qed.

Lemma normalize_longitude_in_range lon :
  -180 <= lon <= 180 -> normalize_longitude lon = lon.
Proof.
  intros H. unfold normalize_longitude.
  destruct (wrap_down_range _ lon (turns_down_enough lon)) as (Hd & _).
  rewrite Hd by lra.
  destruct (wrap_up_range _ lon (turns_up_enough lon)) as (Hu & _).
  apply Hu; lra.
Qed.

Lemma bind_ok {A B : Type} (m : result A) (k : A -> result B) (r : B) :
  bind m k = Ok r -> exists a, m = Ok a /\ k a = Ok r.
Proof. destruct m as [a | e]; cbn; [eauto | discriminate]. Qed.

Ltac invert_binds H :=
  repeat (apply bind_ok in H; destruct H as (? & ? & H)).

Lemma clamp_latitude_range (lat : R) : -90 <= Math.max (-90) (Math.min 90 lat) <= 90.
Proof. unfold Math.max, Math.min. decide_order. Qed.

Lemma position_body_bounds rt sat timestamp position k :
  SatelliteCollector.position_body rt sat timestamp = Ok (position, k) ->
  -180 <= longitude position <= 180 /\ -90 <= latitude position <= 90.
Proof.
  unfold SatelliteCollector.position_body. cbv zeta. intros H.
  invert_binds H. injection H as <- _. cbn [longitude latitude].
  split; [apply normalize_longitude_range | apply clamp_latitude_range].
Qed.

Lemma calculated_position_body rt sat timestamp position :
  SatelliteCollector._calculate_satellite_position rt sat timestamp = Some position ->
  exists k, SatelliteCollector.position_body rt sat timestamp = Ok (position, k).
Proof.
  unfold SatelliteCollector._calculate_satellite_position.
  destruct (SatelliteCollector.position_body rt sat timestamp) as [[p k] | e];
    cbn; [| discriminate].
  intros [= <-]. exists k. reflexivity.
Qed.

Lemma atan2_bound (y x : R) : - PI < Math.atan2 y x <= PI.
Proof.
  pose proof PI_RGT_0 as Hpi. pose proof (atan_bound (y / x)) as Hat.
  unfold Math.atan2.
  destruct (Rlt_dec 0 x) as [Hx | Hx]; [lra |].
  destruct (Rlt_dec x 0) as [Hx' | Hx'].
  - pose proof (Rinv_neg x Hx') as Hinv.
    destruct (Rle_dec 0 y) as [Hy | Hy].
    + assert (Hq : y / x <= 0) by (unfold Rdiv; nra).
      assert (Ha : atan (y / x) <= 0).
      { destruct Hq as [Hq | Hq];
          [apply atan_increasing in Hq; rewrite atan_0 in Hq; lra
          | rewrite Hq, atan_0; lra]. }
      lra.
    + assert (Hq : 0 < y / x) by (unfold Rdiv; nra).
      apply atan_increasing in Hq. rewrite atan_0 in Hq. lra.
  - destruct (Rlt_dec 0 y); [lra |]. destruct (Rlt_dec y 0); lra.
Qed.

Lemma degrees_bound (x : R) : - PI < x <= PI -> -180 < Math.degrees x <= 180.
Proof.
  intros [Hl Hu]. pose proof PI_RGT_0 as Hpi. unfold Math.degrees.
  assert (Hk : 0 < 180 / PI) by (apply Rdiv_lt_0_compat; lra).
  assert (Hpk : PI * (180 / PI) = 180) by (field; lra).
  split.
  - apply (Rmult_lt_compat_r _ _ _ Hk) in Hl. lra.
  - apply (Rmult_le_compat_r _ _ _ (Rlt_le _ _ Hk)) in Hu. lra.
Qed.



Lemma example_position_body :
  exists position k,
    SatelliteCollector.position_body example_runtime example_sat example_epoch
    = Ok (position, k)
    /\ longitude position = -180
    /\ latitude position = 0.
Proof.
  unfold SatelliteCollector.position_body. cbv zeta.
  assert (F1 : py_float example_runtime (Py.slice 8 16 (line2 example_sat)) = Ok 53)
    by reflexivity.
  assert (F2 : py_float example_runtime (Py.slice 17 25 (line2 example_sat)) = Ok (-180))
    by reflexivity.
  assert (F3 : py_float example_runtime ("0." ++ Py.slice 26 33 (line2 example_sat))%string
               = Ok 0) by reflexivity.
  assert (F4 : py_float example_runtime (Py.slice 34 42 (line2 example_sat)) = Ok 90)
    by reflexivity.
  assert (F5 : py_float example_runtime (Py.slice 43 51 (line2 example_sat)) = Ok 0)
    by reflexivity.
  assert (F6 : py_float example_runtime (Py.slice 52 63 (line2 example_sat)) = Ok 15.06)
    by reflexivity.
  rewrite F1, F2, F3, F4, F5, F6. cbn [bind].
  assert (HM : Math.radians
                 (Math.fmod
                    (0 + 15.06 * 360
                         * (total_seconds example_epoch (epoch example_sat) / 86400))
                    360) = 0).
  { unfold total_seconds. cbn [epoch example_sat]. rewrite Z.sub_diag.
    replace (0 + 15.06 * 360 * (0 / 1000000 / 86400)) with 0 by lra.
    unfold Math.fmod. replace (0 / 360) with 0 by lra.
    rewrite (Zfloor_eq 0) by lra. unfold Math.radians. lra. }
  rewrite HM. rewrite sin_0.
  replace ((0 + 0 * 0) / 2) with 0 by lra.
  replace (0 + 0 * 0) with 0 by lra.
  rewrite sin_0, cos_0.
  replace (1 + 0) with 1 by lra. replace (1 - 0) with 1 by lra.
  replace (1 - 0 * 1) with 1 by lra.
  rewrite (sqrt_ok 1) by lra. rewrite sqrt_1.
  assert (Hn : (15.06 * 2 * PI / 86400) ^ 2 > 0).
  { pose proof PI_RGT_0. apply pow_lt. lra. }
  rewrite div_ok by lra. cbn [bind].
  replace (1 * 0) with 0 by lra. replace (1 * 1) with 1 by lra.
  rewrite (atan2_0_pos 1) by lra.
  replace (2 * 0) with 0 by lra. rewrite sin_0, cos_0.
  set (a := Math.pow (SatelliteCollector.mu / (15.06 * 2 * PI / 86400) ^ 2) (1 / 3)).
  assert (Hmu : 0 < SatelliteCollector.mu) by (unfold SatelliteCollector.mu; lra).
  assert (Ha : 0 < a).
  { subst a. unfold Math.pow.
    destruct (Rlt_dec 0 _) as [_ | Hq]; [apply exp_pos |].
    exfalso. apply Hq. apply Rdiv_lt_0_compat; lra. }
  replace (sin (Math.radians 53) * 0) with 0 by ring.
  assert (Hasin : Math.asin 0 = Ok 0).
  { unfold Math.asin. decide_order. rewrite asin_0. reflexivity. }
  rewrite Hasin. cbn [bind].
  replace (a * 1 * 0) with 0 by ring. replace (a * 1 * 1) with a by ring.
  replace (a * 1) with a by ring.
  rewrite div_ok by lra. cbn [bind].
  rewrite sqrt_ok by (apply Rlt_le, Rdiv_lt_0_compat; lra). cbn [bind].
  rewrite (atan2_0_pos a) by lra.
  assert (Hlon : Math.degrees (0 + Math.radians (-180)) = -180).
  { unfold Math.degrees, Math.radians. field. apply PI_neq0. }
  rewrite Hlon, degrees_0.
  do 2 eexists. split; [reflexivity |]. cbn [longitude latitude]. split.
  - apply normalize_longitude_in_range. lra.
  - unfold Math.min. decide_order. unfold Math.max. decide_order.
Qed.






Lemma refine_on_equator rounds a e2 p :
  0 < a -> 0 < e2 -> e2 * a < p ->
  SpaceTrackCollector.refine_latitude rounds a e2 p 0 0 = Ok 0.
Proof.
  intros Ha He Hp. induction rounds as [| rounds IH]; [reflexivity |].
  cbn [SpaceTrackCollector.refine_latitude].
  rewrite sin_0, cos_0.
  replace (1 - e2 * 0 ^ 2) with 1 by ring.
  rewrite (sqrt_ok 1) by lra. rewrite sqrt_1. cbn [bind].
  rewrite !div_ok by lra. cbn [bind].
  assert (Hden : a / 1 + (p / 1 - a / 1) <> 0) by (intros Hz; nra).
  rewrite div_ok by exact Hden. cbn [bind].
  rewrite atan2_0_pos; [exact IH |].
  replace (a / 1 / (a / 1 + (p / 1 - a / 1))) with (a / p) by (field; nra).
  replace (p * (1 - e2 * (a / p))) with (p - e2 * a) by (field; nra).
  lra.
Qed.

Lemma div_ok_inv (x y q : R) : Math.div x y = Ok q -> y <> 0 /\ q = x / y.
Proof.
  unfold Math.div. destruct (Req_dec_T y 0); [discriminate |].
  intros [= <-]. auto.
Qed.

(** The point of the equatorial plane 550 km above the equator. *)
Lemma eci_at_550_km :
  SpaceTrackCollector._eci_to_geodetic (6928.137, 0, 0) = Ok (0, 0, 550).
Proof.
  unfold SpaceTrackCollector._eci_to_geodetic. cbv zeta.
  set (a := 6378.137).
  set (e2 := 2 * (1 / 298.257223563) - 1 / 298.257223563 * (1 / 298.257223563)).
  assert (Ha : 0 < a) by (subst a; lra).
  assert (He : 0 < e2 < 1) by (subst e2; lra).
  replace (6928.137 ^ 2 + 0 ^ 2) with (6928.137 * 6928.137) by ring.
  rewrite sqrt_ok by lra. rewrite sqrt_square by lra. cbn [bind].
  rewrite (atan2_0_pos (6928.137 * (1 - e2))) by nra.
  rewrite refine_on_equator by (subst a e2; lra). cbn [bind].
  rewrite sin_0, cos_0.
  replace (1 - e2 * 0 ^ 2) with 1 by ring.
  rewrite (sqrt_ok 1) by lra. rewrite sqrt_1. cbn [bind].
  rewrite !div_ok by lra. cbn [bind].
  rewrite (atan2_0_pos 6928.137) by lra.
  rewrite degrees_0, normalize_longitude_in_range by lra.
  replace (6928.137 / 1 - a / 1) with 550 by (subst a; lra).
  reflexivity.
Qed.















(** The approximate propagator returns a position for every record whose
    six fields read as numbers, with a mean motion that is not zero; the
    eccentricity, read from seven digits after "0.", is below 1. *)
Lemma position_body_succeeds rt sat timestamp
    inclination raan eccentricity arg_perigee mean_anomaly mean_motion :
  py_float rt (Py.slice 8 16 (line2 sat)) = Ok inclination ->
  py_float rt (Py.slice 17 25 (line2 sat)) = Ok raan ->
  py_float rt ("0." ++ Py.slice 26 33 (line2 sat))%string = Ok eccentricity ->
  py_float rt (Py.slice 34 42 (line2 sat)) = Ok arg_perigee ->
  py_float rt (Py.slice 43 51 (line2 sat)) = Ok mean_anomaly ->
  py_float rt (Py.slice 52 63 (line2 sat)) = Ok mean_motion ->
  0 <= eccentricity < 1 -> mean_motion <> 0 ->
  exists position k, SatelliteCollector.position_body rt sat timestamp = Ok (position, k).
Proof.
  intros F1 F2 F3 F4 F5 F6 He Hmm.
  unfold SatelliteCollector.position_body. cbv zeta.
  rewrite F1, F2, F3, F4, F5, F6. cbn [bind].
  pose proof PI_RGT_0 as Hpi.
  assert (Hn : mean_motion * 2 * PI / 86400 <> 0).
  { intros Hz. apply Hmm. nra. }
  assert (Hn2 : (mean_motion * 2 * PI / 86400) ^ 2 <> 0) by (apply pow_nonzero; exact Hn).
  rewrite (div_ok _ _ Hn2). cbn [bind].
  rewrite (sqrt_ok (1 + eccentricity)) by lra. cbn [bind].
  rewrite (sqrt_ok (1 - eccentricity)) by lra. cbn [bind].
  match goal with
  | |- context [Math.asin ?x] =>
      assert (Hasin : Math.asin x = Ok (Ratan.asin x))
  end.
  { match goal with
    | |- Math.asin (sin ?i * sin ?nu) = _ =>
        pose proof (SIN_bound i) as Hi; pose proof (SIN_bound nu) as Hnu;
        set (si := sin i) in *; set (snu := sin nu) in *
    end.
    unfold Math.asin.
    destruct (Rlt_dec (si * snu) (-1)); [nra |].
    destruct (Rlt_dec 1 (si * snu)); [nra | reflexivity]. }
  rewrite Hasin. cbn [bind].
  assert (Hmu : 0 < SatelliteCollector.mu) by (unfold SatelliteCollector.mu; lra).
  assert (Hq : 0 < SatelliteCollector.mu / (mean_motion * 2 * PI / 86400) ^ 2).
  { apply Rdiv_lt_0_compat; [exact Hmu |].
    replace ((mean_motion * 2 * PI / 86400) ^ 2)
      with (Rsqr (mean_motion * 2 * PI / 86400)) by (unfold Rsqr; ring).
    apply Rsqr_pos_lt. exact Hn. }
  set (a := Math.pow (SatelliteCollector.mu / (mean_motion * 2 * PI / 86400) ^ 2) (1 / 3)).
  assert (Ha : 0 < a).
  { subst a. unfold Math.pow. destruct (Rlt_dec 0 _); [apply exp_pos | contradiction]. }
  match goal with
  | |- context [Math.div SatelliteCollector.mu (a * (1 - eccentricity * cos ?E))] =>
      pose proof (COS_bound E) as HE; set (cE := cos E) in *
  end.
  assert (Hec : eccentricity * cE <= eccentricity * 1)
    by (apply Rmult_le_compat_l; lra).
  assert (Hr : 0 < a * (1 - eccentricity * cE))
    by (apply Rmult_lt_0_compat; lra).
  rewrite div_ok by lra. cbn [bind].
  rewrite sqrt_ok by (apply Rlt_le, Rdiv_lt_0_compat; lra). cbn [bind].
  do 2 eexists. reflexivity.
Qed.


Lemma eccentric_position_exists :
  exists position k,
    SatelliteCollector.position_body eccentric_runtime eccentric_sat one_day_later
    = Ok (position, k).
Proof.
  apply (position_body_succeeds eccentric_runtime eccentric_sat one_day_later
           63.4 100 0.5 270 270 2.5); try reflexivity; lra.
Qed.




(** ** The approximate propagator *)

Lemma fmod_360 (x : R) :
  0 <= Math.fmod x 360 < 360 /\ exists turns : Z, Math.fmod x 360 = x - 360 * IZR turns.
Proof.
  unfold Math.fmod. pose proof (Zfloor_bound (x / 360)) as [Hl Hu].
  split; [lra |]. exists (Zfloor (x / 360)). reflexivity.
Qed.

Lemma cube_of_cube_root (q : R) : 0 < q -> Rpower q (1 / 3) ^ 3 = q.
Proof.
  intros Hq. rewrite <- (Rpower_pow 3) by apply exp_pos.
  rewrite Rpower_mult. replace (1 / 3 * INR 3) with 1 by (cbn; field).
  apply Rpower_1. exact Hq.
Qed.

(** A second correction changes the eccentric anomaly: the first one is not
    the solution of Kepler's equation. *)
Lemma second_correction_differs :
  kepler_iterate (1 / 2) (PI / 2) 2 <> kepler_iterate (1 / 2) (PI / 2) 1.
Proof.
  cbn [kepler_iterate]. rewrite sin_PI2.
  replace (PI / 2 + 1 / 2 * 1) with (PI / 2 + 1 / 2) by lra.
  rewrite <- Rtrigo1.cos_sin.
  replace (1 / 2) with (2 * (1 / 4)) at 2 by lra. rewrite cos_2a_sin.
  assert (Hs : 0 < sin (1 / 4)).
  { pose proof PI2_1. apply sin_gt_0; lra. }
  nra.
Qed.

Lemma asin_ok_inv (x y : R) : Math.asin x = Ok y -> y = Ratan.asin x.
Proof.
  unfold Math.asin.
  destruct (Rlt_dec x (-1)); [discriminate |].
  destruct (Rlt_dec 1 x); [discriminate |]. congruence.
Qed.

(** C6. Whenever the approximate propagator returns a position, it has
    taken the elapsed time in days from the epoch, advanced the mean anomaly
    by mean motion times elapsed days times 360 degrees and reduced it into
    [0, 360), taken the semi-major axis from the mean motion by Kepler's third
    law, read the eccentricity [e] from the seven digits of the record after
    "0.", and applied one correction [E = M + e sin M] to the mean anomaly in
    radians; the true anomaly and the radius [a (1 - e cos E)] are taken from
    that [E], the altitude returned is the radius less 6371 km, and the
    latitude and the longitude returned are those of that true anomaly. One
    correction is not the solution: a second one gives another value. *)
Theorem approximate_propagation_steps rt sat timestamp position k :
  SatelliteCollector.position_body rt sat timestamp = Ok (position, k) ->
  let e := SatelliteCollector.k_eccentricity k in
  let n := SatelliteCollector.k_mean_motion k * 2 * PI / 86400 in
  let M := SatelliteCollector.mean_anomaly_rad k in
  let E := SatelliteCollector.eccentric_anomaly k in
  let a := SatelliteCollector.semi_major_axis k in
  SatelliteCollector._calculate_satellite_position rt sat timestamp = Some position
  /\ SatelliteCollector.k_time_diff k = total_seconds timestamp (epoch sat) / 86400
  /\ (exists mean_anomaly turns,
         py_float rt (Py.slice 43 51 (line2 sat)) = Ok mean_anomaly
         /\ py_float rt (Py.slice 52 63 (line2 sat)) = Ok (SatelliteCollector.k_mean_motion k)
         /\ SatelliteCollector.current_mean_anomaly k
            = mean_anomaly
              + SatelliteCollector.k_mean_motion k * 360 * SatelliteCollector.k_time_diff k
              - 360 * IZR turns
         /\ 0 <= SatelliteCollector.current_mean_anomaly k < 360)
  /\ M = Math.radians (SatelliteCollector.current_mean_anomaly k)
  /\ n <> 0
  /\ a = third_law_axis n
  /\ a ^ 3 * n ^ 2 = SatelliteCollector.mu
  /\ E = M + e * sin M
  /\ E = kepler_iterate e M 1
  /\ altitude_km position = a * (1 - e * cos E) - 6371
  /\ kepler_iterate (1 / 2) (PI / 2) 2 <> kepler_iterate (1 / 2) (PI / 2) 1
  /\ py_float rt ("0." ++ Py.slice 26 33 (line2 sat))%string = Ok e
  /\ SatelliteCollector.true_anomaly k
     = 2 * Math.atan2 (R_sqrt.sqrt (1 + e) * sin (E / 2))
                      (R_sqrt.sqrt (1 - e) * cos (E / 2))
  /\ SatelliteCollector.radius k = a * (1 - e * cos E)
  /\ (sin (M + e * sin M) <> sin M -> kepler_iterate e M 2 <> E)
  /\ (exists inclination raan,
         py_float rt (Py.slice 8 16 (line2 sat)) = Ok inclination
         /\ py_float rt (Py.slice 17 25 (line2 sat)) = Ok raan
         /\ latitude position
            = Math.max (-90)
                (Math.min 90
                   (Math.degrees
                      (Ratan.asin (sin (Math.radians inclination)
                                   * sin (SatelliteCollector.true_anomaly k)))))
         /\ longitude position
            = normalize_longitude
                (Math.degrees
                   (Math.atan2
                      (SatelliteCollector.radius k * sin (SatelliteCollector.true_anomaly k))
                      (SatelliteCollector.radius k * cos (SatelliteCollector.true_anomaly k))
                    + Math.radians raan))).
Proof.
  intros H. pose proof H as Hbody.
  unfold SatelliteCollector.position_body in H. cbv zeta in H.
  apply bind_ok in H. destruct H as (inclination & Hinc & H).
  apply bind_ok in H. destruct H as (raan & Hraan & H).
  apply bind_ok in H. destruct H as (ecc & Hecc & H).
  apply bind_ok in H. destruct H as (argp & Hargp & H).
  apply bind_ok in H. destruct H as (ma & Hma & H).
  apply bind_ok in H. destruct H as (mm & Hmm & H).
  apply bind_ok in H. destruct H as (q & Hq & H).
  apply bind_ok in H. destruct H as (s1 & Hs1 & H).
  apply bind_ok in H. destruct H as (s2 & Hs2 & H).
  assert (Es1 : s1 = R_sqrt.sqrt (1 + ecc)).
  { unfold Math.sqrt in Hs1. destruct (Rlt_dec _ 0); [discriminate | congruence]. }
  assert (Es2 : s2 = R_sqrt.sqrt (1 - ecc)).
  { unfold Math.sqrt in Hs2. destruct (Rlt_dec _ 0); [discriminate | congruence]. }
  apply bind_ok in H. destruct H as (asin_lat & Hasin & H).
  apply asin_ok_inv in Hasin.
  invert_binds H. injection H as <- <-.
  split.
  { unfold SatelliteCollector._calculate_satellite_position. rewrite Hbody. reflexivity. }
  cbn [SatelliteCollector.k_eccentricity SatelliteCollector.k_mean_motion
       SatelliteCollector.mean_anomaly_rad SatelliteCollector.eccentric_anomaly
       SatelliteCollector.semi_major_axis SatelliteCollector.k_time_diff
       SatelliteCollector.current_mean_anomaly SatelliteCollector.true_anomaly
       SatelliteCollector.radius altitude_km latitude longitude].
  apply div_ok_inv in Hq. destruct Hq as (Hn2 & ->).
  assert (Hn : mm * 2 * PI / 86400 <> 0).
  { intros Hz. apply Hn2. rewrite Hz. ring. }
  assert (Hmu : 0 < SatelliteCollector.mu) by (unfold SatelliteCollector.mu; lra).
  assert (Hpos : 0 < SatelliteCollector.mu / (mm * 2 * PI / 86400) ^ 2).
  { apply Rdiv_lt_0_compat; [exact Hmu |].
    replace ((mm * 2 * PI / 86400) ^ 2)
      with (Rsqr (mm * 2 * PI / 86400)) by (unfold Rsqr; ring).
    apply Rsqr_pos_lt. exact Hn. }
  assert (Hpow : Math.pow (SatelliteCollector.mu / (mm * 2 * PI / 86400) ^ 2) (1 / 3)
                 = third_law_axis (mm * 2 * PI / 86400)).
  { unfold Math.pow, third_law_axis. destruct (Rlt_dec 0 _); [reflexivity | contradiction]. }
  rewrite Hpow.
  destruct (fmod_360 (ma + mm * 360 * (total_seconds timestamp (epoch sat) / 86400)))
    as (Hrange & turns & Hturns).
  rewrite Es1, Es2.
  repeat apply conj; try reflexivity.
  - exists ma, turns.
    split; [exact Hma | split; [exact Hmm | split; [exact Hturns | exact Hrange]]].
  - exact Hn.
  - unfold third_law_axis. rewrite cube_of_cube_root by exact Hpos.
    unfold Rdiv at 1. rewrite Rmult_assoc, Rinv_l by exact Hn2. ring.
  - exact second_correction_differs.
  - exact Hecc.
  - intros Hsin Heq. cbn [kepler_iterate] in Heq. apply Hsin.
    match type of Heq with
    | ?M + ?e * sin (?M + ?e * sin ?M) = _ =>
        assert (He0 : e <> 0) by (intros Hz; apply Hsin; rewrite Hz; f_equal; lra)
    end.
    apply (Rmult_eq_reg_l ecc); [lra | exact He0].
  - exists inclination, raan.
    split; [exact Hinc | split; [exact Hraan | split; [| reflexivity]]].
    rewrite Hasin, Es1, Es2. reflexivity.
Qed.

(** The eccentric orbit one day after its epoch: the eccentricity is 0.5,
    the mean anomaly has advanced by two and a half turns from 270 to 90
    degrees, and the eccentric anomaly is the first correction of it, which a
    second correction changes. *)
Lemma approximate_propagation_steps_witness :
  exists position k,
    SatelliteCollector.position_body eccentric_runtime eccentric_sat one_day_later
    = Ok (position, k)
    /\ SatelliteCollector.k_eccentricity k = 0.5
    /\ SatelliteCollector.k_time_diff k = 1
    /\ SatelliteCollector.current_mean_anomaly k = 90
    /\ SatelliteCollector.mean_anomaly_rad k = PI / 2
    /\ SatelliteCollector.eccentric_anomaly k = PI / 2 + 0.5
    /\ kepler_iterate (SatelliteCollector.k_eccentricity k)
         (SatelliteCollector.mean_anomaly_rad k) 2
       <> SatelliteCollector.eccentric_anomaly k
    /\ SatelliteCollector.semi_major_axis k ^ 3
       * (SatelliteCollector.k_mean_motion k * 2 * PI / 86400) ^ 2
       = SatelliteCollector.mu
    /\ altitude_km position
       = SatelliteCollector.semi_major_axis k * (1 - 0.5 * cos (PI / 2 + 0.5)) - 6371.
Proof.
  destruct eccentric_position_exists as (position & k & H).
  exists position, k. split; [exact H |].
  pose proof (approximate_propagation_steps eccentric_runtime eccentric_sat one_day_later
                position k H) as T.
  cbv zeta in T.
  destruct T as (_ & Htime & (ma & turns & Hma & Hmm & Hadv & Hrange) & HM & _ & _ & Hlaw
                 & Hstep & _ & Halt & _ & Hecc & _ & _ & Hsecond & _).
  assert (He : SatelliteCollector.k_eccentricity k = 0.5).
  { change (py_float eccentric_runtime
              ("0." ++ Py.slice 26 33 (line2 eccentric_sat))%string) with (Ok 0.5) in Hecc.
    congruence. }
  assert (Hm : SatelliteCollector.k_mean_motion k = 2.5).
  { change (py_float eccentric_runtime (Py.slice 52 63 (line2 eccentric_sat)))
      with (Ok 2.5) in Hmm.
    congruence. }
  assert (Ha : ma = 270).
  { change (py_float eccentric_runtime (Py.slice 43 51 (line2 eccentric_sat)))
      with (Ok 270) in Hma.
    congruence. }
  assert (Ht : SatelliteCollector.k_time_diff k = 1).
  { rewrite Htime. unfold total_seconds, one_day_later. cbn [epoch eccentric_sat].
    replace (example_epoch + 86400000000 - example_epoch)%Z with 86400000000%Z by lia.
    lra. }
  assert (Hcur : SatelliteCollector.current_mean_anomaly k = 90).
  { rewrite Hadv, Hm, Ht, Ha in *.
    assert (Hlo : IZR 2 < IZR turns) by lra.
    assert (Hhi : IZR turns < IZR 4) by lra.
    apply lt_IZR in Hlo. apply lt_IZR in Hhi.
    replace turns with 3%Z by lia. lra. }
  assert (HMval : SatelliteCollector.mean_anomaly_rad k = PI / 2).
  { rewrite HM, Hcur. unfold Math.radians. lra. }
  assert (HE : SatelliteCollector.eccentric_anomaly k = PI / 2 + 0.5).
  { rewrite Hstep, HMval, He, sin_PI2. lra. }
  repeat apply conj; try assumption.
  - apply Hsecond. rewrite HMval, He, sin_PI2.
    replace (PI / 2 + 0.5 * 1) with (PI / 2 + 1 / 2) by lra.
    rewrite <- Rtrigo1.cos_sin.
    replace (1 / 2) with (2 * (1 / 4)) by lra. rewrite cos_2a_sin.
    assert (Hs : 0 < sin (1 / 4)).
    { pose proof PI2_1. apply sin_gt_0; lra. }
    nra.
  - rewrite Halt, He, HE. reflexivity.
Defined.

(** ** The visibility queries on several satellites *)

Lemma asin_degrees_range (x : R) : -90 <= Math.degrees (Ratan.asin x) <= 90.
Proof.
  pose proof (asin_bound x) as [Hl Hu]. pose proof PI_RGT_0 as Hpi.
  unfold Math.degrees.
  assert (Hk : 0 <= 180 / PI) by (apply Rlt_le, Rdiv_lt_0_compat; lra).
  assert (Hpk : PI / 2 * (180 / PI) = 90) by (field; lra).
  split.
  - apply (Rmult_le_compat_r _ _ _ Hk) in Hl. lra.
  - apply (Rmult_le_compat_r _ _ _ Hk) in Hu. lra.
Qed.

Lemma elevation_range obs_lat obs_lon obs_alt sat_lat sat_lon sat_alt :
  -90 <= SatelliteCollector._calculate_elevation_angle
           obs_lat obs_lon obs_alt sat_lat sat_lon sat_alt <= 90.
Proof.
  unfold SatelliteCollector._calculate_elevation_angle.
  destruct (SatelliteCollector.elevation_body _ _ _ _ _ _) as [v | e] eqn:H;
    cbn [try_except]; [| lra].
  unfold SatelliteCollector.elevation_body in H. cbv zeta in H.
  invert_binds H. injection H as <-.
  match goal with
  | Ha : Math.asin _ = Ok _ |- _ =>
      rewrite asin_clamped in Ha; injection Ha as <-
  end.
  apply asin_degrees_range.
Qed.

(** The haversine distance for a central angle [2 t]. *)
Lemma half_angle_distance (t : R) :
  0 <= t < PI / 2 ->
  2 * Math.atan2 (R_sqrt.sqrt (sin t * sin t)) (R_sqrt.sqrt (1 - sin t * sin t)) * 6371
  = 2 * t * 6371.
Proof.
  intros Ht. pose proof PI_RGT_0 as Hpi.
  assert (Hs : 0 <= sin t) by (apply sin_ge_0; lra).
  assert (Hc : 0 < cos t) by (apply cos_gt_0; lra).
  rewrite (sqrt_square (sin t)) by exact Hs.
  replace (1 - sin t * sin t) with (cos t * cos t).
  2: { pose proof (sin2_cos2 t) as H. unfold Rsqr in H. lra. }
  rewrite (sqrt_square (cos t)) by lra.
  unfold Math.atan2. destruct (Rlt_dec 0 (cos t)); [| contradiction].
  change (sin t / cos t) with (tan t). rewrite atan_tan by lra. reflexivity.
Qed.

(** Along the equator the great-circle distance is the radius times the
    difference of longitude. *)
Lemma great_circle_along_equator (lon d : R) :
  0 <= d < 180 -> great_circle_km 0 lon 0 (lon + d) = Math.radians d * 6371.
Proof.
  intros Hd. pose proof PI_RGT_0 as Hpi. unfold great_circle_km. cbv zeta.
  replace (0 - 0) with 0 by lra. replace (lon + d - lon) with d by lra.
  rewrite radians_0. replace (0 / 2) with 0 by lra. rewrite sin_0, cos_0.
  replace (0 * 0 + 1 * 1 * sin (Math.radians d / 2) * sin (Math.radians d / 2))
    with (sin (Math.radians d / 2) * sin (Math.radians d / 2)) by ring.
  rewrite half_angle_distance; [lra |].
  unfold Math.radians. split; [nra |].
  apply (Rmult_lt_reg_r (360 / PI)); [apply Rdiv_lt_0_compat; lra |].
  replace (d * (PI / 180) / 2 * (360 / PI)) with d by (field; lra).
  replace (PI / 2 * (360 / PI)) with 180 by (field; lra).
  lra.
Qed.

(** A satellite 9 degrees east of an observer on the equator is about
    1000 km away on the ground and is listed at about 80 degrees. *)
Lemma nine_degrees_east_is_visible (sat : Position) :
  pos_lat sat = 0 -> pos_lng sat = 9 ->
  exists v,
    EnhancedSatelliteCollector.visible_entry 0 0 10 sat = Ok [v]
    /\ sat_copy v = sat
    /\ distance v = PI / 20 * 6371
    /\ elevation v = 90 - PI / 20 * 6371 / 100.
Proof.
  intros Hlat Hlng. pose proof PI_RGT_0 as Hpi. pose proof PI_4 as Hpi4.
  unfold EnhancedSatelliteCollector.visible_entry. cbv zeta. rewrite Hlat, Hlng.
  replace (0 - 0) with 0 by lra. replace (9 - 0) with 9 by lra.
  rewrite radians_0. replace (0 / 2) with 0 by lra. rewrite sin_0, cos_0.
  replace (Math.radians 9 / 2) with (PI / 40) by (unfold Math.radians; lra).
  replace (0 * 0 + 1 * 1 * sin (PI / 40) * sin (PI / 40))
    with (sin (PI / 40) * sin (PI / 40)) by ring.
  assert (Hsq : 0 <= sin (PI / 40) * sin (PI / 40)) by apply Rle_0_sqr.
  assert (Hco : 0 <= 1 - sin (PI / 40) * sin (PI / 40)).
  { pose proof (sin2_cos2 (PI / 40)) as H. pose proof (Rle_0_sqr (cos (PI / 40))) as H0.
    unfold Rsqr in H, H0. lra. }
  rewrite (sqrt_ok _ Hsq), (sqrt_ok _ Hco). cbn [bind].
  rewrite half_angle_distance by lra.
  destruct (Rlt_dec (2 * (PI / 40) * 6371) 2000) as [_ | Hfar]; [| lra].
  assert (Hmax : Math.max 0 (90 - 2 * (PI / 40) * 6371 / 100)
                 = 90 - 2 * (PI / 40) * 6371 / 100).
  { unfold Math.max. destruct (Rlt_dec 0 _); [reflexivity | lra]. }
  rewrite Hmax.
  destruct (Rge_dec (90 - 2 * (PI / 40) * 6371 / 100) 10) as [_ | Hlow]; [| lra].
  eexists. split; [reflexivity |]. cbn [sat_copy distance elevation].
  repeat split; lra.
Qed.

(** The position computed depends on the satellite only through its second
    line and its epoch; the name and the catalog number are copied. *)
Lemma position_body_same_elements rt sat sat' timestamp position k :
  line2 sat' = line2 sat -> epoch sat' = epoch sat ->
  SatelliteCollector.position_body rt sat timestamp = Ok (position, k) ->
  SatelliteCollector.position_body rt sat' timestamp
  = Ok ({| sp_name := name sat'; sp_norad_id := norad_id sat';
           latitude := latitude position; longitude := longitude position;
           altitude_km := altitude_km position; velocity_kmh := velocity_kmh position;
           sp_timestamp := sp_timestamp position |}, k).
Proof.
  intros Hl He. unfold SatelliteCollector.position_body. cbv zeta. rewrite Hl, He.
  intros H.
  repeat match type of H with
         | bind ?m _ = Ok _ => destruct m; cbn [bind] in H |- *; [| discriminate]
         end.
  injection H as <- <-. reflexivity.
Qed.

Lemma filter_same_key_all {A : Type} (key : A -> R) (e : R) (l : list A) :
  Forall (fun x => key x = e) l -> filter (same_key key e) l = l.
Proof.
  induction 1 as [| x l Hx _ IH]; cbn [filter]; [reflexivity |].
  unfold same_key at 1. destruct (Req_dec_T (key x) e); [| contradiction].
  rewrite IH. reflexivity.
Qed.

(** With three satellites in the snapshot, listed east, overhead, east, the
    enhanced query returns the one overhead first and keeps the two of equal
    elevation in the order of the snapshot, each with the haversine distance
    of its own coordinates; with two satellites of equal elevation in the
    store, the query on element sets returns them in the order of the
    store. *)
Lemma visible_satellites_filtered_and_sorted_witness :
  (exists vO vE vT self',
      EnhancedSatelliteCollector.get_visible_satellites
        (EnhancedSatelliteCollector.__init__ None None)
        (fun _ => Ok (Some three_in_view)) 0%Z 0%Z example_epoch 0 0 10
      = (Ok [vO; vE; vT], self')
      /\ EnhancedSatelliteCollector.visible_loop 0 0 10 (positions three_in_view)
         = Ok [vE; vO; vT]
      /\ sat_copy vO = overhead /\ sat_copy vE = east /\ sat_copy vT = east_twin
      /\ distance vO = 0 /\ elevation vO = 90
      /\ distance vE = Math.radians 9 * 6371 /\ distance vT = Math.radians 9 * 6371
      /\ elevation vE = 90 - Math.radians 9 * 6371 / 100
      /\ elevation vT = elevation vE
      /\ elevation vE < elevation vO
      /\ Forall
           (fun v =>
              elevation v >= 10
              /\ distance v
                 = great_circle_km 0 0 (pos_lat (sat_copy v)) (pos_lng (sat_copy v)))
           [vO; vE; vT]
      /\ stable_descending elevation [vE; vO; vT] [vO; vE; vT])
  /\ (exists v1 v2,
         SatelliteCollector.visible_unsorted example_runtime twin_store 0 0 (-90)
           example_epoch = [v1; v2]
         /\ v_norad_id v1 = 44713%Z /\ v_norad_id v2 = 44714%Z
         /\ elevation_degrees v1 = elevation_degrees v2
         /\ elevation_degrees v1 >= -90
         /\ SatelliteCollector.get_satellites_over_location example_runtime twin_store
              0 0 (-90) example_epoch = [v1; v2]).
Proof.
  pose proof PI_RGT_0 as Hpi. pose proof PI_4 as Hpi4.
  split.
  - destruct overhead_is_visible as (vO & HvO & HsO & HdO & HeO).
    destruct (nine_degrees_east_is_visible east eq_refl eq_refl)
      as (vE & HvE & HsE & HdE & HeE).
    destruct (nine_degrees_east_is_visible east_twin eq_refl eq_refl)
      as (vT & HvT & HsT & HdT & HeT).
    assert (Hloop : EnhancedSatelliteCollector.visible_loop 0 0 10 (positions three_in_view)
                    = Ok [vE; vO; vT]).
    { cbn [positions three_in_view EnhancedSatelliteCollector.visible_loop].
      rewrite HvE, HvO, HvT. reflexivity. }
    assert (Hsort : sort_reverse elevation [vE; vO; vT] = [vO; vE; vT]).
    { unfold sort_reverse. cbn [fold_right insert_desc]. rewrite HeT, HeO.
      destruct (Rlt_dec 90 _) as [Hlt | _]; [lra |].
      cbn [insert_desc]. rewrite HeE, HeO.
      destruct (Rlt_dec _ 90) as [_ | Hge]; [| lra].
      rewrite HeT.
      destruct (Rlt_dec _ _) as [Hlt | _]; [lra | reflexivity]. }
    assert (H : EnhancedSatelliteCollector.get_visible_satellites
                  (EnhancedSatelliteCollector.__init__ None None)
                  (fun _ => Ok (Some three_in_view)) 0%Z 0%Z example_epoch 0 0 10
                = (Ok [vO; vE; vT],
                   EnhancedSatelliteCollector._cache_data
                     (EnhancedSatelliteCollector.__init__ None None) three_in_view 0%Z)).
    { unfold EnhancedSatelliteCollector.get_visible_satellites.
      change (EnhancedSatelliteCollector.get_starlink_constellation
                (EnhancedSatelliteCollector.__init__ None None)
                (fun _ => Ok (Some three_in_view)) 0%Z 0%Z example_epoch)
        with (three_in_view,
              EnhancedSatelliteCollector._cache_data
                (EnhancedSatelliteCollector.__init__ None None) three_in_view 0%Z,
              ["satellitemap_enhanced"]).
      cbv beta iota. rewrite Hloop. cbn [bind]. rewrite Hsort. reflexivity. }
    exists vO, vE, vT. eexists. split; [exact H |].
    destruct (proj2 visible_satellites_filtered_and_sorted _ _ _ _ _ _ _ _ _ _ H)
      as (unsorted & Hun & Hall & Hstable).
    change (fst (fst (EnhancedSatelliteCollector.get_starlink_constellation
                        (EnhancedSatelliteCollector.__init__ None None)
                        (fun _ => Ok (Some three_in_view)) 0%Z 0%Z example_epoch)))
      with three_in_view in Hun, Hall.
    rewrite Hloop in Hun. injection Hun as <-.
    assert (Hnine : PI / 20 * 6371 = Math.radians 9 * 6371)
      by (unfold Math.radians; lra).
    repeat apply conj; try assumption; try lra.
    + apply Forall_impl with (2 := Hall). tauto.
    + apply Hstable.
    + apply Hstable.
    + apply Hstable.
  - destruct example_position_body as (position & k & Hbody & _).
    pose proof (position_body_same_elements example_runtime example_sat example_twin
                  example_epoch position k eq_refl eq_refl Hbody) as Htwin.
    assert (P1 : SatelliteCollector._calculate_satellite_position example_runtime
                   example_sat example_epoch = Some position).
    { unfold SatelliteCollector._calculate_satellite_position. rewrite Hbody. reflexivity. }
    assert (P2 : SatelliteCollector._calculate_satellite_position example_runtime
                   example_twin example_epoch
                 = Some {| sp_name := name example_twin;
                           sp_norad_id := norad_id example_twin;
                           latitude := latitude position; longitude := longitude position;
                           altitude_km := altitude_km position;
                           velocity_kmh := velocity_kmh position;
                           sp_timestamp := sp_timestamp position |}).
    { unfold SatelliteCollector._calculate_satellite_position. rewrite Htwin. reflexivity. }
    assert (Hname : sp_norad_id position = 44713%Z).
    { unfold SatelliteCollector.position_body in Hbody. cbv zeta in Hbody.
      invert_binds Hbody. injection Hbody as <- _. reflexivity. }
    pose proof (elevation_range 0 0 0 (latitude position) (longitude position)
                  (altitude_km position)) as [Hlow _].
    destruct (proj1 visible_satellites_filtered_and_sorted example_runtime twin_store
                0 0 (-90) example_epoch) as (_ & Hperm & _ & Hsame).
    revert Hperm Hsame.
    unfold SatelliteCollector.get_satellites_over_location,
      SatelliteCollector.visible_unsorted.
    cbn [twin_store SatelliteCollector.starlink_satellites flat_map].
    unfold SatelliteCollector.visible_entry. rewrite P1, P2.
    cbn [latitude longitude altitude_km sp_name sp_norad_id].
    set (el := SatelliteCollector._calculate_elevation_angle 0 0 0 (latitude position)
                 (longitude position) (altitude_km position)) in *.
    destruct (Rge_dec el (-90)) as [Hge | Hlt]; [| lra].
    cbn [app].
    match goal with
    | |- Permutation (sort_reverse _ ?u) _ -> _ => set (unsorted := u)
    end.
    intros Hperm Hsame.
    assert (Hall : Forall (fun x => elevation_degrees x = el) unsorted)
      by (repeat constructor).
    eexists. eexists. split; [reflexivity |].
    cbn [v_norad_id elevation_degrees]. repeat apply conj; try reflexivity.
    + exact Hname.
    + exact Hge.
    + rewrite <- (filter_same_key_all elevation_degrees el
                    (sort_reverse SatelliteCollector.by_elevation unsorted))
        by (apply (Permutation_Forall (Permutation_sym Hperm)), Hall).
      rewrite (Hsame el). apply filter_same_key_all, Hall.
Defined.

(** * Further properties of the collectors *)

(** ** Ranges of the pointing angles (satellites.py) *)

Lemma azimuth_range obs_lat obs_lon sat_lat sat_lon :
  0 <= SatelliteCollector._calculate_azimuth obs_lat obs_lon sat_lat sat_lon < 360.
Proof.
  unfold SatelliteCollector._calculate_azimuth, SatelliteCollector.azimuth_body.
  cbv zeta. cbn [try_except]. apply fmod_360.
Qed.

(** X1. Whatever the coordinates, the elevation returned lies between -90
    and 90 degrees and the azimuth in [0, 360). *)
Theorem pointing_angles_in_range obs_lat obs_lon obs_alt sat_lat sat_lon sat_alt :
  -90 <= SatelliteCollector._calculate_elevation_angle
           obs_lat obs_lon obs_alt sat_lat sat_lon sat_alt <= 90
  /\ 0 <= SatelliteCollector._calculate_azimuth obs_lat obs_lon sat_lat sat_lon < 360.
Proof.
  split; [apply elevation_range | apply azimuth_range].
Qed.

(** ** A satellite straight above the observer *)

Lemma unit_vector (lat lon : R) :
  cos lat * cos lon * (cos lat * cos lon)
  + cos lat * sin lon * (cos lat * sin lon)
  + sin lat * sin lat = 1.
Proof.
  pose proof (sin2_cos2 lat) as H1. pose proof (sin2_cos2 lon) as H2.
  unfold Rsqr in *.
  replace (cos lat * cos lon * (cos lat * cos lon)
           + cos lat * sin lon * (cos lat * sin lon) + sin lat * sin lat)
    with (cos lat * cos lat * (sin lon * sin lon + cos lon * cos lon)
          + sin lat * sin lat) by ring.
  rewrite H2. lra.
Qed.

(** X2. For a satellite at the latitude and longitude of the observer and
    above it, the observer not being at the centre of the Earth, the
    elevation is 90 degrees and the distance is the difference of the
    altitudes. *)
Theorem overhead_satellite lat lon obs_alt sat_alt :
  6371 + obs_alt <> 0 -> obs_alt < sat_alt ->
  SatelliteCollector._calculate_elevation_angle lat lon obs_alt lat lon sat_alt = 90
  /\ SatelliteCollector._calculate_distance lat lon obs_alt lat lon sat_alt
     = sat_alt - obs_alt.
Proof.
  intros Hr Hh. pose proof (unit_vector (Math.radians lat) (Math.radians lon)) as Hu.
  split.
  - unfold SatelliteCollector._calculate_elevation_angle, SatelliteCollector.elevation_body.
    cbv zeta.
    set (cl := cos (Math.radians lat)) in *. set (sl := sin (Math.radians lat)) in *.
    set (co := cos (Math.radians lon)) in *. set (so := sin (Math.radians lon)) in *.
    replace (((6371 + sat_alt) * cl * co - (6371 + obs_alt) * cl * co)
             * ((6371 + sat_alt) * cl * co - (6371 + obs_alt) * cl * co)
             + ((6371 + sat_alt) * cl * so - (6371 + obs_alt) * cl * so)
               * ((6371 + sat_alt) * cl * so - (6371 + obs_alt) * cl * so)
             + ((6371 + sat_alt) * sl - (6371 + obs_alt) * sl)
               * ((6371 + sat_alt) * sl - (6371 + obs_alt) * sl))
      with ((sat_alt - obs_alt) * (sat_alt - obs_alt)
            * (cl * co * (cl * co) + cl * so * (cl * so) + sl * sl)) by ring.
    rewrite Hu, Rmult_1_r.
    rewrite sqrt_ok by nra. rewrite sqrt_square by lra. cbn [bind].
    assert (Hd : sat_alt - obs_alt <> 0) by (intros Hz; lra).
    rewrite !div_ok by exact Hr. cbn [bind].
    rewrite div_ok by exact Hd. cbn [bind].
    replace ((((6371 + sat_alt) * cl * co - (6371 + obs_alt) * cl * co)
              * ((6371 + obs_alt) * cl * co / (6371 + obs_alt))
              + ((6371 + sat_alt) * cl * so - (6371 + obs_alt) * cl * so)
                * ((6371 + obs_alt) * cl * so / (6371 + obs_alt))
              + ((6371 + sat_alt) * sl - (6371 + obs_alt) * sl)
                * ((6371 + obs_alt) * sl / (6371 + obs_alt)))
             / (sat_alt - obs_alt))
      with (cl * co * (cl * co) + cl * so * (cl * so) + sl * sl)
      by (field; split; first [exact Hr | exact Hd]).
    rewrite Hu, asin_clamped. cbn [bind try_except].
    replace (Math.max (-1) (Math.min 1 1)) with 1
      by (unfold Math.min; decide_order; unfold Math.max; decide_order).
    rewrite asin_1. unfold Math.degrees. field. apply PI_neq0.
  - unfold SatelliteCollector._calculate_distance, SatelliteCollector.distance_body.
    cbv zeta.
    set (cl := cos (Math.radians lat)) in *. set (sl := sin (Math.radians lat)) in *.
    set (co := cos (Math.radians lon)) in *. set (so := sin (Math.radians lon)) in *.
    replace (((6371 + sat_alt) * cl * co - (6371 + obs_alt) * cl * co) ^ 2
             + ((6371 + sat_alt) * cl * so - (6371 + obs_alt) * cl * so) ^ 2
             + ((6371 + sat_alt) * sl - (6371 + obs_alt) * sl) ^ 2)
      with ((sat_alt - obs_alt) * (sat_alt - obs_alt)
            * (cl * co * (cl * co) + cl * so * (cl * so) + sl * sl)) by ring.
    rewrite Hu, Rmult_1_r.
    rewrite sqrt_ok by nra. rewrite sqrt_square by lra. reflexivity.
Qed.

Lemma overhead_satellite_witness :
  SatelliteCollector._calculate_elevation_angle 0 0 0 0 0 550 = 90
  /\ SatelliteCollector._calculate_distance 0 0 0 0 0 550 = 550 - 0.
Proof. apply (overhead_satellite 0 0 0 550); lra. Defined.

(** ** The distance between two points *)

Lemma distance_nonneg lat1 lon1 alt1 lat2 lon2 alt2 :
  SatelliteCollector.distance_body lat1 lon1 alt1 lat2 lon2 alt2
  = Ok (SatelliteCollector._calculate_distance lat1 lon1 alt1 lat2 lon2 alt2)
  /\ 0 <= SatelliteCollector._calculate_distance lat1 lon1 alt1 lat2 lon2 alt2.
Proof.
  unfold SatelliteCollector._calculate_distance, SatelliteCollector.distance_body.
  cbv zeta.
  assert (Hsq : forall a b c : R, 0 <= a ^ 2 + b ^ 2 + c ^ 2).
  { intros a b c. pose proof (sum_of_squares_nonneg a b c). nra. }
  rewrite !sqrt_ok by apply Hsq. cbn [try_except].
  split; [reflexivity | apply sqrt_pos].
Qed.

(** X3. The distance never takes the handler: it is the square root of a
    sum of squares, so it is not negative, it is the same in both directions
    and it is zero between a point and itself. *)
Theorem distance_is_a_distance lat1 lon1 alt1 lat2 lon2 alt2 :
  SatelliteCollector.distance_body lat1 lon1 alt1 lat2 lon2 alt2
  = Ok (SatelliteCollector._calculate_distance lat1 lon1 alt1 lat2 lon2 alt2)
  /\ 0 <= SatelliteCollector._calculate_distance lat1 lon1 alt1 lat2 lon2 alt2
  /\ SatelliteCollector._calculate_distance lat1 lon1 alt1 lat2 lon2 alt2
     = SatelliteCollector._calculate_distance lat2 lon2 alt2 lat1 lon1 alt1
  /\ SatelliteCollector._calculate_distance lat1 lon1 alt1 lat1 lon1 alt1 = 0.
Proof.
  unfold SatelliteCollector._calculate_distance, SatelliteCollector.distance_body.
  cbv zeta.
  assert (Hsq : forall a b c : R, 0 <= a ^ 2 + b ^ 2 + c ^ 2).
  { intros a b c. pose proof (sum_of_squares_nonneg a b c). nra. }
  rewrite !sqrt_ok by apply Hsq. cbn [try_except].
  repeat apply conj.
  - reflexivity.
  - apply sqrt_pos.
  - f_equal. ring.
  - match goal with |- R_sqrt.sqrt ?x = 0 => replace x with 0 by ring end.
    apply sqrt_0.
Qed.

(** ** The conversion of the SGP4 path on the equatorial plane *)

(** X4. For a point of the equatorial plane whose distance [p] to the axis
    of the Earth exceeds [e2 * a] (about 42.7 km), [_eci_to_geodetic] returns
    the latitude 0, the longitude of the point, unchanged by the
    normalization, and the altitude [p - a] above the equatorial radius. *)
Theorem eci_on_equatorial_plane (x y : R) :
  let a := 6378.137 in
  let f := 1 / 298.257223563 in
  let e2 := 2 * f - f * f in
  let p := R_sqrt.sqrt (x ^ 2 + y ^ 2) in
  e2 * a < p ->
  SpaceTrackCollector._eci_to_geodetic (x, y, 0)
  = Ok (0, Math.degrees (Math.atan2 y x), p - a)
  /\ -180 < Math.degrees (Math.atan2 y x) <= 180.
Proof.
  intros a f e2 p Hp.
  assert (Ha : 0 < a) by (subst a; lra).
  assert (He : 0 < e2 < 1) by (subst e2 f; lra).
  assert (Hpos : 0 < p) by nra.
  pose proof (degrees_bound _ (atan2_bound y x)) as Hlon.
  split; [| exact Hlon].
  unfold SpaceTrackCollector._eci_to_geodetic. cbv zeta.
  fold a. fold f. fold e2.
  assert (Hsq : 0 <= x ^ 2 + y ^ 2) by nra.
  rewrite sqrt_ok by exact Hsq. fold p. cbn [bind].
  rewrite (atan2_0_pos (p * (1 - e2))) by nra.
  rewrite refine_on_equator by lra. cbn [bind].
  rewrite sin_0, cos_0.
  replace (1 - e2 * 0 ^ 2) with 1 by ring.
  rewrite (sqrt_ok 1) by lra. rewrite sqrt_1. cbn [bind].
  rewrite !div_ok by lra. cbn [bind].
  rewrite degrees_0, normalize_longitude_in_range by lra.
  do 2 f_equal. field.
Qed.

Lemma eci_on_equatorial_plane_witness :
  SpaceTrackCollector._eci_to_geodetic (6928.137, 0, 0)
  = Ok (0, Math.degrees (Math.atan2 0 6928.137),
        R_sqrt.sqrt (6928.137 ^ 2 + 0 ^ 2) - 6378.137)
  /\ -180 < Math.degrees (Math.atan2 0 6928.137) <= 180.
Proof.
  apply (eci_on_equatorial_plane 6928.137 0).
  replace (6928.137 ^ 2 + 0 ^ 2) with (6928.137 * 6928.137) by ring.
  rewrite sqrt_square by lra. lra.
Defined.

(** ** The simplified elevation of the enhanced collector *)

Lemma atan2_nonneg (y x : R) : 0 <= y -> 0 <= Math.atan2 y x.
Proof.
  intros Hy. pose proof PI_RGT_0 as Hpi. pose proof (atan_bound (y / x)) as Hat.
  unfold Math.atan2.
  destruct (Rlt_dec 0 x) as [Hx | Hx].
  - destruct Hy as [Hy | <-].
    + assert (Hq : 0 < y / x) by (apply Rdiv_lt_0_compat; assumption).
      apply atan_increasing in Hq. rewrite atan_0 in Hq. lra.
    + replace (0 / x) with 0 by (field; lra). rewrite atan_0. lra.
  - destruct (Rlt_dec x 0); [destruct (Rle_dec 0 y); lra |].
    destruct (Rlt_dec 0 y); [lra |]. destruct (Rlt_dec y 0); lra.
Qed.

Lemma enhanced_entry_elevation lat lon threshold sat entries v :
  EnhancedSatelliteCollector.visible_entry lat lon threshold sat = Ok entries ->
  In v entries -> 0 <= distance v < 2000 /\ 70 < elevation v <= 90.
Proof.
  unfold EnhancedSatelliteCollector.visible_entry. cbv zeta.
  match goal with
  | |- context [bind (Math.sqrt ?a) _] =>
      destruct (Math.sqrt a) as [sa |] eqn:Hsa; [| discriminate];
      cbn [bind]; destruct (Math.sqrt (1 - a)) as [sb |] eqn:Hsb; [| discriminate]
  end.
  cbn [bind].
  assert (Hsa0 : 0 <= sa).
  { unfold Math.sqrt in Hsa. destruct (Rlt_dec _ 0); [discriminate |].
    injection Hsa as <-. apply sqrt_pos. }
  pose proof (atan2_nonneg sa sb Hsa0) as Hat.
  destruct (Rlt_dec _ 2000) as [Hnear | Hfar]; [| intros [= <-] []].
  destruct (Rge_dec _ threshold) as [Hge | Hlt]; [| intros [= <-] []].
  intros [= <-] [<- | []]. cbn [distance elevation].
  split; [lra |]. unfold Math.max. destruct (Rlt_dec 0 _); lra.
Qed.

Lemma enhanced_entry_low_threshold lat lon t1 t2 sat :
  t1 <= 70 -> t2 <= 70 ->
  EnhancedSatelliteCollector.visible_entry lat lon t1 sat
  = EnhancedSatelliteCollector.visible_entry lat lon t2 sat.
Proof.
  intros H1 H2. unfold EnhancedSatelliteCollector.visible_entry. cbv zeta.
  match goal with
  | |- context [bind (Math.sqrt ?a) _] =>
      destruct (Math.sqrt a) as [sa |] eqn:Hsa; [| reflexivity];
      cbn [bind]; destruct (Math.sqrt (1 - a)) as [sb |] eqn:Hsb; [| reflexivity]
  end.
  cbn [bind].
  destruct (Rlt_dec _ 2000) as [Hnear | Hfar]; [| reflexivity].
  assert (He : 70 < Math.max 0 (90 - 2 * Math.atan2 sa sb * 6371 / 100))
    by (unfold Math.max; destruct (Rlt_dec 0 _); lra).
  destruct (Rge_dec _ t1); [| lra]. destruct (Rge_dec _ t2); [| lra]. reflexivity.
Qed.

(** X5. Every satellite [get_visible_satellites] returns is less than
    2000 km away on the ground and has a simplified elevation above 70 and at
    most 90 degrees. A minimum elevation of 70 degrees or less, like the
    default of 10, therefore filters nothing: all such thresholds give the
    same answer. *)
Theorem enhanced_elevation_above_70 :
  (forall lat lon threshold sats visible,
      EnhancedSatelliteCollector.visible_loop lat lon threshold sats = Ok visible ->
      Forall (fun v => 0 <= distance v < 2000 /\ 70 < elevation v <= 90) visible)
  /\ (forall self fetch now now_cached utcnow lat lon t1 t2,
         t1 <= 70 -> t2 <= 70 ->
         EnhancedSatelliteCollector.get_visible_satellites self fetch now now_cached utcnow
           lat lon t1
         = EnhancedSatelliteCollector.get_visible_satellites self fetch now now_cached utcnow
             lat lon t2).
Proof.
  split.
  - intros lat lon threshold sats. induction sats as [| sat rest IH]; cbn; intros visible H.
    + injection H as <-. constructor.
    + destruct (EnhancedSatelliteCollector.visible_entry lat lon threshold sat)
        as [here |] eqn:Hhere; [| discriminate].
      destruct (EnhancedSatelliteCollector.visible_loop lat lon threshold rest)
        as [later |]; [| discriminate].
      cbn in H. injection H as <-. apply Forall_app. split; [| apply IH; reflexivity].
      apply Forall_forall. intros v Hv. exact (enhanced_entry_elevation _ _ _ _ _ _ Hhere Hv).
  - intros self fetch now now_cached utcnow lat lon t1 t2 H1 H2.
    unfold EnhancedSatelliteCollector.get_visible_satellites.
    destruct (EnhancedSatelliteCollector.get_starlink_constellation _ _ _ _ _)
      as [[constellation self1] invoked].
    assert (Hloop : EnhancedSatelliteCollector.visible_loop lat lon t1 (positions constellation)
                    = EnhancedSatelliteCollector.visible_loop lat lon t2 (positions constellation)).
    { induction (positions constellation) as [| sat rest IH]; [reflexivity |].
      cbn [EnhancedSatelliteCollector.visible_loop].
      rewrite (enhanced_entry_low_threshold lat lon t1 t2 sat H1 H2), IH. reflexivity. }
    rewrite Hloop. reflexivity.
Qed.

Lemma enhanced_elevation_above_70_witness :
  EnhancedSatelliteCollector.get_visible_satellites
    (EnhancedSatelliteCollector.__init__ None None)
    (fun _ => Ok (Some overhead_snapshot)) 0%Z 0%Z example_epoch 0 0 10
  = EnhancedSatelliteCollector.get_visible_satellites
      (EnhancedSatelliteCollector.__init__ None None)
      (fun _ => Ok (Some overhead_snapshot)) 0%Z 0%Z example_epoch 0 0 70.
Proof. apply (proj2 enhanced_elevation_above_70); lra. Defined.

(** ** The hour during which the element sets are kept (satellites.py) *)

Lemma fetch_success rt self reply t utcnow self1 :
  SatelliteCollector._fetch_starlink_tle_data rt self reply t utcnow = (true, self1) ->
  SatelliteCollector.starlink_satellites self1 <> []
  /\ SatelliteCollector.last_tle_fetch self1 = Some t
  /\ SatelliteCollector.tle_cache_duration self1 = SatelliteCollector.tle_cache_duration self
  /\ SatelliteCollector.celestrak_base self1 = SatelliteCollector.celestrak_base self.
Proof.
  unfold SatelliteCollector._fetch_starlink_tle_data.
  destruct reply as [| status_code content]; [discriminate |].
  destruct (negb (status_code =? 200)%Z); [discriminate |].
  destruct (50000000 <? Z.of_nat (length content))%Z; [discriminate |].
  destruct (SatelliteCollector.parse_triplets rt utcnow _) as [satellites |]; [| discriminate].
  destruct satellites as [| s satellites]; [discriminate |].
  cbn [List.length Nat.eqb]. intros [= <-]. cbn. repeat apply conj; try reflexivity.
  discriminate.
Qed.

Lemma fresh_store_is_kept self t t' :
  t <> 0 ->
  SatelliteCollector.last_tle_fetch self = Some t ->
  t' - t <= SatelliteCollector.tle_cache_duration self ->
  SatelliteCollector._should_update_tle self t' = false
  /\ SatelliteCollector._get_tle_age_hours self t' = (t' - t) / 3600.
Proof.
  intros Ht Hlast Hage.
  unfold SatelliteCollector._should_update_tle, SatelliteCollector._get_tle_age_hours,
    SatelliteCollector.no_fetch_yet.
  rewrite Hlast. destruct (Req_dec_T t 0); [contradiction |].
  destruct (Rgt_dec _ _); [lra |]. auto.
Qed.

(** X6. After a fetch that succeeded at a time [t] other than 0, the store
    is not empty, and for as long as the clock is at most [tle_cache_duration]
    past [t] a call of [get_starlink_constellation] ignores the network: for
    every reply it leaves the collector as it is and answers from the stored
    element sets, with the age of the fetch in hours. *)
Theorem tle_store_lasts_an_hour rt self reply t utcnow self1 :
  t <> 0 ->
  SatelliteCollector._fetch_starlink_tle_data rt self reply t utcnow = (true, self1) ->
  SatelliteCollector.starlink_satellites self1 <> []
  /\ forall reply' t' utcnow',
       t' - t <= SatelliteCollector.tle_cache_duration self ->
       let '(snapshot, self2) :=
         SatelliteCollector.get_starlink_constellation rt self1 reply' t' utcnow' in
       self2 = self1
       /\ data_source snapshot = "celestrak_tle"
       /\ satellite_count snapshot
          = List.length (SatelliteCollector.starlink_satellites self1)
       /\ tle_age_hours snapshot = (t' - t) / 3600
       /\ positions snapshot
          = SatelliteCollector.current_positions rt
              (firstn 20 (SatelliteCollector.starlink_satellites self1)) utcnow'.
Proof.
  intros Ht Hfetch.
  destruct (fetch_success _ _ _ _ _ _ Hfetch) as (Hstore & Hlast & Hdur & _).
  split; [exact Hstore |].
  intros reply' t' utcnow' Hage. rewrite <- Hdur in Hage.
  destruct (fresh_store_is_kept self1 t t' Ht Hlast Hage) as [Hkeep Hhours].
  unfold SatelliteCollector.get_starlink_constellation.
  rewrite Hkeep. cbn [negb].
  destruct (SatelliteCollector.starlink_satellites self1) as [| s rest] eqn:Hs;
    [contradiction |].
  cbn [data_source satellite_count tle_age_hours positions].
  rewrite Hhours. repeat apply conj; reflexivity.
Qed.

Lemma example_fetch_succeeds :
  fst (SatelliteCollector._fetch_starlink_tle_data example_runtime
         SatelliteCollector.__init__ (Response 200 example_catalog) 1 example_epoch)
  = true.
Proof.
  unfold SatelliteCollector._fetch_starlink_tle_data.
  cbn [negb Z.eqb Pos.eqb].
  assert (Hlimit : (50000000 <? Z.of_nat (length example_catalog))%Z = false)
    by (vm_compute; reflexivity).
  rewrite Hlimit, parse_triplets_filter.
  destruct (filter well_formed _) as [| k kept] eqn:Hk; [vm_compute in Hk; discriminate |].
  reflexivity.
Qed.

Lemma tle_store_lasts_an_hour_witness :
  let self1 :=
    snd (SatelliteCollector._fetch_starlink_tle_data example_runtime
           SatelliteCollector.__init__ (Response 200 example_catalog) 1 example_epoch) in
  SatelliteCollector.starlink_satellites self1 <> []
  /\ forall reply' t' utcnow',
       t' - 1 <= SatelliteCollector.tle_cache_duration SatelliteCollector.__init__ ->
       let '(snapshot, self2) :=
         SatelliteCollector.get_starlink_constellation example_runtime self1 reply' t'
           utcnow' in
       self2 = self1
       /\ data_source snapshot = "celestrak_tle"
       /\ satellite_count snapshot
          = List.length (SatelliteCollector.starlink_satellites self1)
       /\ tle_age_hours snapshot = (t' - 1) / 3600
       /\ positions snapshot
          = SatelliteCollector.current_positions example_runtime
              (firstn 20 (SatelliteCollector.starlink_satellites self1)) utcnow'.
Proof.
  intros self1.
  apply (tle_store_lasts_an_hour example_runtime SatelliteCollector.__init__
           (Response 200 example_catalog) 1 example_epoch self1).
  - lra.
  - subst self1. pose proof example_fetch_succeeds as H.
    destruct (SatelliteCollector._fetch_starlink_tle_data _ _ _ _ _) as [b s].
    cbn in H. subst b. reflexivity.
Defined.

(** ** The shape of the CelesTrak snapshot *)

Lemma flat_map_length_le {A B : Type} (f : A -> list B) (l : list A) :
  (forall a, (List.length (f a) <= 1)%nat) ->
  (List.length (flat_map f l) <= List.length l)%nat.
Proof.
  intros Hf. induction l as [| a l IH]; cbn; [lia |].
  rewrite length_app. specialize (Hf a). lia.
Qed.

Lemma current_positions_length rt sats now :
  (List.length (SatelliteCollector.current_positions rt sats now) <= List.length sats)%nat.
Proof.
  apply flat_map_length_le. intros sat.
  destruct (SatelliteCollector._calculate_satellite_position rt sat now); cbn; lia.
Qed.

Lemma current_positions_range rt sats now :
  Forall (fun p => -90 <= pos_lat p <= 90 /\ -180 <= pos_lng p <= 180)
    (SatelliteCollector.current_positions rt sats now).
Proof.
  apply Forall_forall. intros p Hp.
  apply in_flat_map in Hp. destruct Hp as (sat & _ & Hp).
  destruct (SatelliteCollector._calculate_satellite_position rt sat now) as [position |] eqn:Hpos;
    [| contradiction].
  destruct Hp as [<- | []].
  destruct (calculated_position_body _ _ _ _ Hpos) as [k Hk].
  destruct (position_body_bounds _ _ _ _ _ Hk) as [Hlon Hlat].
  cbn. split; assumption.
Qed.

Lemma sample_positions_range now :
  Forall (fun p => -90 <= pos_lat p <= 90 /\ -180 <= pos_lng p <= 180)
    (positions (SatelliteCollector._get_sample_satellite_data now)).
Proof.
  cbn [positions SatelliteCollector._get_sample_satellite_data seq map].
  repeat (apply Forall_cons; [vm_compute pos_lat; vm_compute pos_lng; lra |]).
  apply Forall_nil.
Qed.

(** X7. [get_starlink_constellation] of the CelesTrak collector answers in
    one of two shapes: the ten sample positions, or a snapshot tagged
    [celestrak_tle] over a store that is not empty, whose [satellite_count]
    is the size of the store and which holds at most 20 positions and at most
    one for each stored satellite. In both, every latitude is within
    [-90, 90] and every longitude within [-180, 180]. *)
Theorem celestrak_snapshot_shape rt self reply t utcnow :
  let '(snapshot, self1) :=
    SatelliteCollector.get_starlink_constellation rt self reply t utcnow in
  (snapshot = SatelliteCollector._get_sample_satellite_data utcnow
   \/ (data_source snapshot = "celestrak_tle"
       /\ SatelliteCollector.starlink_satellites self1 <> []
       /\ satellite_count snapshot
          = List.length (SatelliteCollector.starlink_satellites self1)
       /\ (List.length (positions snapshot) <= 20)%nat
       /\ (List.length (positions snapshot) <= satellite_count snapshot)%nat))
  /\ Forall (fun p => -90 <= pos_lat p <= 90 /\ -180 <= pos_lng p <= 180)
       (positions snapshot).
Proof.
  unfold SatelliteCollector.get_starlink_constellation.
  destruct (if SatelliteCollector._should_update_tle self t
            then SatelliteCollector._fetch_starlink_tle_data rt self reply t utcnow
            else (true, self)) as [success self1].
  destruct success; cbn [negb].
  - destruct (SatelliteCollector.starlink_satellites self1) as [| s rest] eqn:Hs.
    + split; [left; reflexivity | apply sample_positions_range].
    + split; [right | apply current_positions_range].
      cbn [data_source satellite_count positions].
      rewrite ?Hs. repeat apply conj; try reflexivity; try discriminate.
      all: (etransitivity; [apply current_positions_length |]);
        rewrite length_firstn; first [apply Nat.le_min_l | apply Nat.le_min_r].
  - split; [left; reflexivity | apply sample_positions_range].
Qed.

(** ** The century of a two-digit year (satellites.py) *)

Lemma substring_length_le (s : string) :
  forall n m, (length (substring n m s) <= m)%nat.
Proof.
  induction s as [| c s IH]; intros [| n] [| m]; cbn; try lia.
  - specialize (IH 0%nat m). lia.
  - apply (IH n 0%nat).
  - apply (IH n (S m)).
Qed.

Lemma lstrip_length sp (s : string) : (length (Py.lstrip_by sp s) <= length s)%nat.
Proof.
  induction s as [| c s IH]; cbn; [lia |]. destruct (sp c); cbn; lia.
Qed.

Lemma rstrip_length sp (s : string) : (length (Py.rstrip_by sp s) <= length s)%nat.
Proof.
  induction s as [| c s IH]; cbn; [lia |].
  destruct (Py.rstrip_by sp s); [destruct (sp c) |]; cbn in *; lia.
Qed.

Lemma digit_value (c : ascii) :
  Py.isdigit c = true -> (0 <= Z.of_nat (Py.code c - 48) <= 9)%Z.
Proof.
  unfold Py.isdigit. intros H. apply andb_prop in H. destruct H as [H1 H2].
  apply Nat.leb_le in H1. apply Nat.leb_le in H2. lia.
Qed.

Lemma digits_bound (s : string) :
  forall acc seen z,
    (0 <= acc)%Z -> Py.digits acc seen s = Some z ->
    (acc <= z < (acc + 1) * 10 ^ Z.of_nat (length s))%Z.
Proof.
  induction s as [| c s IH]; intros acc seen z Hacc H.
  - cbn in H. destruct seen; [| discriminate]. injection H as <-. cbn. lia.
  - cbn [Py.digits] in H. cbn [length]. rewrite Nat2Z.inj_succ, Z.pow_succ_r by lia.
    assert (Hp : (0 < 10 ^ Z.of_nat (length s))%Z) by (apply Z.pow_pos_nonneg; lia).
    destruct (Py.isdigit c) eqn:Hd.
    + pose proof (digit_value c Hd) as Hv.
      apply IH in H; [| lia]. nia.
    + destruct (Ascii.eqb c "_"); [| discriminate].
      destruct seen; [| discriminate].
      apply IH in H; [| lia]. nia.
Qed.

Lemma int_bound (s : string) (z : Z) :
  Py.int s = Ok z ->
  (- 10 ^ Z.of_nat (length s - 1) < z < 10 ^ Z.of_nat (length s))%Z.
Proof.
  unfold Py.int.
  pose proof (lstrip_length Py.int_space (Py.rstrip_by Py.int_space s)) as Hl.
  pose proof (rstrip_length Py.int_space s) as Hr.
  set (t := Py.lstrip_by Py.int_space (Py.rstrip_by Py.int_space s)) in *.
  assert (Hlen : (length t <= length s)%nat) by lia. clearbody t. clear Hl Hr.
  cbv zeta.
  match goal with
  | |- match ?signed with Some _ => _ | None => _ end = _ -> _ =>
      destruct signed as [z' |] eqn:Hsigned; [| discriminate]
  end.
  intros [= <-].
  assert (Hmono : forall a b : nat, (a <= b)%nat -> (10 ^ Z.of_nat a <= 10 ^ Z.of_nat b)%Z)
    by (intros a b Hab; apply Z.pow_le_mono_r; lia).
  assert (Hpos : forall a : nat, (0 < 10 ^ Z.of_nat a)%Z)
    by (intros a; apply Z.pow_pos_nonneg; lia).
  destruct t as [| c r].
  - cbn in Hsigned. discriminate.
  - cbn [length] in Hlen.
    pose proof (Hmono (length r) (length s - 1)%nat ltac:(lia)) as Hm1.
    pose proof (Hmono (length (String c r)) (length s) ltac:(cbn [length]; lia)) as Hm2.
    pose proof (Hmono (length s - 1)%nat (length s) ltac:(lia)) as Hm3.
    pose proof (Hpos (length s - 1)%nat) as Hp1.
    destruct c as [[] [] [] [] [] [] [] []]; cbv beta iota in Hsigned;
      first
        [ apply digits_bound in Hsigned; [lia | lia]
        | destruct (Py.digits 0 false r) as [d |] eqn:Hd; [| discriminate];
          injection Hsigned as <-; apply digits_bound in Hd; [lia | lia] ].
Qed.

(** X8. When the epoch field parses, its first two characters read as a
    number between -9 and 99 (a sign is accepted), the rest as a day of the
    year, and the year given to the date constructor lies between 1957 and
    2056: 57 to 99 are read as 1957 to 1999, everything below 57 as a year
    from 2000 on (a negative number as a year from 1991 to 1999). *)
Theorem epoch_year_window rt epoch_str d :
  SatelliteCollector.parse_tle_epoch_body rt epoch_str = Ok d ->
  exists yy day,
    Py.int (Py.slice 0 2 epoch_str) = Ok yy
    /\ (-9 <= yy <= 99)%Z
    /\ py_float rt (Py.slice_from 2 epoch_str) = Ok day
    /\ let year := if (yy <? 57)%Z then (yy + 2000)%Z else (yy + 1900)%Z in
       (1957 <= year <= 2056)%Z
       /\ ((57 <= yy)%Z -> (year <= 1999)%Z)
       /\ new_year_plus_days rt year (day - 1) = Ok d.
Proof.
  unfold SatelliteCollector.parse_tle_epoch_body. intros H.
  destruct (Py.int (Py.slice 0 2 epoch_str)) as [yy |] eqn:Hyy; [| discriminate].
  cbn [bind] in H.
  destruct (py_float rt (Py.slice_from 2 epoch_str)) as [day |] eqn:Hday; [| discriminate].
  cbn [bind] in H.
  exists yy, day.
  pose proof (int_bound _ _ Hyy) as Hb.
  pose proof (substring_length_le epoch_str 0 2) as Hlen.
  unfold Py.slice in Hb. cbn [Nat.sub] in Hb.
  assert (Hrange : (-9 <= yy <= 99)%Z).
  { assert (H1 : (10 ^ Z.of_nat (length (substring 0 2 epoch_str)) <= 10 ^ 2)%Z)
      by (apply Z.pow_le_mono_r; lia).
    assert (H2 : (10 ^ Z.of_nat (length (substring 0 2 epoch_str) - 1) <= 10 ^ 1)%Z)
      by (apply Z.pow_le_mono_r; lia).
    lia. }
  repeat apply conj; try assumption; try reflexivity; try lia.
  all: cbv zeta; destruct (yy <? 57)%Z eqn:Hy;
    [apply Z.ltb_lt in Hy | apply Z.ltb_ge in Hy]; try lia; try exact H.
Qed.

Lemma epoch_year_window_witness :
  exists d yy,
    SatelliteCollector.parse_tle_epoch_body example_runtime "24001.50000000" = Ok d
    /\ Py.int (Py.slice 0 2 "24001.50000000") = Ok yy
    /\ (-9 <= yy <= 99)%Z.
Proof.
  assert (H : exists d,
             SatelliteCollector.parse_tle_epoch_body example_runtime "24001.50000000" = Ok d).
  { unfold SatelliteCollector.parse_tle_epoch_body.
    replace (Py.int (Py.slice 0 2 "24001.50000000")) with (Ok 24%Z) by reflexivity.
    cbn [bind].
    replace (py_float example_runtime (Py.slice_from 2 "24001.50000000"))
      with (Ok 1.5) by reflexivity.
    cbn [bind]. eexists. reflexivity. }
  destruct H as [d Hd]. exists d.
  destruct (epoch_year_window example_runtime "24001.50000000" d Hd)
    as (yy & day & Hyy & Hrange & _).
  exists yy. auto.
Defined.

(** ** The session with Space-Track (spacetrack.py) *)

(** X9. Without both credentials [authenticate] fails whatever the login
    page would answer, and changes nothing. A call that succeeds leaves the
    satellites, the records and the credentials as they were. After a login
    answered with status 200 and a cookie that is not empty, at a time other
    than 0, every call less than [auth_duration] later succeeds without a
    login, whatever the network; after a login answered with status 200 and
    no cookie, which also counts as a success, the token is never fresh and
    every later call logs in again. *)
Theorem spacetrack_token_reuse pkg (self : SpaceTrackCollector.t pkg) :
  (has_credentials pkg self = false ->
   forall login t, SpaceTrackCollector.authenticate pkg self login t = (false, self))
  /\ (forall login t self1,
         SpaceTrackCollector.authenticate pkg self login t = (true, self1) ->
         has_credentials pkg self = true
         /\ SpaceTrackCollector.base pkg self1 = SpaceTrackCollector.base pkg self
         /\ SpaceTrackCollector.satellite_records pkg self1
            = SpaceTrackCollector.satellite_records pkg self
         /\ SpaceTrackCollector.username pkg self1 = SpaceTrackCollector.username pkg self
         /\ SpaceTrackCollector.password pkg self1 = SpaceTrackCollector.password pkg self
         /\ SpaceTrackCollector.auth_duration pkg self1
            = SpaceTrackCollector.auth_duration pkg self)
  /\ (has_credentials pkg self = true ->
      forall t, SpaceTrackCollector.token_is_fresh pkg self t = false ->
      (forall c cookie t' login',
          t <> 0 -> t' - t < SpaceTrackCollector.auth_duration pkg self ->
          let outcome :=
            SpaceTrackCollector.authenticate pkg self
              (Response 200 (Some (String c cookie))) t in
          fst outcome = true
          /\ SpaceTrackCollector.authenticate pkg (snd outcome) login' t'
             = (true, snd outcome))
      /\ (forall t',
             let outcome :=
               SpaceTrackCollector.authenticate pkg self (Response 200 None) t in
             fst outcome = true
             /\ SpaceTrackCollector.token_is_fresh pkg (snd outcome) t' = false)).
Proof.
  unfold has_credentials. repeat apply conj.
  - intros Hc login t. unfold SpaceTrackCollector.authenticate.
    rewrite <- negb_andb, Hc. reflexivity.
  - intros login t self1. unfold SpaceTrackCollector.authenticate.
    rewrite <- negb_andb.
    destruct (Py.truthy_str _ && Py.truthy_str _); cbn [negb]; [| discriminate].
    destruct (SpaceTrackCollector.token_is_fresh pkg self t).
    + intros [= <-]. repeat apply conj; reflexivity.
    + destruct login as [| status_code cookie]; [discriminate |].
      destruct (status_code =? 200)%Z; [| discriminate].
      intros [= <-]. repeat apply conj; reflexivity.
  - intros Hc t Hfresh. split.
    + intros c cookie t' login' Ht Hage.
      set (outcome := SpaceTrackCollector.authenticate pkg self _ t).
      assert (Hout : outcome
                     = (true,
                        SpaceTrackCollector.mk pkg (SpaceTrackCollector.base pkg self)
                          (SpaceTrackCollector.username pkg self)
                          (SpaceTrackCollector.password pkg self)
                          (Some (String c cookie)) (Some t)
                          (SpaceTrackCollector.auth_duration pkg self)
                          (SpaceTrackCollector.satellite_records pkg self))).
      { subst outcome. unfold SpaceTrackCollector.authenticate.
        rewrite <- negb_andb, Hc, Hfresh. reflexivity. }
      rewrite Hout. cbn [fst snd]. split; [reflexivity |].
      unfold SpaceTrackCollector.authenticate, SpaceTrackCollector.token_is_fresh.
      cbn [SpaceTrackCollector.username SpaceTrackCollector.password
           SpaceTrackCollector.auth_token SpaceTrackCollector.auth_time
           SpaceTrackCollector.auth_duration].
      rewrite <- negb_andb, Hc. cbn [negb].
      destruct (Req_dec_T t 0); [contradiction |].
      destruct (Rlt_dec (t' - t) _); [reflexivity | contradiction].
    + intros t'. unfold SpaceTrackCollector.authenticate.
      rewrite <- negb_andb, Hc, Hfresh. cbn [negb Z.eqb Pos.eqb fst snd].
      split; reflexivity.
Qed.

Lemma spacetrack_token_reuse_witness :
  let self := SpaceTrackCollector.__init__ example_sgp4 (Some "observer") (Some "secret") in
  let outcome :=
    SpaceTrackCollector.authenticate example_sgp4 self (Response 200 (Some "cookie")) 1 in
  fst outcome = true
  /\ SpaceTrackCollector.authenticate example_sgp4 (snd outcome) RequestFailed 2
     = (true, snd outcome).
Proof.
  intros self.
  destruct (spacetrack_token_reuse example_sgp4 self) as (_ & _ & H).
  destruct (H eq_refl 1 eq_refl) as [Hreuse _].
  apply Hreuse; cbn; lra.
Defined.

(** ** The records of the SGP4 propagator *)

Lemma dict_set_keys pkg (d : list (Z * Satrec pkg)) k v :
  forall x,
    In x (map fst (SpaceTrackCollector.dict_set pkg d k v)) <-> In x (map fst d) \/ x = k.
Proof.
  induction d as [| [k' v'] d IH]; intros x; cbn.
  - intuition.
  - destruct (k' =? k)%Z eqn:Hk.
    + apply Z.eqb_eq in Hk. subst k'. cbn. intuition.
    + cbn. rewrite IH. intuition.
Qed.

Lemma dict_set_NoDup pkg (d : list (Z * Satrec pkg)) k v :
  NoDup (map fst d) -> NoDup (map fst (SpaceTrackCollector.dict_set pkg d k v)).
Proof.
  induction d as [| [k' v'] d IH]; cbn; intros Hd.
  - constructor; [intros [] | constructor].
  - inversion Hd as [| ? ? Hin Hrest]; subst.
    destruct (k' =? k)%Z eqn:Hk.
    + apply Z.eqb_eq in Hk. subst k'. cbn. constructor; assumption.
    + apply Z.eqb_neq in Hk. cbn. constructor; [| apply IH; assumption].
      rewrite dict_set_keys. intros [Hx | Hx]; [contradiction | congruence].
Qed.

Lemma load_entries_match rt pkg utcnow tle_data :
  forall satellites records satellites' records',
    SpaceTrackCollector.load_entries rt pkg utcnow tle_data satellites records
    = Ok (satellites', records') ->
    NoDup (map fst records) ->
    (forall id, In id (map fst records) <-> In id (map norad_id satellites)) ->
    NoDup (map fst records')
    /\ (forall id, In id (map fst records') <-> In id (map norad_id satellites')).
Proof.
  induction tle_data as [| sat rest IH]; intros satellites records satellites' records' H Hd Hk.
  - cbn in H. injection H as <- <-. auto.
  - cbn [SpaceTrackCollector.load_entries] in H.
    destruct (SpaceTrackCollector.tle_entry rt pkg utcnow sat) as [[s r] | e].
    + apply IH in H; [exact H | apply dict_set_NoDup; exact Hd |].
      intros id. rewrite dict_set_keys, map_app, in_app_iff, Hk. cbn. intuition.
    + destruct e; try discriminate; apply IH in H; auto.
Qed.

Lemma fetch_keeps_records_match rt pkg self login query t utcnow :
  records_match pkg self ->
  records_match pkg
    (snd (SpaceTrackCollector.fetch_starlink_tle_data rt pkg self login query t utcnow)).
Proof.
  intros Hm. unfold SpaceTrackCollector.fetch_starlink_tle_data.
  destruct (SpaceTrackCollector.authenticate pkg self login t) as [authenticated self1] eqn:Ha.
  assert (Hm1 : records_match pkg self1).
  { unfold SpaceTrackCollector.authenticate in Ha.
    destruct (negb _ || negb _); [injection Ha as _ <-; exact Hm |].
    destruct (SpaceTrackCollector.token_is_fresh pkg self t); [injection Ha as _ <-; exact Hm |].
    destruct login as [| status_code cookie]; [injection Ha as _ <-; exact Hm |].
    destruct (status_code =? 200)%Z; injection Ha as _ <-; exact Hm. }
  destruct authenticated; cbn [negb]; [| exact Hm1].
  destruct query as [| status_code body]; [exact Hm1 |].
  destruct (negb (status_code =? 200)%Z); [exact Hm1 |].
  destruct body as [[| sat rest] |]; try exact Hm1.
  destruct (SpaceTrackCollector.load_entries rt pkg utcnow (sat :: rest) [] [])
    as [[satellites records] |] eqn:Hload; [| exact Hm1].
  apply load_entries_match in Hload; [| constructor | cbn; tauto].
  exact Hload.
Qed.

Lemma realtime_entry_id pkg self timestamp entry p :
  SpaceTrackCollector.realtime_entry pkg self timestamp entry = Ok (Some p) ->
  pos_norad_id p = fst entry.
Proof.
  unfold SpaceTrackCollector.realtime_entry. destruct entry as [id sat_record].
  destruct (SpaceTrackCollector.find_info pkg self id); [| discriminate].
  destruct (sgp4 pkg sat_record timestamp) as [[error_code r] v].
  destruct (negb (error_code =? 0)%Z); [discriminate |].
  destruct (SpaceTrackCollector._eci_to_geodetic r) as [[[lat lon] alt] |]; [| discriminate].
  destruct v as [[v0 v1] v2]. cbn [bind].
  destruct (Math.sqrt _); [| discriminate].
  cbn [bind]. intros [= <-]. reflexivity.
Qed.

Lemma realtime_positions_ids pkg self timestamp :
  NoDup (map fst (SpaceTrackCollector.satellite_records pkg self)) ->
  NoDup (map pos_norad_id (SpaceTrackCollector.calculate_realtime_positions pkg self timestamp))
  /\ incl (map pos_norad_id
             (SpaceTrackCollector.calculate_realtime_positions pkg self timestamp))
          (map fst (SpaceTrackCollector.satellite_records pkg self))
  /\ (List.length (SpaceTrackCollector.calculate_realtime_positions pkg self timestamp)
      <= List.length (SpaceTrackCollector.satellite_records pkg self))%nat.
Proof.
  unfold SpaceTrackCollector.calculate_realtime_positions.
  induction (SpaceTrackCollector.satellite_records pkg self) as [| entry records IH];
    cbn [flat_map map]; intros Hd.
  - repeat split; [constructor | intros x [] | cbn; lia].
  - inversion Hd as [| ? ? Hin Hrest]; subst.
    destruct (IH Hrest) as (IHd & IHi & IHl).
    destruct (SpaceTrackCollector.realtime_entry pkg self timestamp entry)
      as [[p |] |] eqn:He; cbn [app map List.length].
    + pose proof (realtime_entry_id _ _ _ _ _ He) as Hid.
      rewrite Hid. repeat split.
      * constructor; [intros Hx; apply Hin, IHi, Hx | exact IHd].
      * intros x [<- | Hx]; [left; reflexivity | right; apply IHi, Hx].
      * lia.
    + repeat split; [exact IHd | intros x Hx; right; apply IHi, Hx | lia].
    + repeat split; [exact IHd | intros x Hx; right; apply IHi, Hx | lia].
Qed.

Lemma sample_ids_distinct now :
  NoDup (map pos_norad_id (positions (SatelliteCollector._get_sample_satellite_data now))).
Proof.
  cbn [positions SatelliteCollector._get_sample_satellite_data seq map
       SatelliteCollector.sample_position pos_norad_id].
  repeat (apply NoDup_cons; [cbn [In]; lia |]). apply NoDup_nil.
Qed.

Lemma fetch_success_records_match rt pkg self login query t utcnow self1 :
  SpaceTrackCollector.fetch_starlink_tle_data rt pkg self login query t utcnow
  = (true, self1) ->
  records_match pkg self1.
Proof.
  unfold SpaceTrackCollector.fetch_starlink_tle_data.
  destruct (SpaceTrackCollector.authenticate pkg self login t) as [authenticated self0].
  destruct authenticated; cbn [negb]; [| discriminate].
  destruct query as [| status_code body]; [discriminate |].
  destruct (negb (status_code =? 200)%Z); [discriminate |].
  destruct body as [[| sat rest] |]; try discriminate.
  destruct (SpaceTrackCollector.load_entries rt pkg utcnow (sat :: rest) [] [])
    as [[satellites records] |] eqn:Hload; [| discriminate].
  intros [= <-].
  apply load_entries_match in Hload; [| constructor | cbn; tauto].
  exact Hload.
Qed.

(** X10. The SGP4 records of a Space-Track collector and its stored
    satellites carry the same catalog numbers, each record number once: the
    collector starts with it, a fetch that succeeds establishes it whatever
    the collector held before, and no call of [get_starlink_constellation]
    breaks it. Under it the snapshot returned never announces more positions
    than satellites and holds no catalog number twice, and every position of a
    snapshot computed from the records carries the catalog number of a stored
    satellite. *)
Theorem spacetrack_records_match rt pkg :
  (forall env_username env_password,
      records_match pkg (SpaceTrackCollector.__init__ pkg env_username env_password))
  /\ (forall self login query t utcnow self1,
         SpaceTrackCollector.fetch_starlink_tle_data rt pkg self login query t utcnow
         = (true, self1) ->
         records_match pkg self1)
  /\ (forall self login query t utcnow,
         records_match pkg self ->
         let '(snapshot, self1) :=
           SpaceTrackCollector.get_starlink_constellation rt pkg self login query t utcnow in
         records_match pkg self1
         /\ (positions_calculated snapshot <= satellite_count snapshot)%nat
         /\ NoDup (map pos_norad_id (positions snapshot))
         /\ (data_source snapshot = "spacetrack_sgp4" ->
             incl (map pos_norad_id (positions snapshot))
               (map norad_id
                  (SatelliteCollector.starlink_satellites
                     (SpaceTrackCollector.base pkg self1))))).
Proof.
  split; [| split].
  - intros env_username env_password. split; [constructor | cbn; tauto].
  - intros self login query t utcnow self1. apply fetch_success_records_match.
  - intros self login query t utcnow Hm.
    unfold SpaceTrackCollector.get_starlink_constellation.
    assert (Hm1 : records_match pkg
                    (snd (if SatelliteCollector._should_update_tle
                               (SpaceTrackCollector.base pkg self) t
                          then SpaceTrackCollector.fetch_starlink_tle_data rt pkg self login
                                 query t utcnow
                          else (true, self)))).
    { destruct (SatelliteCollector._should_update_tle _ _);
        [apply fetch_keeps_records_match, Hm | exact Hm]. }
    destruct (if SatelliteCollector._should_update_tle _ _ then _ else _) as [success self1].
    cbn [snd] in Hm1.
    destruct success; cbn [negb]; (split; [exact Hm1 |]).
    + cbn [positions_calculated satellite_count positions data_source].
      destruct Hm1 as [Hd Hk].
      destruct (realtime_positions_ids pkg self1 utcnow Hd) as (Hp & Hi & Hl).
      split; [| split; [exact Hp |]].
      * etransitivity; [exact Hl |].
        rewrite <- (length_map fst), <- (length_map norad_id).
        apply NoDup_incl_length; [exact Hd |]. intros id Hid. apply Hk, Hid.
      * intros _ id Hid. apply Hk, Hi, Hid.
    + split; [cbn; lia |]. split; [apply sample_ids_distinct |].
      cbn [data_source SatelliteCollector._get_sample_satellite_data]. discriminate.
Qed.

(** What the steady package gives for a record whose satellite is stored. *)
Lemma steady_realtime_entry self id record s :
  SpaceTrackCollector.find_info steady_sgp4 self id = Some s ->
  SpaceTrackCollector.realtime_entry steady_sgp4 self example_epoch (id, record)
  = Ok (Some (TlePosition (name s) id 0 0 550
                (R_sqrt.sqrt (0 ^ 2 + 7.6 ^ 2 + 0 ^ 2) * 3.6) example_epoch)).
Proof.
  intros Hs. unfold SpaceTrackCollector.realtime_entry. rewrite Hs.
  cbn [sgp4 steady_sgp4 Z.eqb negb]. rewrite eci_at_550_km. cbn [bind].
  rewrite sqrt_ok by nra. reflexivity.
Qed.

(** A collector with credentials, a login that is accepted and an answer of
    three entries, the third under the catalog number of the first: three
    satellites are stored under two record numbers, the snapshot is computed
    from the records and holds two positions, and the numbers match before
    and after. *)
Lemma spacetrack_records_match_witness :
  let self := SpaceTrackCollector.__init__ steady_sgp4 (Some "observer") (Some "secret") in
  exists snapshot self1,
    SpaceTrackCollector.get_starlink_constellation example_runtime steady_sgp4 self
      (Response 200 (Some "cookie")) (Response 200 (Some three_entries)) 1 example_epoch
    = (snapshot, self1)
    /\ SpaceTrackCollector.fetch_starlink_tle_data example_runtime steady_sgp4 self
         (Response 200 (Some "cookie")) (Response 200 (Some three_entries)) 1 example_epoch
       = (true, self1)
    /\ data_source snapshot = "spacetrack_sgp4"
    /\ map norad_id
         (SatelliteCollector.starlink_satellites (SpaceTrackCollector.base steady_sgp4 self1))
       = [44713; 44714; 44713]%Z
    /\ map fst (SpaceTrackCollector.satellite_records steady_sgp4 self1)
       = [44713; 44714]%Z
    /\ satellite_count snapshot = 3%nat
    /\ positions_calculated snapshot = 2%nat
    /\ map pos_norad_id (positions snapshot) = [44713; 44714]%Z
    /\ map pos_name (positions snapshot) = ["STARLINK-1007"; "STARLINK-1008"]
    /\ Forall (fun p => pos_lat p = 0 /\ pos_lng p = 0) (positions snapshot)
    /\ records_match steady_sgp4 self
    /\ records_match steady_sgp4 self1
    /\ (positions_calculated snapshot <= satellite_count snapshot)%nat
    /\ NoDup (map pos_norad_id (positions snapshot))
    /\ incl (map pos_norad_id (positions snapshot))
         (map norad_id
            (SatelliteCollector.starlink_satellites
               (SpaceTrackCollector.base steady_sgp4 self1))).
Proof.
  intros self.
  destruct (spacetrack_records_match example_runtime steady_sgp4) as (Hinit & Hload & Hkeep).
  pose proof (Hinit (Some "observer") (Some "secret")) as Hm0.
  fold self in Hm0.
  specialize (Hkeep self (Response 200 (Some "cookie")) (Response 200 (Some three_entries))
                1 example_epoch Hm0).
  set (record := (example_line1, example_line2) : Satrec steady_sgp4).
  assert (Hfetch :
            exists self1,
              SpaceTrackCollector.fetch_starlink_tle_data example_runtime steady_sgp4 self
                (Response 200 (Some "cookie")) (Response 200 (Some three_entries))
                1 example_epoch
              = (true, self1)
              /\ map norad_id
                   (SatelliteCollector.starlink_satellites
                      (SpaceTrackCollector.base steady_sgp4 self1))
                 = [44713; 44714; 44713]%Z
              /\ SpaceTrackCollector.satellite_records steady_sgp4 self1
                 = [(44713%Z, record); (44714%Z, record)]
              /\ option_map name (SpaceTrackCollector.find_info steady_sgp4 self1 44713)
                 = Some "STARLINK-1007"
              /\ option_map name (SpaceTrackCollector.find_info steady_sgp4 self1 44714)
                 = Some "STARLINK-1008").
  { eexists. split; [reflexivity |]. repeat split. }
  destruct Hfetch as (self1 & Hfetch & Hids & Hrecords & Hfirst & Hsecond).
  assert (Hup : SatelliteCollector._should_update_tle
                  (SpaceTrackCollector.base steady_sgp4 self) 1 = true) by reflexivity.
  destruct (SpaceTrackCollector.find_info steady_sgp4 self1 44713) as [s1 |] eqn:Hs1;
    [| discriminate].
  destruct (SpaceTrackCollector.find_info steady_sgp4 self1 44714) as [s2 |] eqn:Hs2;
    [| discriminate].
  cbn [option_map] in Hfirst, Hsecond.
  injection Hfirst as Hfirst. injection Hsecond as Hsecond.
  assert (Hpos : SpaceTrackCollector.calculate_realtime_positions steady_sgp4 self1
                   example_epoch
                 = [TlePosition "STARLINK-1007" 44713 0 0 550
                      (R_sqrt.sqrt (0 ^ 2 + 7.6 ^ 2 + 0 ^ 2) * 3.6) example_epoch;
                    TlePosition "STARLINK-1008" 44714 0 0 550
                      (R_sqrt.sqrt (0 ^ 2 + 7.6 ^ 2 + 0 ^ 2) * 3.6) example_epoch]).
  { unfold SpaceTrackCollector.calculate_realtime_positions. rewrite Hrecords.
    cbn [flat_map].
    rewrite (steady_realtime_entry self1 44713 record s1 Hs1),
      (steady_realtime_entry self1 44714 record s2 Hs2), Hfirst, Hsecond.
    reflexivity. }
  revert Hkeep. unfold SpaceTrackCollector.get_starlink_constellation.
  rewrite Hup, Hfetch. cbn [negb]. rewrite Hpos.
  intros (Hm1 & Hle & Hnodup & Hincl).
  eexists. exists self1. split; [reflexivity |].
  cbn [data_source satellite_count positions_calculated positions] in *.
  rewrite <- (length_map norad_id), Hids in *.
  repeat match goal with
         | |- _ /\ _ => split
         end; try reflexivity; try assumption.
  - rewrite Hrecords. reflexivity.
  - repeat constructor.
  - apply Hincl. reflexivity.
Defined.

(** ** A Space-Track answer of which no entry loads *)

Lemma load_entries_all_skipped rt pkg utcnow tle_data satellites records :
  Forall (fun sat =>
            SpaceTrackCollector.tle_entry rt pkg utcnow sat = Raise KeyError
            \/ SpaceTrackCollector.tle_entry rt pkg utcnow sat = Raise ValueError) tle_data ->
  SpaceTrackCollector.load_entries rt pkg utcnow tle_data satellites records
  = Ok (satellites, records).
Proof.
  induction 1 as [| sat rest Hsat Hrest IH]; cbn [SpaceTrackCollector.load_entries];
    [reflexivity |].
  destruct Hsat as [-> | ->]; exact IH.
Qed.

(** X11. When Space-Track answers the query with a list that is not empty
    but of which every entry is skipped (a key is missing, or the catalog
    number or the element set is rejected), the fetch succeeds all the same:
    it empties the store and the records and stamps the time. The snapshot of
    [get_starlink_constellation] is then tagged [spacetrack_sgp4] with no
    satellite and no position; the sample data are not used. *)
Theorem spacetrack_load_of_nothing rt pkg self login tle_data t utcnow :
  fst (SpaceTrackCollector.authenticate pkg self login t) = true ->
  tle_data <> [] ->
  Forall (fun sat =>
            SpaceTrackCollector.tle_entry rt pkg utcnow sat = Raise KeyError
            \/ SpaceTrackCollector.tle_entry rt pkg utcnow sat = Raise ValueError) tle_data ->
  let query := Response 200 (Some tle_data) in
  let '(success, self1) :=
    SpaceTrackCollector.fetch_starlink_tle_data rt pkg self login query t utcnow in
  success = true
  /\ SatelliteCollector.starlink_satellites (SpaceTrackCollector.base pkg self1) = []
  /\ SpaceTrackCollector.satellite_records pkg self1 = []
  /\ SatelliteCollector.last_tle_fetch (SpaceTrackCollector.base pkg self1) = Some t
  /\ (SatelliteCollector._should_update_tle (SpaceTrackCollector.base pkg self) t = true ->
      let snapshot :=
        fst (SpaceTrackCollector.get_starlink_constellation rt pkg self login query t utcnow) in
      data_source snapshot = "spacetrack_sgp4"
      /\ satellite_count snapshot = 0%nat
      /\ positions snapshot = []).
Proof.
  intros Ha Hne Hskip query.
  assert (Hfetch :
            SpaceTrackCollector.fetch_starlink_tle_data rt pkg self login query t utcnow
            = (true,
               let self1 := snd (SpaceTrackCollector.authenticate pkg self login t) in
               let b := SpaceTrackCollector.base pkg self1 in
               SpaceTrackCollector.mk pkg
                 (SatelliteCollector.mk (SatelliteCollector.celestrak_base b) []
                    (Some t) (SatelliteCollector.tle_cache_duration b))
                 (SpaceTrackCollector.username pkg self1)
                 (SpaceTrackCollector.password pkg self1)
                 (SpaceTrackCollector.auth_token pkg self1)
                 (SpaceTrackCollector.auth_time pkg self1)
                 (SpaceTrackCollector.auth_duration pkg self1) [])).
  { unfold SpaceTrackCollector.fetch_starlink_tle_data, query.
    destruct (SpaceTrackCollector.authenticate pkg self login t) as [authenticated self1].
    cbn [fst] in Ha. subst authenticated. cbn [negb Z.eqb Pos.eqb snd].
    destruct tle_data as [| sat rest]; [contradiction |].
    rewrite (load_entries_all_skipped _ _ _ _ _ _ Hskip). reflexivity. }
  rewrite Hfetch. cbv zeta. cbn [SpaceTrackCollector.base SpaceTrackCollector.satellite_records
                                 SatelliteCollector.starlink_satellites
                                 SatelliteCollector.last_tle_fetch].
  repeat apply conj; try reflexivity.
  intros Hupdate. unfold SpaceTrackCollector.get_starlink_constellation.
  rewrite Hupdate, Hfetch. cbn. repeat apply conj; reflexivity.
Qed.

Lemma spacetrack_load_of_nothing_witness :
  let self := SpaceTrackCollector.__init__ example_sgp4 (Some "observer") (Some "secret") in
  let query :=
    Response 200
      (Some [ {| OBJECT_NAME := Some "STARLINK-1007"; TLE_LINE1 := None;
                 TLE_LINE2 := None; NORAD_CAT_ID := Some "44713" |} ]) in
  let '(success, self1) :=
    SpaceTrackCollector.fetch_starlink_tle_data example_runtime example_sgp4 self
      (Response 200 (Some "cookie")) query 1 example_epoch in
  success = true
  /\ SatelliteCollector.starlink_satellites (SpaceTrackCollector.base example_sgp4 self1) = []
  /\ SpaceTrackCollector.satellite_records example_sgp4 self1 = []
  /\ SatelliteCollector.last_tle_fetch (SpaceTrackCollector.base example_sgp4 self1) = Some 1
  /\ (SatelliteCollector._should_update_tle (SpaceTrackCollector.base example_sgp4 self) 1
      = true ->
      let snapshot :=
        fst (SpaceTrackCollector.get_starlink_constellation example_runtime example_sgp4 self
               (Response 200 (Some "cookie")) query 1 example_epoch) in
      data_source snapshot = "spacetrack_sgp4"
      /\ satellite_count snapshot = 0%nat
      /\ positions snapshot = []).
Proof.
  intros self query.
  apply (spacetrack_load_of_nothing example_runtime example_sgp4 self
           (Response 200 (Some "cookie"))
           [ {| OBJECT_NAME := Some "STARLINK-1007"; TLE_LINE1 := None;
                TLE_LINE2 := None; NORAD_CAT_ID := Some "44713" |} ] 1 example_epoch).
  - reflexivity.
  - discriminate.
  - constructor; [left; reflexivity | constructor].
Defined.

(** ** The enhanced collector (enhanced_satellites.py) *)

Lemma try_sources_prefix fetch sources found invoked :
  EnhancedSatelliteCollector.try_sources fetch sources = (found, invoked) ->
  exists rest, sources = invoked ++ rest.
Proof.
  revert found invoked. induction sources as [| s sources IH]; cbn; intros found invoked H.
  - injection H as <- <-. exists []. reflexivity.
  - destruct (EnhancedSatelliteCollector.usable (fetch s)).
    + injection H as <- <-. exists sources. reflexivity.
    + destruct (EnhancedSatelliteCollector.try_sources fetch sources) as [f inv].
      injection H as <- <-. destruct (IH f inv eq_refl) as [rest ->].
      exists rest. reflexivity.
Qed.

Lemma try_sources_calls_first fetch first others found invoked :
  EnhancedSatelliteCollector.try_sources fetch (first :: others) = (found, invoked) ->
  exists more, invoked = first :: more.
Proof.
  cbn. destruct (EnhancedSatelliteCollector.usable (fetch first)).
  - intros [= <- <-]. exists []. reflexivity.
  - destruct (EnhancedSatelliteCollector.try_sources fetch others) as [f inv].
    intros [= <- <-]. exists inv. reflexivity.
Qed.

(** X12. As long as the snapshot the collector keeps has a position, which
    is so from the start, [get_starlink_constellation] never answers with an
    empty list of positions and keeps it so: a provider's snapshot is
    accepted and stored only with a position in it, and the fallback has 12
    and is not stored. The call changes neither the keys nor the list of
    sources nor the time to live, and the sources it calls are the first ones
    of the list, in order. When no snapshot is stored, or the stored one is
    as old as the time to live or older, the first source is called. *)
Theorem resolver_never_empty self fetch now now_cached utcnow :
  cache_usable self ->
  let '(snapshot, self1, invoked) :=
    EnhancedSatelliteCollector.get_starlink_constellation self fetch now now_cached utcnow in
  positions snapshot <> []
  /\ cache_usable self1
  /\ EnhancedSatelliteCollector.data_sources self1 = EnhancedSatelliteCollector.data_sources self
  /\ EnhancedSatelliteCollector.cache_duration self1
     = EnhancedSatelliteCollector.cache_duration self
  /\ EnhancedSatelliteCollector.satellitemap_key self1
     = EnhancedSatelliteCollector.satellitemap_key self
  /\ EnhancedSatelliteCollector.aviation_edge_key self1
     = EnhancedSatelliteCollector.aviation_edge_key self
  /\ (exists rest, EnhancedSatelliteCollector.data_sources self = invoked ++ rest)
  /\ (forall first others,
         EnhancedSatelliteCollector.data_sources self = first :: others ->
         EnhancedSatelliteCollector.cached_data self = None
         \/ (exists stored,
                EnhancedSatelliteCollector.last_update self = Some stored
                /\ (EnhancedSatelliteCollector.cache_duration self <= now - stored)%Z) ->
         exists more, invoked = first :: more).
Proof.
  intros Hcache. unfold EnhancedSatelliteCollector.get_starlink_constellation.
  destruct (EnhancedSatelliteCollector._is_cache_valid self now) eqn:Hvalid.
  - unfold cache_usable in Hcache.
    unfold EnhancedSatelliteCollector._is_cache_valid in Hvalid.
    destruct (EnhancedSatelliteCollector.cached_data self) as [cached |] eqn:Hc.
    + cbn in Hcache. repeat apply conj; try reflexivity; try assumption.
      * unfold cache_usable. rewrite Hc. exact Hcache.
      * exists (EnhancedSatelliteCollector.data_sources self). reflexivity.
      * intros first others _ [Hnone | (stored & Hs & Hold)]; [discriminate |].
        rewrite Hs in Hvalid. apply Z.ltb_lt in Hvalid. lia.
    + destruct (EnhancedSatelliteCollector.last_update self); discriminate.
  - destruct (EnhancedSatelliteCollector.try_sources fetch
                (EnhancedSatelliteCollector.data_sources self)) as [[data |] invoked] eqn:Ht.
    + destruct (try_sources_found _ _ _ _ Ht) as (source & _ & _ & Hp & _).
      repeat apply conj; try reflexivity.
      * exact Hp.
      * exact Hp.
      * exact (try_sources_prefix _ _ _ _ Ht).
      * intros first others Hs _. rewrite Hs in Ht.
        exact (try_sources_calls_first _ _ _ _ _ Ht).
    + repeat apply conj; try reflexivity.
      * cbn. discriminate.
      * exact Hcache.
      * exact (try_sources_prefix _ _ _ _ Ht).
      * intros first others Hs _. rewrite Hs in Ht.
        exact (try_sources_calls_first _ _ _ _ _ Ht).
Qed.

Lemma resolver_never_empty_witness :
  let '(snapshot, self1, invoked) :=
    EnhancedSatelliteCollector.get_starlink_constellation
      (EnhancedSatelliteCollector.__init__ None None)
      (fun _ => Ok (Some overhead_snapshot)) 0%Z 0%Z example_epoch in
  positions snapshot <> [] /\ cache_usable self1.
Proof.
  pose proof (resolver_never_empty (EnhancedSatelliteCollector.__init__ None None)
                (fun _ => Ok (Some overhead_snapshot)) 0%Z 0%Z example_epoch I) as H.
  destruct (EnhancedSatelliteCollector.get_starlink_constellation _ _ _ _ _)
    as [[snapshot self1] invoked].
  destruct H as (H1 & H2 & _). split; assumption.
Defined.

(** ** Looking a satellite up by its catalog number *)

Lemma find_first_match {A : Type} (f : A -> bool) (l : list A) :
  match find f l with
  | Some x =>
      f x = true
      /\ exists before after, l = before ++ x :: after /\ Forall (fun y => f y = false) before
  | None => Forall (fun y => f y = false) l
  end.
Proof.
  induction l as [| a l IH]; cbn; [constructor |].
  destruct (f a) eqn:Ha.
  - split; [exact Ha |]. exists [], l. split; [reflexivity | constructor].
  - destruct (find f l) as [x |].
    + destruct IH as (Hx & before & after & -> & Hb).
      split; [exact Hx |]. exists (a :: before), after.
      split; [reflexivity | constructor; assumption].
    + constructor; assumption.
Qed.

(** X13. [get_satellite_by_id] answers with the first position of the
    constellation that carries the catalog number, and with [None] exactly
    when no position carries it; the collector is left as a call of
    [get_starlink_constellation] leaves it. *)
Theorem satellite_by_id_is_first_match self fetch now now_cached utcnow norad_id :
  let '(found, self1) :=
    EnhancedLookup.get_satellite_by_id self fetch now now_cached utcnow norad_id in
  let '(snapshot, self2, _) :=
    EnhancedSatelliteCollector.get_starlink_constellation self fetch now now_cached utcnow in
  self1 = self2
  /\ match found with
     | Some sat =>
         pos_norad_id sat = norad_id
         /\ exists before after,
              positions snapshot = before ++ sat :: after /\ absent norad_id before
     | None => absent norad_id (positions snapshot)
     end.
Proof.
  unfold EnhancedLookup.get_satellite_by_id.
  destruct (EnhancedSatelliteCollector.get_starlink_constellation _ _ _ _ _)
    as [[snapshot self2] invoked].
  split; [reflexivity |].
  pose proof (find_first_match (fun sat => (pos_norad_id sat =? norad_id)%Z)
                (positions snapshot)) as H.
  assert (Habsent : forall l,
             Forall (fun y => (pos_norad_id y =? norad_id)%Z = false) l -> absent norad_id l).
  { intros l Hl. unfold absent. apply Forall_impl with (2 := Hl).
    intros y Hy. apply Z.eqb_neq, Hy. }
  destruct (find _ (positions snapshot)) as [sat |].
  - destruct H as (Hsat & before & after & Hsplit & Hb).
    split; [apply Z.eqb_eq, Hsat |]. exists before, after. auto.
  - auto.
Qed.

(** ** The Aviation Edge answer *)



(** ** The SatelliteMap answer and the coverage figures *)

Lemma approximate_position_lng info timestamp draw p :
  EnhancedSatelliteCollector._calculate_approximate_position info timestamp draw = Some p ->
  -180 <= pos_lng p <= 180 /\ pos_lat p = fst (fst draw).
Proof.
  unfold EnhancedSatelliteCollector._calculate_approximate_position.
  destruct draw as [[base_lat base_lng] altitude]. cbv zeta. intros [= <-].
  cbn [pos_lng pos_lat fst].
  match goal with
  | |- context [Math.fmod ?x 360] => pose proof (fmod_360 x) as [Hb _]
  end.
  split; [lra | reflexivity].
Qed.

Lemma approximate_positions_shape infos timestamp draws :
  forall i,
    List.length (EnhancedSatelliteCollector.approximate_positions infos timestamp draws i)
    = List.length infos
    /\ Forall (fun p => -180 <= pos_lng p <= 180)
         (EnhancedSatelliteCollector.approximate_positions infos timestamp draws i).
Proof.
  induction infos as [| info rest IH]; intros i;
    cbn [EnhancedSatelliteCollector.approximate_positions].
  - split; [reflexivity | constructor].
  - destruct (EnhancedSatelliteCollector._calculate_approximate_position info timestamp
                (draws i)) as [p |] eqn:Hp.
    + destruct (IH (S i)) as [Hl Hf]. cbn [List.length]. split; [lia |].
      constructor; [apply (approximate_position_lng _ _ _ _ Hp) | exact Hf].
    + unfold EnhancedSatelliteCollector._calculate_approximate_position in Hp.
      destruct (draws i) as [[? ?] ?]. discriminate.
Qed.

Lemma coverage_percentage_range (l : list Position) :
  0 <= global_coverage (EnhancedSatelliteCollector._calculate_coverage_stats l) <= 100.
Proof.
  unfold EnhancedSatelliteCollector._calculate_coverage_stats.
  destruct l as [| p l]; [cbn; lra |].
  cbn [global_coverage].
  pose proof (pos_INR (List.length (filter EnhancedSatelliteCollector.is_active (p :: l))))
    as Hn.
  unfold Math.min. destruct (Rlt_dec _ _); lra.
Qed.

(** X15. The figures of [_calculate_coverage_stats] are a percentage
    between 0 and 100, which is 100 exactly from ten active satellites on,
    and a number of active satellites that is the number of positions marked
    active, at most the number of positions. *)
Theorem coverage_is_a_percentage (l : list Position) :
  let c := EnhancedSatelliteCollector._calculate_coverage_stats l in
  0 <= global_coverage c <= 100
  /\ (active_satellites c <= List.length l)%nat
  /\ active_satellites c = List.length (filter EnhancedSatelliteCollector.is_active l)
  /\ (global_coverage c = 100 <-> (10 <= active_satellites c)%nat).
Proof.
  cbv zeta. unfold EnhancedSatelliteCollector._calculate_coverage_stats.
  destruct l as [| p l].
  - cbn. repeat apply conj; try lra; try lia; try reflexivity.
  - set (positions := p :: l). cbn [global_coverage active_satellites].
    set (n := List.length (filter EnhancedSatelliteCollector.is_active positions)).
    pose proof (pos_INR n) as Hn.
    repeat apply conj.
    + unfold Math.min. destruct (Rlt_dec _ _); lra.
    + unfold Math.min. destruct (Rlt_dec _ _); lra.
    + apply filter_length_le.
    + reflexivity.
    + unfold Math.min. intros H. apply INR_le. rewrite (INR_IZR_INZ 10).
      cbn [Z.of_nat Pos.of_succ_nat Pos.succ].
      destruct (Rlt_dec _ _); lra.
    + unfold Math.min. intros H. apply le_INR in H. rewrite (INR_IZR_INZ 10) in H.
      cbn [Z.of_nat Pos.of_succ_nat Pos.succ] in H.
      destruct (Rlt_dec _ _); lra.
Qed.

Lemma coverage_is_a_percentage_witness :
  0 <= global_coverage (EnhancedSatelliteCollector._calculate_coverage_stats [overhead]) <= 100.
Proof. apply (coverage_is_a_percentage [overhead]). Defined.

(** X16. A snapshot of [_get_satellitemap_data] comes from an answer with
    status 200 that lists at least one satellite; it holds one position for
    each of the first 50 satellites listed, so between 1 and 50 positions,
    every longitude within [-180, 180], and coverage figures whose percentage
    is between 0 and 100. *)
Theorem satellitemap_snapshot_shape self w snapshot :
  EnhancedSatelliteCollector._get_satellitemap_data self w = Some snapshot ->
  exists infos,
    satellitemap_reply w = Response 200 (Some infos)
    /\ List.length (positions snapshot) = Nat.min 50 (List.length infos)
    /\ (1 <= List.length (positions snapshot) <= 50)%nat
    /\ satellite_count snapshot = List.length (positions snapshot)
    /\ Forall (fun p => -180 <= pos_lng p <= 180) (positions snapshot)
    /\ exists c,
         coverage snapshot = Some c
         /\ 0 <= global_coverage c <= 100
         /\ total_tracked c = Some (List.length (positions snapshot)).
Proof.
  unfold EnhancedSatelliteCollector._get_satellitemap_data.
  destruct (negb (Py.truthy_str _)); [discriminate |].
  destruct (satellitemap_reply w) as [| status_code body]; [discriminate |].
  destruct (status_code =? 200)%Z eqn:Hstatus; cbn [negb]; [| discriminate].
  apply Z.eqb_eq in Hstatus. subst status_code.
  destruct body as [[| info rest] |]; try discriminate.
  set (infos := info :: rest).
  destruct (approximate_positions_shape (firstn 50 infos) (utcnow w) (uniform_draws w) 0)
    as [Hl Hf].
  rewrite length_firstn in Hl.
  assert (Hlen : (1 <= List.length infos)%nat) by (cbn; lia).
  set (ps := EnhancedSatelliteCollector.approximate_positions (firstn 50 infos) (utcnow w)
               (uniform_draws w) 0) in *.
  clearbody ps infos.
  intros [= <-]. exists infos. cbn [positions satellite_count coverage].
  repeat apply conj; try reflexivity; try assumption; try lia.
  eexists. split; [reflexivity |].
  split; [apply coverage_percentage_range |].
  unfold EnhancedSatelliteCollector._calculate_coverage_stats.
  destruct ps; [cbn [List.length] in Hl; lia | reflexivity].
Qed.

Lemma satellitemap_snapshot_shape_witness :
  let self := EnhancedSatelliteCollector.__init__ (Some "session") None in
  let w :=
    {| satellitemap_reply :=
         Response 200 (Some [ {| si_norad_id := Some 44713%Z; si_name := None;
                                 si_hardware_version := None; si_status := None |} ]);
       uniform_draws := fun _ => (0, 0, 550);
       aviation_edge_reply := RequestFailed;
       SPACETRACK_USERNAME := None;
       SPACETRACK_PASSWORD := None;
       spacetrack_login := RequestFailed;
       spacetrack_second_login := RequestFailed;
       spacetrack_query := RequestFailed;
       celestrak_reply := RequestFailed;
       time_time := 1704110400;
       utcnow := example_epoch |} in
  exists snapshot,
    EnhancedSatelliteCollector._get_satellitemap_data self w = Some snapshot
    /\ (1 <= List.length (positions snapshot) <= 50)%nat.
Proof.
  intros self w.
  assert (H : exists snapshot,
             EnhancedSatelliteCollector._get_satellitemap_data self w = Some snapshot)
    by (eexists; reflexivity).
  destruct H as [snapshot H]. exists snapshot. split; [exact H |].
  destruct (satellitemap_snapshot_shape self w snapshot H) as (infos & _ & _ & Hlen & _).
  exact Hlen.
Defined.

(** ** The satellites above a place (satellites.py) *)

Lemma visible_entry_ranges rt lat lon threshold now sat v :
  In v (SatelliteCollector.visible_entry rt lat lon threshold now sat) ->
  threshold <= elevation_degrees v <= 90
  /\ 0 <= azimuth_degrees v < 360
  /\ 0 <= distance_km v
  /\ -90 <= v_lat v <= 90
  /\ -180 <= v_lng v <= 180
  /\ v_norad_id v = norad_id sat.
Proof.
  unfold SatelliteCollector.visible_entry.
  destruct (SatelliteCollector._calculate_satellite_position rt sat now) as [position |] eqn:Hp;
    [| intros []].
  destruct (Rge_dec _ threshold) as [Hge | Hlt]; [| intros []].
  intros [<- | []].
  cbn [elevation_degrees azimuth_degrees distance_km v_lat v_lng v_norad_id].
  destruct (calculated_position_body _ _ _ _ Hp) as [k Hk].
  destruct (position_body_bounds _ _ _ _ _ Hk) as [Hlon Hlat].
  pose proof (elevation_range lat lon 0 (latitude position) (longitude position)
                (altitude_km position)) as He.
  pose proof (azimuth_range lat lon (latitude position) (longitude position)) as Ha.
  pose proof (distance_nonneg lat lon 0 (latitude position) (longitude position)
                (altitude_km position)) as [_ Hd].
  repeat apply conj; try lra.
  unfold SatelliteCollector.position_body in Hk. cbv zeta in Hk.
  invert_binds Hk. injection Hk as <- _. reflexivity.
Qed.

Lemma visible_list_ranges rt self lat lon threshold now :
  let visible :=
    SatelliteCollector.get_satellites_over_location rt self lat lon threshold now in
  Forall (fun v =>
            threshold <= elevation_degrees v <= 90
            /\ 0 <= azimuth_degrees v < 360
            /\ 0 <= distance_km v
            /\ -90 <= v_lat v <= 90
            /\ -180 <= v_lng v <= 180
            /\ In (v_norad_id v) (map norad_id (SatelliteCollector.starlink_satellites self)))
         visible
  /\ (List.length visible <= List.length (SatelliteCollector.starlink_satellites self))%nat.
Proof.
  cbv zeta. unfold SatelliteCollector.get_satellites_over_location. split.
  - apply sort_reverse_Forall. apply Forall_forall. intros v Hv.
    unfold SatelliteCollector.visible_unsorted in Hv.
    apply in_flat_map in Hv. destruct Hv as (sat & Hsat & Hv).
    destruct (visible_entry_ranges _ _ _ _ _ _ _ Hv) as (H1 & H2 & H3 & H4 & H5 & H6).
    repeat apply conj; try lra. rewrite H6. apply in_map, Hsat.
  - rewrite (Permutation_length (sort_reverse_perm _ _)).
    unfold SatelliteCollector.visible_unsorted. apply flat_map_length_le. intros sat.
    unfold SatelliteCollector.visible_entry.
    destruct (SatelliteCollector._calculate_satellite_position rt sat now); [| cbn; lia].
    destruct (Rge_dec _ _); cbn; lia.
Qed.

(** X17. Every entry of the list [get_satellites_over_location] returns has
    an elevation between the threshold and 90 degrees, an azimuth in
    [0, 360), a distance that is not negative, a latitude within [-90, 90]
    and a longitude within [-180, 180], and is the entry of a stored
    satellite; the list is no longer than the store. A threshold above 90
    degrees therefore gives the empty list. *)
Theorem visible_entries_in_range rt self lat lon threshold now :
  let visible :=
    SatelliteCollector.get_satellites_over_location rt self lat lon threshold now in
  Forall (fun v =>
            threshold <= elevation_degrees v <= 90
            /\ 0 <= azimuth_degrees v < 360
            /\ 0 <= distance_km v
            /\ -90 <= v_lat v <= 90
            /\ -180 <= v_lng v <= 180
            /\ In (v_norad_id v) (map norad_id (SatelliteCollector.starlink_satellites self)))
         visible
  /\ (List.length visible <= List.length (SatelliteCollector.starlink_satellites self))%nat
  /\ (90 < threshold -> visible = []).
Proof.
  cbv zeta. destruct (visible_list_ranges rt self lat lon threshold now) as [Hall Hlen].
  cbv zeta in Hall, Hlen.
  repeat apply conj; [exact Hall | exact Hlen |].
  intros Hhigh.
  destruct (SatelliteCollector.get_satellites_over_location rt self lat lon threshold now)
    as [| v rest]; [reflexivity |].
  inversion Hall as [| ? ? Hv _]; subst. lra.
Qed.

Lemma visible_entries_in_range_witness :
  SatelliteCollector.get_satellites_over_location example_runtime
    (SatelliteCollector.mk "" [example_sat] None 3600) 0 0 91 example_epoch
  = [].
Proof.
  apply (visible_entries_in_range example_runtime
           (SatelliteCollector.mk "" [example_sat] None 3600) 0 0 91 example_epoch).
  lra.
Defined.

(** ** The requests that start and stop the monitoring (app.py) *)

Lemma last_cons {A : Type} (a d : A) (l : list A) : last (a :: l) d = last l a.
Proof.
  revert a d. induction l as [| b l IH]; intros a d; [reflexivity |].
  change (last (a :: b :: l) d) with (last (b :: l) d).
  rewrite (IH b d), (IH b a). reflexivity.
Qed.

Lemma serve_invariant (requests : list App.request) :
  forall s0 : App.state,
    App.monitoring_active s0
    = MonitoringService.running (MonitoringService.self (App.monitor s0)) ->
    let s := App.serve s0 requests in
    App.monitoring_active s
    = MonitoringService.running (MonitoringService.self (App.monitor s))
    /\ App.monitoring_active s = last (map starts requests) (App.monitoring_active s0)
    /\ (MonitoringService.threads_started (App.monitor s)
        + (if App.monitoring_active s then 0 else 1)
        <= MonitoringService.threads_started (App.monitor s0)
           + (if App.monitoring_active s0 then 0 else 1)
           + List.length (filter (fun r => negb (starts r)) requests))%nat
    /\ (MonitoringService.threads_started (App.monitor s)
        <= MonitoringService.threads_started (App.monitor s0)
           + List.length (filter starts requests))%nat.
Proof.
  induction requests as [| r rest IH]; intros s0 H0; cbv zeta.
  - cbn. repeat apply conj; try assumption; try reflexivity; lia.
  - change (App.serve s0 (r :: rest)) with (App.serve (App.handle s0 r) rest).
    assert (H1 : App.monitoring_active (App.handle s0 r)
                 = MonitoringService.running
                     (MonitoringService.self (App.monitor (App.handle s0 r)))
                 /\ App.monitoring_active (App.handle s0 r) = starts r
                 /\ (MonitoringService.threads_started (App.monitor (App.handle s0 r))
                     + (if starts r then 0 else 1)
                     <= MonitoringService.threads_started (App.monitor s0)
                        + (if App.monitoring_active s0 then 0 else 1)
                        + (if starts r then 0 else 1))%nat
                 /\ (MonitoringService.threads_started (App.monitor (App.handle s0 r))
                     <= MonitoringService.threads_started (App.monitor s0)
                        + (if starts r then 1 else 0))%nat).
    { destruct s0 as [[[running interval] threads out] active]. cbn in H0. subst active.
      destruct r, running; cbn; repeat apply conj; try reflexivity; lia. }
    destruct H1 as (Ha & Hb & Hc & Hd).
    destruct (IH (App.handle s0 r) Ha) as (I1 & I2 & I3 & I4). cbv zeta in *.
    cbn [map filter]. rewrite last_cons. rewrite Hb in I2, I3.
    repeat apply conj; try assumption.
    + destruct (starts r); cbn [negb List.length]; lia.
    + destruct (starts r); cbn [List.length]; lia.
Qed.

(** X18. However the requests to start and to stop the monitoring and the
    socket connections follow one another after the boot, the flag
    [monitoring_active] agrees with the flag [running] of the service; both
    are what the last request asked for, a connection asking for a start; and
    the service has started at most one monitoring thread more than it was
    told to stop, and at most one for each request that starts. *)
Theorem monitoring_flag_follows_service (requests : list App.request) :
  let s := App.serve App.boot requests in
  App.monitoring_active s
  = MonitoringService.running (MonitoringService.self (App.monitor s))
  /\ App.monitoring_active s = last (map starts requests) false
  /\ (MonitoringService.threads_started (App.monitor s)
      <= S (List.length (filter (fun r => negb (starts r)) requests)))%nat
  /\ (MonitoringService.threads_started (App.monitor s)
      <= List.length (filter starts requests))%nat.
Proof.
  destruct (serve_invariant requests App.boot eq_refl) as (H1 & H2 & H3 & H4).
  cbv zeta in *. cbn [App.boot App.monitor App.monitoring_active MonitoringService.boot
                      MonitoringService.threads_started] in *.
  repeat apply conj; try assumption; lia.
Qed.

(** ** The route of the visible satellites (app.py) *)

(** X19. The route [/api/satellites/visible] answers 200 only when the
    three parameters read as numbers and the collector is not the enhanced
    one, which has no method [get_satellites_over_location]: with the
    enhanced collector, the default configuration, every request is answered
    400 or 500. A 200 answer echoes the numbers read, 0, 0 and 10 standing
    for absent parameters; its count is the length of its list, and every
    satellite listed has an elevation between the minimum asked for and 90
    degrees. The answer is 400 when the first parameter that does not read
    raises [ValueError]. *)
Theorem visible_route_answers rt pkg (satellite_collector : App.collector pkg)
    lat lon elevation now :
  let answer :=
    App.get_visible_satellites rt pkg satellite_collector lat lon elevation now in
  (forall c, satellite_collector = App.Enhanced pkg c ->
             answer = App.Answer500 \/ exists error, answer = App.Answer400 error)
  /\ (forall la lo me count sats,
         answer = App.Answer200 la lo me count sats ->
         App.query_float rt lat 0 = Ok la
         /\ App.query_float rt lon 0 = Ok lo
         /\ App.query_float rt elevation 10 = Ok me
         /\ (forall c, satellite_collector <> App.Enhanced pkg c)
         /\ count = List.length sats
         /\ Forall (fun v => me <= elevation_degrees v <= 90) sats)
  /\ (forall la lo me,
         App.query_float rt lat 0 = Ok la ->
         App.query_float rt lon 0 = Ok lo ->
         App.query_float rt elevation 10 = Ok me ->
         (forall c, satellite_collector <> App.Enhanced pkg c) ->
         exists sats, answer = App.Answer200 la lo me (List.length sats) sats)
  /\ (forall error,
         answer = App.Answer400 error ->
         error = "Invalid coordinates provided"
         /\ (App.query_float rt lat 0 = Raise ValueError
             \/ App.query_float rt lon 0 = Raise ValueError
             \/ App.query_float rt elevation 10 = Raise ValueError)).
Proof.
  cbv zeta. unfold App.get_visible_satellites.
  destruct (App.query_float rt lat 0) as [la' | e1]; cbn [bind].
  2: { repeat apply conj.
       - intros c _. destruct e1; auto. right. eexists. reflexivity.
       - intros la lo me count sats H. destruct e1; discriminate.
       - intros la lo me H. discriminate.
       - intros error H. destruct e1; try discriminate. injection H as <-. auto. }
  destruct (App.query_float rt lon 0) as [lo' | e2]; cbn [bind].
  2: { repeat apply conj.
       - intros c _. destruct e2; auto. right. eexists. reflexivity.
       - intros la lo me count sats H. destruct e2; discriminate.
       - intros la lo me _ H. discriminate.
       - intros error H. destruct e2; try discriminate. injection H as <-. auto. }
  destruct (App.query_float rt elevation 10) as [me' | e3]; cbn [bind].
  2: { repeat apply conj.
       - intros c _. destruct e3; auto. right. eexists. reflexivity.
       - intros la lo me count sats H. destruct e3; discriminate.
       - intros la lo me _ _ H. discriminate.
       - intros error H. destruct e3; try discriminate. injection H as <-. auto. }
  repeat apply conj.
  - intros c ->. left. reflexivity.
  - intros la lo me count sats H.
    destruct satellite_collector as [c | c | c]; [discriminate | |];
      injection H as <- <- <- <- <-;
      (repeat apply conj; try reflexivity; try (intros c'; discriminate));
      apply Forall_impl with (2 := proj1 (visible_list_ranges rt _ la' lo' me' now));
      intros v Hv; apply Hv.
  - intros la lo me [= <-] [= <-] [= <-] Hc.
    destruct satellite_collector as [c | c | c];
      [exfalso; apply (Hc c); reflexivity | |]; eexists; reflexivity.
  - intros error H. destruct satellite_collector; discriminate.
Qed.

Lemma visible_route_answers_witness :
  let answer :=
    App.get_visible_satellites example_runtime example_sgp4
      (App.Enhanced example_sgp4 (EnhancedSatelliteCollector.__init__ None None))
      None None None example_epoch in
  answer = App.Answer500 \/ exists error, answer = App.Answer400 error.
Proof.
  intros answer.
  apply (proj1 (visible_route_answers example_runtime example_sgp4
                  (App.Enhanced example_sgp4 (EnhancedSatelliteCollector.__init__ None None))
                  None None None example_epoch)
           (EnhancedSatelliteCollector.__init__ None None)).
  reflexivity.
Defined.

(** ** The ratings of the dish (starlink.py) *)

Lemma quality_by_score (raw : StarlinkCollector.status_data) :
  StarlinkCollector._calculate_connection_quality raw
  = rating_of_score
      (signal_points raw + latency_points raw + loss_points raw + obstruction_points raw).
Proof.
  unfold StarlinkCollector._calculate_connection_quality, signal_points, latency_points,
    loss_points, obstruction_points, rating_of_score.
  cbv zeta.
  destruct (Rgt_dec _ 0.8); [| destruct (Rgt_dec _ 0.6); [| destruct (Rgt_dec _ 0.3)]];
    (destruct (Rlt_dec _ 30); [| destruct (Rlt_dec _ 60); [| destruct (Rlt_dec _ 100)]]);
    (destruct (Rlt_dec _ 1); [| destruct (Rlt_dec _ 5)]);
    destruct (get_or (StarlinkCollector.currently_obstructed raw) true);
    reflexivity.
Qed.

Lemma rating_of_score_rank (score : nat) :
  rating_rank (rating_of_score score)
  = if (8 <=? score)%nat then 4%nat
    else if (6 <=? score)%nat then 3%nat
    else if (4 <=? score)%nat then 2%nat
    else if (2 <=? score)%nat then 1%nat
    else 0%nat.
Proof.
  unfold rating_of_score.
  destruct (8 <=? score)%nat; [reflexivity |].
  destruct (6 <=? score)%nat; [reflexivity |].
  destruct (4 <=? score)%nat; [reflexivity |].
  destruct (2 <=? score)%nat; reflexivity.
Qed.

Lemma rating_rank_monotone (n m : nat) :
  (n <= m)%nat ->
  (rating_rank (rating_of_score n) <= rating_rank (rating_of_score m))%nat.
Proof.
  intros H. rewrite !rating_of_score_rank.
  destruct (8 <=? n)%nat eqn:H8; destruct (8 <=? m)%nat eqn:M8;
    destruct (6 <=? n)%nat eqn:H6; destruct (6 <=? m)%nat eqn:M6;
    destruct (4 <=? n)%nat eqn:H4; destruct (4 <=? m)%nat eqn:M4;
    destruct (2 <=? n)%nat eqn:H2; destruct (2 <=? m)%nat eqn:M2;
    try lia;
    repeat match goal with
           | E : (_ <=? _)%nat = true |- _ => apply Nat.leb_le in E
           | E : (_ <=? _)%nat = false |- _ => apply Nat.leb_gt in E
           end; lia.
Qed.

Lemma points_monotone (a b : StarlinkCollector.status_data) :
  no_worse a b ->
  (signal_points b <= signal_points a)%nat
  /\ (latency_points b <= latency_points a)%nat
  /\ (loss_points b <= loss_points a)%nat
  /\ (obstruction_points b <= obstruction_points a)%nat.
Proof.
  intros (Hs & Hl & Hd & Ho).
  unfold signal_points, latency_points, loss_points, obstruction_points. cbv zeta.
  repeat apply conj.
  - repeat (destruct (Rgt_dec _ _)); try lia; lra.
  - repeat (destruct (Rlt_dec _ _)); try lia; lra.
  - repeat (destruct (Rlt_dec _ _)); try lia; lra.
  - destruct (get_or (StarlinkCollector.currently_obstructed a) true);
      [rewrite Ho by reflexivity; lia |].
    destruct (get_or (StarlinkCollector.currently_obstructed b) true); lia.
Qed.

(** X20. The rating of the status data never gets worse when a measure gets
    better: with a signal quality at least as high, a latency and a drop rate
    at most as high and no new obstruction, the rating is at least as good.
    A rating of Excellent needs a reported signal quality above 0.3 and a
    reported latency under 100 ms; with the best signal, latency and drop
    rate the rating is Excellent even for an obstructed dish. *)
Theorem connection_rating_is_monotone (a b : StarlinkCollector.status_data) :
  (no_worse a b ->
   (rating_rank (StarlinkCollector._calculate_connection_quality b)
    <= rating_rank (StarlinkCollector._calculate_connection_quality a))%nat)
  /\ (StarlinkCollector._calculate_connection_quality a = "Excellent" ->
      exists signal latency,
        StarlinkCollector.signal_quality a = Some signal /\ 0.3 < signal
        /\ StarlinkCollector.ping_latency_ms a = Some latency /\ latency < 100)
  /\ (forall signal latency loss,
         StarlinkCollector.signal_quality a = Some signal -> 0.8 < signal ->
         StarlinkCollector.ping_latency_ms a = Some latency -> latency < 30 ->
         StarlinkCollector.ping_drop_rate a = Some loss -> loss * 100 < 1 ->
         StarlinkCollector._calculate_connection_quality a = "Excellent").
Proof.
  repeat apply conj.
  - intros H. rewrite !quality_by_score.
    destruct (points_monotone a b H) as (H1 & H2 & H3 & H4).
    apply rating_rank_monotone. lia.
  - rewrite quality_by_score. intros H.
    assert (Hscore : (8 <= signal_points a + latency_points a + loss_points a
                           + obstruction_points a)%nat).
    { unfold rating_of_score in H.
      destruct (8 <=? _)%nat eqn:H8; [apply Nat.leb_le in H8; exact H8 |].
      destruct (6 <=? _)%nat; [discriminate |].
      destruct (4 <=? _)%nat; [discriminate |].
      destruct (2 <=? _)%nat; discriminate. }
    assert (Hl : (loss_points a <= 2)%nat)
      by (unfold loss_points; cbv zeta; repeat (destruct (Rlt_dec _ _)); lia).
    assert (Ho : (obstruction_points a <= 2)%nat)
      by (unfold obstruction_points; destruct (get_or _ _); lia).
    assert (Hs3 : (signal_points a <= 3)%nat)
      by (unfold signal_points; cbv zeta; repeat (destruct (Rgt_dec _ _)); lia).
    assert (Hl3 : (latency_points a <= 3)%nat)
      by (unfold latency_points; cbv zeta; repeat (destruct (Rlt_dec _ _)); lia).
    assert (Hs : (1 <= signal_points a)%nat) by lia.
    assert (Hlat : (1 <= latency_points a)%nat) by lia.
    unfold signal_points in Hs. unfold latency_points in Hlat. cbv zeta in Hs, Hlat.
    destruct (StarlinkCollector.signal_quality a) as [signal |];
      destruct (StarlinkCollector.ping_latency_ms a) as [latency |]; cbn [get_or] in Hs, Hlat.
    + exists signal, latency.
      repeat (destruct (Rgt_dec _ _) in Hs); repeat (destruct (Rlt_dec _ _) in Hlat);
        repeat apply conj; try reflexivity; try lra; lia.
    + repeat (destruct (Rlt_dec _ _) in Hlat); try lra; lia.
    + repeat (destruct (Rgt_dec _ _) in Hs); try lra; lia.
    + repeat (destruct (Rgt_dec _ _) in Hs); try lra; lia.
  - intros signal latency loss Hs Hs' Hl Hl' Hd Hd'. rewrite quality_by_score.
    unfold signal_points, latency_points, loss_points. cbv zeta.
    rewrite Hs, Hl, Hd. cbn [get_or].
    destruct (Rgt_dec signal 0.8); [| lra].
    destruct (Rlt_dec latency 30); [| lra].
    destruct (Rlt_dec (loss * 100) 1); [| lra].
    unfold obstruction_points. destruct (get_or _ _); reflexivity.
Qed.

Lemma connection_rating_is_monotone_witness :
  let a := StarlinkCollector.mkStatus (Some 0.9) (Some 25) (Some 0) (Some false) in
  let b := StarlinkCollector.mkStatus (Some 0.5) None (Some 0) (Some false) in
  (rating_rank (StarlinkCollector._calculate_connection_quality b)
   <= rating_rank (StarlinkCollector._calculate_connection_quality a))%nat.
Proof.
  intros a b. apply (proj1 (connection_rating_is_monotone a b)).
  unfold no_worse, a, b. cbn. repeat apply conj; first [lra | auto].
Defined.

Lemma issues_bound (raw : StarlinkCollector.diagnostic_data) : (issues raw <= 4)%nat.
Proof.
  unfold issues, StarlinkCollector.as_int.
  repeat (destruct (get_or _ false)); cbn; lia.
Qed.

Lemma diagnostic_quality_by_issues (raw : StarlinkCollector.diagnostic_data) :
  StarlinkCollector._calculate_diagnostic_quality raw
  = let hardware_test := get_or (StarlinkCollector.hardwareSelfTest raw) "UNKNOWN" in
    if String.eqb hardware_test "FAILED" || (3 <=? issues raw)%nat then "Poor"
    else if (2 <=? issues raw)%nat then "Fair"
    else if (issues raw =? 1)%nat then "Good"
    else if String.eqb hardware_test "PASSED" && (issues raw =? 0)%nat then "Excellent"
    else "Good".
Proof. reflexivity. Qed.

(** X21. The rating of the diagnostic data is Poor whenever the hardware
    self test reads FAILED, is Excellent exactly when it reads PASSED and no
    counted alert is raised, and is never Very Poor. With the same self test,
    raising more alerts never improves it. *)
Theorem diagnostic_rating (a b : StarlinkCollector.diagnostic_data) :
  (StarlinkCollector.hardwareSelfTest a = Some "FAILED" ->
   StarlinkCollector._calculate_diagnostic_quality a = "Poor")
  /\ (StarlinkCollector._calculate_diagnostic_quality a = "Excellent" <->
      StarlinkCollector.hardwareSelfTest a = Some "PASSED" /\ issues a = 0%nat)
  /\ (1 <= rating_rank (StarlinkCollector._calculate_diagnostic_quality a))%nat
  /\ (StarlinkCollector.hardwareSelfTest a = StarlinkCollector.hardwareSelfTest b ->
      (issues a <= issues b)%nat ->
      (rating_rank (StarlinkCollector._calculate_diagnostic_quality b)
       <= rating_rank (StarlinkCollector._calculate_diagnostic_quality a))%nat).
Proof.
  rewrite !diagnostic_quality_by_issues. cbv zeta.
  split; [| split; [| split]].
  - intros ->. reflexivity.
  - split.
    + destruct (String.eqb _ "FAILED" || _); [discriminate |].
      destruct (2 <=? issues a)%nat; [discriminate |].
      destruct (issues a =? 1)%nat; [discriminate |].
      destruct (String.eqb _ "PASSED") eqn:Hp; cbn [andb]; [| discriminate].
      destruct (issues a =? 0)%nat eqn:Hi; [| discriminate].
      intros _. apply String.eqb_eq in Hp. apply Nat.eqb_eq in Hi.
      destruct (StarlinkCollector.hardwareSelfTest a) as [test |]; cbn [get_or] in Hp;
        [subst test; auto | discriminate].
    + intros [-> ->]. reflexivity.
  - destruct (String.eqb _ "FAILED" || _); [cbn; lia |].
    destruct (2 <=? issues a)%nat; [cbn; lia |].
    destruct (issues a =? 1)%nat; [cbn; lia |].
    destruct (String.eqb _ "PASSED" && _); cbn; lia.
  - intros <- Hle.
    destruct (String.eqb (get_or (StarlinkCollector.hardwareSelfTest a) "UNKNOWN") "FAILED");
      cbn [orb]; [cbn; lia |].
    destruct (String.eqb (get_or (StarlinkCollector.hardwareSelfTest a) "UNKNOWN") "PASSED");
      cbn [andb];
      destruct (3 <=? issues a)%nat eqn:A3; destruct (3 <=? issues b)%nat eqn:B3;
      destruct (2 <=? issues a)%nat eqn:A2; destruct (2 <=? issues b)%nat eqn:B2;
      destruct (issues a =? 1)%nat eqn:A1; destruct (issues b =? 1)%nat eqn:B1;
      destruct (issues a =? 0)%nat eqn:A0; destruct (issues b =? 0)%nat eqn:B0;
      try (cbn; lia);
      repeat match goal with
             | E : (_ <=? _)%nat = true |- _ => apply Nat.leb_le in E
             | E : (_ <=? _)%nat = false |- _ => apply Nat.leb_gt in E
             | E : (_ =? _)%nat = true |- _ => apply Nat.eqb_eq in E
             | E : (_ =? _)%nat = false |- _ => apply Nat.eqb_neq in E
             end; lia.
Qed.

Lemma diagnostic_rating_witness :
  StarlinkCollector._calculate_diagnostic_quality
    (StarlinkCollector.mkDiagnostic None None None None (Some "FAILED"))
  = "Poor".
Proof.
  apply (proj1 (diagnostic_rating
                  (StarlinkCollector.mkDiagnostic None None None None (Some "FAILED"))
                  (StarlinkCollector.mkDiagnostic None None None None (Some "FAILED")))).
  reflexivity.
Defined.

(** ** The speed estimates *)

Lemma int_of_float_bounds (x : R) (lo hi : Z) :
  IZR lo <= x -> x <= IZR hi -> (0 <= lo)%Z ->
  (lo <= StarlinkCollector.int_of_float x <= hi)%Z.
Proof.
  intros Hlo Hhi H0. unfold StarlinkCollector.int_of_float.
  assert (H0' : 0 <= IZR lo) by (apply IZR_le; exact H0).
  destruct (Rle_dec 0 x); [| lra].
  split; [apply Zfloor_lub; exact Hlo |].
  apply le_IZR. pose proof (Zfloor_bound x). lra.
Qed.

(** X22. Whatever the download test does (no answer, another status than
    200, a stream that breaks, a clock that does not advance), the estimates
    of [_estimate_network_speed] are a download speed between 10 and 500 and
    an upload speed between 1 and 75, at most 15 hundredths of the download
    speed. *)
Theorem speed_estimates_in_range reply start_time end_time :
  let '(download, upload) :=
    StarlinkCollector._estimate_network_speed reply start_time end_time in
  (10 <= download <= 500)%Z
  /\ (1 <= upload <= 75)%Z
  /\ IZR upload <= IZR download * 0.15.
Proof.
  unfold StarlinkCollector._estimate_network_speed. cbv zeta.
  assert (Htypical : (10 <= 100 <= 500)%Z /\ (1 <= 15 <= 75)%Z /\ IZR 15 <= IZR 100 * 0.15)
    by (repeat apply conj; try lia; lra).
  destruct reply as [| status_code stream]; [exact Htypical |].
  destruct (status_code =? 200)%Z; [| exact Htypical].
  destruct (StarlinkCollector.read_chunks stream 0) as [downloaded |]; [| exact Htypical].
  destruct (Rgt_dec _ 0); [| exact Htypical].
  set (download := Z.max 10 (Z.min 500 _)).
  assert (Hd : (10 <= download <= 500)%Z) by (unfold download; lia).
  assert (Hl : IZR 10 <= IZR download) by (apply IZR_le; lia).
  assert (Hu : IZR download <= IZR 500) by (apply IZR_le; lia).
  split; [exact Hd |]. split.
  - apply int_of_float_bounds; [lra | lra | lia].
  - unfold StarlinkCollector.int_of_float.
    destruct (Rle_dec 0 (IZR download * 0.15)); [| lra].
    apply Zfloor_bound.
Qed.

(** ** The discovery of the dish *)

Lemma try_endpoints_found raw has_key probe ip urls kind ip' raw_data :
  StarlinkCollector.try_endpoints raw has_key probe ip urls
  = Some (StarlinkCollector.Found raw kind ip' raw_data) ->
  ip' = ip
  /\ (exists endpoint, In endpoint urls /\ probe endpoint = Response 200 (Ok raw_data))
  /\ (kind = StarlinkCollector.StatusData
      <-> StarlinkCollector._is_status_data raw has_key raw_data = true)
  /\ (kind = StarlinkCollector.DiagnosticData ->
      StarlinkCollector._is_diagnostic_data raw has_key raw_data = true).
Proof.
  induction urls as [| endpoint rest IH]; cbn [StarlinkCollector.try_endpoints];
    [discriminate |].
  assert (Hrest :
            StarlinkCollector.try_endpoints raw has_key probe ip rest
            = Some (StarlinkCollector.Found raw kind ip' raw_data) ->
            ip' = ip
            /\ (exists e, In e (endpoint :: rest) /\ probe e = Response 200 (Ok raw_data))
            /\ (kind = StarlinkCollector.StatusData
                <-> StarlinkCollector._is_status_data raw has_key raw_data = true)
            /\ (kind = StarlinkCollector.DiagnosticData ->
                StarlinkCollector._is_diagnostic_data raw has_key raw_data = true)).
  { intros H. destruct (IH H) as (H1 & (e & He & Hp) & H3 & H4).
    repeat apply conj; try assumption; try apply H3.
    exists e. split; [right; exact He | exact Hp]. }
  destruct (probe endpoint) as [| status_code body] eqn:Hprobe; [exact Hrest |].
  destruct (status_code =? 200)%Z eqn:Hstatus; [| exact Hrest].
  apply Z.eqb_eq in Hstatus. subst status_code.
  destruct body as [data | e].
  - destruct (StarlinkCollector._is_status_data raw has_key data) eqn:Hs.
    + intros [= <- <- <-]. repeat apply conj; try reflexivity; try (intros _; assumption).
      * exists endpoint. split; [left; reflexivity | exact Hprobe].
      * discriminate.
    + destruct (StarlinkCollector._is_diagnostic_data raw has_key data) eqn:Hd;
        [| exact Hrest].
      intros [= <- <- <-]. repeat apply conj; try reflexivity; try (intros _; assumption).
      * exists endpoint. split; [left; reflexivity | exact Hprobe].
      * discriminate.
      * rewrite Hs. discriminate.
  - destruct e; try discriminate. exact Hrest.
Qed.

Lemma try_ips_found raw has_key probe ips kind ip raw_data :
  StarlinkCollector.try_ips raw has_key probe ips = StarlinkCollector.Found raw kind ip raw_data ->
  In ip ips /\ ip <> ""
  /\ (exists endpoint,
         In endpoint (StarlinkCollector.endpoints ip)
         /\ probe endpoint = Response 200 (Ok raw_data))
  /\ (kind = StarlinkCollector.StatusData
      <-> StarlinkCollector._is_status_data raw has_key raw_data = true)
  /\ (kind = StarlinkCollector.DiagnosticData ->
      StarlinkCollector._is_diagnostic_data raw has_key raw_data = true).
Proof.
  induction ips as [| candidate rest IH]; cbn [StarlinkCollector.try_ips]; [discriminate |].
  assert (Hrest :
            StarlinkCollector.try_ips raw has_key probe rest
            = StarlinkCollector.Found raw kind ip raw_data ->
            In ip (candidate :: rest) /\ ip <> ""
            /\ (exists endpoint,
                   In endpoint (StarlinkCollector.endpoints ip)
                   /\ probe endpoint = Response 200 (Ok raw_data))
            /\ (kind = StarlinkCollector.StatusData
                <-> StarlinkCollector._is_status_data raw has_key raw_data = true)
            /\ (kind = StarlinkCollector.DiagnosticData ->
                StarlinkCollector._is_diagnostic_data raw has_key raw_data = true)).
  { intros H. destruct (IH H) as (H1 & H2 & H3 & H4 & H5).
    repeat apply conj; try assumption; try apply H4. right. exact H1. }
  destruct candidate as [| c candidate]; [exact Hrest |].
  destruct (StarlinkCollector.try_endpoints raw has_key probe (String c candidate) _)
    as [o |] eqn:Ho; [| exact Hrest].
  intros ->. apply try_endpoints_found in Ho. destruct Ho as (-> & H2 & H3 & H4).
  repeat apply conj; try assumption; try apply H3; [left; reflexivity | discriminate].
Qed.

Lemma try_endpoints_ext raw has_key probe probe' ip urls :
  (forall endpoint, In endpoint urls -> probe endpoint = probe' endpoint) ->
  StarlinkCollector.try_endpoints raw has_key probe ip urls
  = StarlinkCollector.try_endpoints raw has_key probe' ip urls.
Proof.
  induction urls as [| endpoint rest IH]; intros H; cbn [StarlinkCollector.try_endpoints];
    [reflexivity |].
  rewrite <- (H endpoint (or_introl eq_refl)).
  rewrite IH by (intros e He; apply H; right; exact He). reflexivity.
Qed.

Lemma try_endpoints_silent raw has_key probe ip urls :
  (forall endpoint, In endpoint urls -> probe endpoint = RequestFailed) ->
  StarlinkCollector.try_endpoints raw has_key probe ip urls = None.
Proof.
  induction urls as [| endpoint rest IH]; intros H; cbn [StarlinkCollector.try_endpoints];
    [reflexivity |].
  rewrite (H endpoint (or_introl eq_refl)). apply IH. intros e He. apply H. right. exact He.
Qed.

(** X23. When [get_status] finds a dish, at an address that is not empty
    and at one of its three endpoints, whose answer has status 200 and a key
    of the status data or, failing that, of the diagnostic data, the
    collector keeps that address: a later call asks the three endpoints of
    that address and nothing else, so that its result depends on no other
    answer, and when they are silent it finds no dish and leaves the
    collector as it is, whatever the other addresses would answer. *)
Theorem dish_address_sticks raw has_key (self : StarlinkCollector.t raw) probe
    kind ip raw_data self1 :
  StarlinkCollector.get_status raw has_key self probe
  = (StarlinkCollector.Found raw kind ip raw_data, self1) ->
  ip <> ""
  /\ StarlinkCollector.dish_ip raw self1 = Some ip
  /\ StarlinkCollector.base_url raw self1 = Some ("http://" ++ ip)%string
  /\ (exists endpoint,
         In endpoint (StarlinkCollector.endpoints ip)
         /\ probe endpoint = Response 200 (Ok raw_data))
  /\ (kind = StarlinkCollector.StatusData
      <-> StarlinkCollector._is_status_data raw has_key raw_data = true)
  /\ (kind = StarlinkCollector.DiagnosticData ->
      StarlinkCollector._is_diagnostic_data raw has_key raw_data = true)
  /\ (forall probe' probe'',
         (forall endpoint,
             In endpoint (StarlinkCollector.endpoints ip) ->
             probe' endpoint = probe'' endpoint) ->
         StarlinkCollector.get_status raw has_key self1 probe'
         = StarlinkCollector.get_status raw has_key self1 probe'')
  /\ (forall probe',
         (forall endpoint,
             In endpoint (StarlinkCollector.endpoints ip) ->
             probe' endpoint = RequestFailed) ->
         StarlinkCollector.get_status raw has_key self1 probe'
         = (StarlinkCollector.NotFound raw, self1)).
Proof.
  unfold StarlinkCollector.get_status at 1. cbv zeta.
  destruct (StarlinkCollector.try_ips raw has_key probe _) as [k i r | |] eqn:Hfound;
    try discriminate.
  intros [= -> -> -> <-].
  destruct (try_ips_found _ _ _ _ _ _ _ Hfound) as (_ & Hip & Hend & Hkind & Hdiag).
  cbn [StarlinkCollector.dish_ip StarlinkCollector.base_url].
  destruct ip as [| c ip]; [contradiction |].
  repeat apply conj; try assumption; try reflexivity; try apply Hkind.
  - intros probe' probe'' Hsame. unfold StarlinkCollector.get_status.
    cbn [StarlinkCollector.dish_ip StarlinkCollector.try_ips].
    rewrite (try_endpoints_ext raw has_key probe' probe'' _ _ Hsame). reflexivity.
  - intros probe' Hsilent. unfold StarlinkCollector.get_status.
    cbn [StarlinkCollector.dish_ip StarlinkCollector.try_ips].
    rewrite (try_endpoints_silent raw has_key probe' _ _ Hsilent). reflexivity.
Qed.

Lemma dish_address_sticks_witness :
  let has_key := fun (data : list string) key => existsb (String.eqb key) data in
  let probe := fun endpoint =>
    if String.eqb endpoint "http://192.168.1.1" then Response 200 (Ok ["id"; "uptime_s"])
    else RequestFailed in
  exists self1,
    StarlinkCollector.get_status (list string) has_key
      (StarlinkCollector.__init__ (list string) None) probe
    = (StarlinkCollector.Found (list string) StarlinkCollector.StatusData "192.168.1.1"
         ["id"; "uptime_s"], self1)
    /\ StarlinkCollector.dish_ip (list string) self1 = Some "192.168.1.1".
Proof.
  intros has_key probe.
  assert (H : exists self1,
             StarlinkCollector.get_status (list string) has_key
               (StarlinkCollector.__init__ (list string) None) probe
             = (StarlinkCollector.Found (list string) StarlinkCollector.StatusData
                  "192.168.1.1" ["id"; "uptime_s"], self1))
    by (eexists; reflexivity).
  destruct H as [self1 H]. exists self1. split; [exact H |].
  destruct (dish_address_sticks _ _ _ _ _ _ _ _ H) as (_ & Hip & _). exact Hip.
Defined.

(** ** A refresh of the element sets that fails (satellites.py) *)

Lemma fetch_failure rt self reply t utcnow :
  fst (SatelliteCollector._fetch_starlink_tle_data rt self reply t utcnow) = false ->
  SatelliteCollector._fetch_starlink_tle_data rt self reply t utcnow = (false, self).
Proof.
  unfold SatelliteCollector._fetch_starlink_tle_data.
  destruct reply as [| status_code content]; [reflexivity |].
  destruct (negb (status_code =? 200)%Z); [reflexivity |].
  destruct (50000000 <? Z.of_nat (length content))%Z; [reflexivity |].
  destruct (SatelliteCollector.parse_triplets rt utcnow _) as [satellites |]; [| reflexivity].
  destruct (List.length satellites =? 0)%nat; [reflexivity | discriminate].
Qed.

(** X24. When the element sets are due for a refresh and the fetch fails
    (CelesTrak does not answer, or answers with another status than 200, or
    with no element set that is kept), [get_starlink_constellation] answers
    with the sample data, also when the store still holds the element sets of
    an earlier fetch; the collector is left as it was, so that every later
    call tries the fetch again. *)
Theorem failed_refresh_gives_sample_data rt self reply t utcnow :
  SatelliteCollector._should_update_tle self t = true ->
  fst (SatelliteCollector._fetch_starlink_tle_data rt self reply t utcnow) = false ->
  SatelliteCollector.get_starlink_constellation rt self reply t utcnow
  = (SatelliteCollector._get_sample_satellite_data utcnow, self)
  /\ (forall t', t <= t' -> SatelliteCollector._should_update_tle self t' = true)
  /\ fst (SatelliteCollector._fetch_starlink_tle_data rt self RequestFailed t utcnow) = false
  /\ (forall status_code content,
         status_code <> 200%Z ->
         fst (SatelliteCollector._fetch_starlink_tle_data rt self
                (Response status_code content) t utcnow) = false).
Proof.
  intros Hdue Hfail. repeat apply conj.
  - unfold SatelliteCollector.get_starlink_constellation.
    rewrite Hdue, (fetch_failure _ _ _ _ _ Hfail). reflexivity.
  - intros t' Hlater. unfold SatelliteCollector._should_update_tle in *.
    destruct (SatelliteCollector.no_fetch_yet self); [reflexivity |].
    destruct (SatelliteCollector.last_tle_fetch self) as [f |]; [| reflexivity].
    destruct (Rgt_dec (t - f) _); [| discriminate].
    destruct (Rgt_dec (t' - f) _); [reflexivity | lra].
  - reflexivity.
  - intros status_code content Hstatus. unfold SatelliteCollector._fetch_starlink_tle_data.
    apply Z.eqb_neq in Hstatus. rewrite Hstatus. reflexivity.
Qed.

Lemma failed_refresh_gives_sample_data_witness :
  let self :=
    SatelliteCollector.mk "https://celestrak.org/NORAD/elements/" [example_sat] (Some 1) 3600 in
  SatelliteCollector.get_starlink_constellation example_runtime self RequestFailed 7200
    example_epoch
  = (SatelliteCollector._get_sample_satellite_data example_epoch, self).
Proof.
  intros self.
  apply (failed_refresh_gives_sample_data example_runtime self RequestFailed 7200
           example_epoch).
  - unfold SatelliteCollector._should_update_tle, SatelliteCollector.no_fetch_yet, self.
    cbn [SatelliteCollector.last_tle_fetch SatelliteCollector.tle_cache_duration].
    destruct (Req_dec_T 1 0); [lra |]. destruct (Rgt_dec (7200 - 1) 3600); [reflexivity | lra].
  - reflexivity.
Defined.

(** ** When the enhanced fallback is reached *)

Lemma try_sources_none fetch sources invoked :
  EnhancedSatelliteCollector.try_sources fetch sources = (None, invoked) ->
  Forall (fun q => EnhancedSatelliteCollector.usable (fetch q) = None) sources.
Proof.
  revert invoked. induction sources as [| s sources IH]; cbn; intros invoked H;
    [constructor |].
  destruct (EnhancedSatelliteCollector.usable (fetch s)) eqn:Hs; [discriminate |].
  destruct (EnhancedSatelliteCollector.try_sources fetch sources) as [found inv].
  injection H as -> <-. constructor; [exact Hs | apply (IH inv); reflexivity].
Qed.

Lemma provider_tag_is_not_fallback rt pkg self w source data :
  In source priority_order ->
  EnhancedSatelliteCollector.fetch_source rt pkg self w source = Ok (Some data) ->
  data_source data <> "enhanced_fallback".
Proof.
  intros Hin Hfetch. pose proof (fetch_source_tag _ _ _ _ _ _ Hin Hfetch) as Htag.
  cbn in Hin. destruct Hin as [<- | [<- | [<- | [<- | []]]]]; cbn in Htag;
    intuition congruence.
Qed.

(** X25. With the sources in the order of [__init__] and no valid cache,
    the enhanced collector answers with its fallback only if CelesTrak
    delivered element sets that were stored and none of the first 20 could be
    propagated. When the CelesTrak fetch fails, the answer is never the
    fallback: at worst it is the ten sample positions of the CelesTrak
    collector, which are stored like any provider's snapshot. *)
Theorem fallback_needs_unusable_elements rt pkg self w now now_cached now_fallback :
  EnhancedSatelliteCollector.data_sources self = priority_order ->
  EnhancedSatelliteCollector._is_cache_valid self now = false ->
  let '(snapshot, self1, _) :=
    EnhancedSatelliteCollector.get_starlink_constellation self
      (EnhancedSatelliteCollector.fetch_source rt pkg self w) now now_cached now_fallback in
  let fetched :=
    SatelliteCollector._fetch_starlink_tle_data rt SatelliteCollector.__init__
      (celestrak_reply w) (time_time w) (utcnow w) in
  (data_source snapshot = "enhanced_fallback" ->
   fst fetched = true
   /\ SatelliteCollector.current_positions rt
        (firstn 20 (SatelliteCollector.starlink_satellites (snd fetched))) (utcnow w) = [])
  /\ (fst fetched = false ->
      data_source snapshot <> "enhanced_fallback"
      /\ positions snapshot <> []
      /\ EnhancedSatelliteCollector.cached_data self1 = Some snapshot).
Proof.
  intros Hsources Hvalid. unfold EnhancedSatelliteCollector.get_starlink_constellation.
  rewrite Hvalid, Hsources.
  destruct (EnhancedSatelliteCollector.try_sources _ priority_order) as [[data |] invoked]
    eqn:Htry.
  - destruct (try_sources_found _ _ _ _ Htry) as (source & Hin & Hfetch & Hp & _).
    pose proof (provider_tag_is_not_fallback _ _ _ _ _ _ Hin Hfetch) as Htag.
    cbv zeta. split; [intros H; contradiction |].
    intros _. repeat apply conj; [exact Htag | exact Hp | reflexivity].
  - apply try_sources_none in Htry.
    assert (Hcelestrak :
              EnhancedSatelliteCollector.usable
                (EnhancedSatelliteCollector.fetch_source rt pkg self w "celestrak_fallback")
              = None).
    { apply (proj1 (Forall_forall _ _) Htry). cbn. auto. }
    assert (Hempty :
              positions
                (fst (SatelliteCollector.get_starlink_constellation rt
                        SatelliteCollector.__init__ (celestrak_reply w) (time_time w)
                        (utcnow w))) = []).
    { change (EnhancedSatelliteCollector.fetch_source rt pkg self w "celestrak_fallback")
        with (Ok (Some
                    (fst (SatelliteCollector.get_starlink_constellation rt
                            SatelliteCollector.__init__ (celestrak_reply w) (time_time w)
                            (utcnow w))))) in Hcelestrak.
      cbn [EnhancedSatelliteCollector.usable] in Hcelestrak.
      destruct (positions _); [reflexivity | discriminate]. }
    unfold SatelliteCollector.get_starlink_constellation in Hempty.
    change (SatelliteCollector._should_update_tle SatelliteCollector.__init__ (time_time w))
      with true in Hempty.
    cbv zeta.
    destruct (SatelliteCollector._fetch_starlink_tle_data rt SatelliteCollector.__init__
                (celestrak_reply w) (time_time w) (utcnow w)) as [success stored].
    cbn [fst snd]. destruct success; cbn [negb] in Hempty.
    + split; [| discriminate]. intros _. split; [reflexivity |].
      destruct (SatelliteCollector.starlink_satellites stored) as [| s rest];
        [discriminate Hempty | exact Hempty].
    + discriminate Hempty.
Qed.

Lemma fallback_needs_unusable_elements_witness :
  let self := EnhancedSatelliteCollector.__init__ None None in
  let '(snapshot, self1, _) :=
    EnhancedSatelliteCollector.get_starlink_constellation self
      (EnhancedSatelliteCollector.fetch_source example_runtime example_sgp4 self silent_world)
      0%Z 0%Z example_epoch in
  data_source snapshot <> "enhanced_fallback"
  /\ positions snapshot <> []
  /\ EnhancedSatelliteCollector.cached_data self1 = Some snapshot.
Proof.
  intros self.
  pose proof (fallback_needs_unusable_elements example_runtime example_sgp4 self silent_world
                0%Z 0%Z example_epoch eq_refl eq_refl) as H.
  destruct (EnhancedSatelliteCollector.get_starlink_constellation _ _ _ _ _)
    as [[snapshot self1] invoked].
  apply H. reflexivity.
Defined.

(** ** The satellite catalog (spacetrack.py, app.py) *)

Lemma catalog_info_cases pkg self login query t :
  let '(info, self1) :=
    SpaceTrackCatalog.get_satellite_catalog_info pkg self login query t in
  self1 = snd (SpaceTrackCollector.authenticate pkg self login t)
  /\ (fst (SpaceTrackCollector.authenticate pkg self login t) = false -> info = [])
  /\ (forall entries,
         fst (SpaceTrackCollector.authenticate pkg self login t) = true ->
         query = Response 200 (Some entries) ->
         info = map SpaceTrackCatalog.catalog_entry_of entries)
  /\ (forall status_code body,
         query = Response status_code body -> status_code <> 200%Z -> info = [])
  /\ (query = RequestFailed -> info = []).
Proof.
  unfold SpaceTrackCatalog.get_satellite_catalog_info.
  destruct (SpaceTrackCollector.authenticate pkg self login t) as [authenticated self1].
  cbn [fst snd]. destruct authenticated; cbn [negb].
  - destruct query as [| status_code body].
    + repeat apply conj; try reflexivity; try discriminate.
    + destruct (status_code =? 200)%Z eqn:Hstatus; cbn [negb].
      * apply Z.eqb_eq in Hstatus. subst status_code.
        destruct body as [catalog_data |]; repeat apply conj; try reflexivity;
          try discriminate.
        { intros entries _ [= <-]. reflexivity. }
        { intros status_code body [= <- _] H. contradiction. }
      * repeat apply conj; try reflexivity; try discriminate.
        intros entries _ [= -> _]. discriminate.
  - repeat apply conj; try reflexivity; try discriminate.
Qed.

(** X26. The route [/api/satellites/catalog] answers 400, with the hint to
    configure Space-Track, for the enhanced and the CelesTrak collectors and
    leaves them alone. For the Space-Track collector it always answers 200:
    the count is the length of the list; the list is empty when the
    authentication fails, when the query is not answered or is answered with
    another status than 200; and after an authentication that succeeds and an
    answer of status 200 it has one entry for each entry of the answer, in
    order. The stored satellites and the SGP4 records are not touched. *)
Theorem catalog_route_answers pkg (satellite_collector : App.collector pkg) login query t :
  let '(answer, collector1) :=
    App.get_satellite_catalog pkg satellite_collector login query t in
  match satellite_collector with
  | App.SpaceTrack _ c =>
      exists info c1,
        answer = App.Catalog200 (List.length info) info
        /\ collector1 = App.SpaceTrack pkg c1
        /\ SpaceTrackCollector.base pkg c1 = SpaceTrackCollector.base pkg c
        /\ SpaceTrackCollector.satellite_records pkg c1
           = SpaceTrackCollector.satellite_records pkg c
        /\ (has_credentials pkg c = false -> info = [])
        /\ (query = RequestFailed -> info = [])
        /\ (forall status_code body,
               query = Response status_code body -> status_code <> 200%Z -> info = [])
        /\ (forall entries,
               fst (SpaceTrackCollector.authenticate pkg c login t) = true ->
               query = Response 200 (Some entries) ->
               info = map SpaceTrackCatalog.catalog_entry_of entries
               /\ List.length info = List.length entries)
  | _ =>
      collector1 = satellite_collector
      /\ exists hint,
           answer
           = App.Catalog400 "Catalog info only available with Space-Track data source" hint
  end.
Proof.
  unfold App.get_satellite_catalog.
  destruct satellite_collector as [c | c | c].
  - split; [reflexivity | eexists; reflexivity].
  - pose proof (catalog_info_cases pkg c login query t) as H.
    destruct (SpaceTrackCatalog.get_satellite_catalog_info pkg c login query t)
      as [info c1].
    destruct H as (Hself & Hfail & Hok & Hstatus & Hsilent).
    exists info, c1.
    assert (Hkept : SpaceTrackCollector.base pkg c1 = SpaceTrackCollector.base pkg c
                    /\ SpaceTrackCollector.satellite_records pkg c1
                       = SpaceTrackCollector.satellite_records pkg c).
    { subst c1. unfold SpaceTrackCollector.authenticate.
      destruct (negb _ || negb _); [split; reflexivity |].
      destruct (SpaceTrackCollector.token_is_fresh pkg c t); [split; reflexivity |].
      destruct login as [| status_code cookie]; [split; reflexivity |].
      destruct (status_code =? 200)%Z; split; reflexivity. }
    destruct Hkept as [Hbase Hrecords].
    repeat apply conj; try reflexivity; try assumption.
    + intros Hc. apply Hfail. unfold SpaceTrackCollector.authenticate.
      unfold has_credentials in Hc. rewrite <- negb_andb, Hc. reflexivity.
    + intros entries Ha Hq. rewrite (Hok entries Ha Hq).
      split; [reflexivity | apply length_map].
  - split; [reflexivity | eexists; reflexivity].
Qed.

Lemma catalog_route_answers_witness :
  let c := SpaceTrackCollector.__init__ example_sgp4 None None in
  let '(answer, collector1) :=
    App.get_satellite_catalog example_sgp4 (App.SpaceTrack example_sgp4 c)
      RequestFailed RequestFailed 1 in
  answer = App.Catalog200 0 [].
Proof.
  intros c.
  pose proof (catalog_route_answers example_sgp4 (App.SpaceTrack example_sgp4 c)
                RequestFailed RequestFailed 1) as H.
  destruct (App.get_satellite_catalog _ _ _ _ _) as [answer collector1].
  destruct H as (info & c1 & Hanswer & _ & _ & _ & Hnone & _).
  rewrite Hanswer, (Hnone eq_refl). reflexivity.
Defined.
